(** * Ticket allocation and draw engine of the lottery bot

    A shallow embedding of the two bot programs of the repository:

    - [AdminBot] embeds [src/Main.py], the variant in which an administrator
      verifies every payment ([AdminSystem.verify_payment]);
    - [SelfBot] embeds [src/main.py], the self-service variant in which the
      upload of a payment proof confirms the purchase
      ([process_payment_proof]).

    Both programs keep their data in a keyed document store.  The store is
    modelled by explicit state passing; what the store does on its own
    (order of a stream, failure of [update] on a missing document) is written
    out in the section [Store].  Messages sent to chats and channels are not
    part of the state: the engine's correctness does not depend on them. *)

From Stdlib Require Import ZArith String List DecimalString Permutation.
From stdpp Require Import gmap strings list fin_maps sorting.

Open Scope Z_scope.

(** ** Configuration (identical in both programs) *)

Definition TICKET_VALUES : list Z := [100; 200; 300].
Definition TOTAL_TICKETS_PER_VALUE : Z := 100.

(** [REWARDS] is a dict; a missing key is [None]. *)
Definition REWARDS (ticket_value : Z) : option (list Z) :=
  if decide (ticket_value = 100) then Some [5000; 2000; 1000]
  else if decide (ticket_value = 200) then Some [10000; 4000; 2000]
  else if decide (ticket_value = 300) then Some [15000; 6000; 3000]
  else None.

Definition REFERRAL_REQUIRED_COUNT : Z := 10.
Definition REFERRAL_BONUS_TICKET_VALUE : Z := 200.
Definition LOYALTY_BONUS_PURCHASE_COUNT : Z := 10.

(** ** The document store *)

(** Python's [str(n)] for an integer: the id of ticket [n]'s document. *)
Definition doc_id (n : Z) : string := NilZero.string_of_int (Z.to_int n).

Section Store.
Context {V : Type}.

(** A ticket collection.  Every ticket document is created under the id
    [str(num)], so the model keeps the number [num] as key.  A stream without
    an explicit order yields the documents in ascending order of their id,
    and ids are strings: the list is kept in the order of [doc_id]. *)
Definition Collection : Type := list (Z * V).

Definition stream (c : Collection) : list (Z * V) := c.

Fixpoint doc_get (k : Z) (c : Collection) : option V :=
  match c with
  | [] => None
  | (k', d) :: c' => if decide (k = k') then Some d else doc_get k c'
  end.

(** [document(id).set(d)]: creates the document or overwrites it. *)
Fixpoint doc_set (k : Z) (d : V) (c : Collection) : Collection :=
  match c with
  | [] => [(k, d)]
  | (k', d') :: c' =>
      if decide (k = k') then (k, d) :: c'
      else if String.ltb (doc_id k) (doc_id k') then (k, d) :: (k', d') :: c'
      else (k', d') :: doc_set k d c'
  end.

(** [document(id).update(fields)]: fails ([None], the store's NotFound)
    when the document does not exist. *)
Fixpoint doc_update (k : Z) (f : V → V) (c : Collection) : option Collection :=
  match c with
  | [] => None
  | (k', d) :: c' =>
      if decide (k = k') then Some ((k, f d) :: c')
      else match doc_update k f c' with
           | Some c'' => Some ((k', d) :: c'')
           | None => None
           end
  end.
End Store.

Arguments Collection : clear implicits.

(** Python's [range(1, TOTAL_TICKETS_PER_VALUE + 1)]. *)
Definition ticket_range : list Z := seqZ 1 TOTAL_TICKETS_PER_VALUE.

(** What the random generator returned: [random.shuffle] and [random.choice]
    are taken as given functions; the theorems that need it assume
    [ValidOracle].  [now k] is the value of the k-th [datetime.now()] of a
    handler. *)
Record Oracle (R : Type) : Type := {
  shuffle : list R → list R;
  choice : list Z → Z;
  now : nat → Z
}.
Arguments shuffle {R} _ _.
Arguments choice {R} _ _.
Arguments now {R} _ _.

Definition ValidOracle {R : Type} (o : Oracle R) : Prop :=
  (∀ l, shuffle o l ≡ₚ l) ∧ (∀ l, l ≠ [] → choice o l ∈ l).

(** Python's truth value of an optional integer: [None] and [0] are false. *)
Definition truthy (x : option Z) : bool :=
  match x with
  | Some n => negb (Z.eqb n 0)
  | None => false
  end.

(** ** Handlers as state transformers that may raise

    A handler reads and writes the store and may raise; what was written
    before the exception stays written (the store has no rollback). *)

Definition M (S A : Type) : Type := S → option A * S.

Definition ret {S A : Type} (a : A) : M S A := λ s, (Some a, s).

Definition raise {S A : Type} : M S A := λ s, (None, s).

Definition bind {S A B : Type} (m : M S A) (k : A → M S B) : M S B :=
  λ s, match m s with
       | (Some a, s') => k a s'
       | (None, s') => (None, s')
       end.

(** [try: m except: h]. *)
Definition try_except {S A : Type} (m : M S A) (h : M S A) : M S A :=
  λ s, match m s with
       | (Some a, s') => (Some a, s')
       | (None, s') => h s'
       end.

Definition gets {S A : Type} (f : S → A) : M S A := λ s, (Some (f s), s).

Definition modify {S : Type} (f : S → S) : M S unit := λ s, (Some (), f s).

Definition lift_option {S A : Type} (x : option A) : M S A :=
  match x with
  | Some a => ret a
  | None => raise
  end.

Notation "'let!' x ':=' m 'in' k" := (bind m (λ x, k))
  (at level 10, x binder, m at level 100, k at level 200).
Notation "'do!' m 'in' k" := (bind m (λ _, k))
  (at level 10, m at level 100, k at level 200).

(** * [src/Main.py]: payments verified by an administrator *)

Module AdminBot.

(** A document of [tickets_{value}].  A fresh ticket has no [buyer_id],
    [is_free] or [free_reason] field: they read as [None], [false], [None].
    Timestamps ([sold_at], [batch_id]) are left out. *)
Record Ticket : Type := {
  number : Z;
  value : Z;
  is_sold : bool;
  buyer_id : option string;
  is_free : bool;
  free_reason : option string
}.

(** A document of [lottery_registrations]: the log of sales. *)
Record Registration : Type := {
  reg_ticket_value : Z;
  reg_ticket_number : Z;
  reg_buyer_id : string;
  reg_is_free : bool;
  reg_free_reason : option string
}.

Inductive Status : Type := pending_verification | verified.

(** A document of [transactions]. *)
Record Transaction : Type := {
  tx_user_id : string;
  tx_ticket_value : Z;
  tx_ticket_number : Z;
  tx_payment_proof_file_id : string;
  tx_status : Status;
  tx_verified_by : option string
}.

(** A user document; [tickets_purchased_count] is keyed by the ticket value. *)
Record User : Type := {
  referral_code : string;
  balance : Z;
  tickets_purchased_count : gmap Z Z;
  referral_count : Z;
  referral_bonus_claimed : bool
}.

Record Winner : Type := {
  position : Z;
  ticket_number : Z;
  user_id : string;
  prize : Z
}.

(** A document of [draws].  [draw_round] is a history variable, neither
    stored nor read by the program: the number of times the pool of this value
    had been re-created when the draw was recorded. *)
Record Draw : Type := {
  draw_ticket_value : Z;
  winners : list Winner;
  draw_round : nat
}.

(** [context.user_data] of one user's conversation. *)
Record UserData : Type := {
  ud_ticket_value : option Z;
  ud_ticket_number : option Z
}.

Record State : Type := {
  tickets : gmap Z (Collection Ticket);
  lottery_registrations : list Registration;
  transactions : list Transaction;
  users : gmap string User;
  draws : list Draw;
  user_data : gmap string UserData;
  round : gmap Z nat
}.

Definition empty_store : State :=
  {| tickets := ∅; lottery_registrations := []; transactions := [];
     users := ∅; draws := []; user_data := ∅; round := ∅ |}.

Definition set_tickets (f : gmap Z (Collection Ticket) → gmap Z (Collection Ticket))
    (s : State) : State :=
  {| tickets := f (tickets s); lottery_registrations := lottery_registrations s;
     transactions := transactions s; users := users s; draws := draws s;
     user_data := user_data s; round := round s |}.

Definition set_registrations (f : list Registration → list Registration)
    (s : State) : State :=
  {| tickets := tickets s; lottery_registrations := f (lottery_registrations s);
     transactions := transactions s; users := users s; draws := draws s;
     user_data := user_data s; round := round s |}.

Definition set_transactions (f : list Transaction → list Transaction)
    (s : State) : State :=
  {| tickets := tickets s; lottery_registrations := lottery_registrations s;
     transactions := f (transactions s); users := users s; draws := draws s;
     user_data := user_data s; round := round s |}.

Definition set_users (f : gmap string User → gmap string User) (s : State) : State :=
  {| tickets := tickets s; lottery_registrations := lottery_registrations s;
     transactions := transactions s; users := f (users s); draws := draws s;
     user_data := user_data s; round := round s |}.

Definition set_draws (f : list Draw → list Draw) (s : State) : State :=
  {| tickets := tickets s; lottery_registrations := lottery_registrations s;
     transactions := transactions s; users := users s; draws := f (draws s);
     user_data := user_data s; round := round s |}.

Definition set_user_data (f : gmap string UserData → gmap string UserData)
    (s : State) : State :=
  {| tickets := tickets s; lottery_registrations := lottery_registrations s;
     transactions := transactions s; users := users s; draws := draws s;
     user_data := f (user_data s); round := round s |}.

Definition set_round (f : gmap Z nat → gmap Z nat) (s : State) : State :=
  {| tickets := tickets s; lottery_registrations := lottery_registrations s;
     transactions := transactions s; users := users s; draws := draws s;
     user_data := user_data s; round := f (round s) |}.

(** The collection [tickets_{ticket_value}]; a collection without documents
    is empty. *)
Definition tickets_of (s : State) (ticket_value : Z) : Collection Ticket :=
  tickets s !!! ticket_value.

Definition round_of (s : State) (ticket_value : Z) : nat :=
  default 0%nat (round s !! ticket_value).

(** [user_ref.update(fields)] on a user document. *)
Definition user_update (user_id : string) (f : User → User) : M State unit :=
  λ s, match users s !! user_id with
       | Some u => (Some (), set_users (insert user_id (f u)) s)
       | None => (None, s)
       end.

(** *** [UserModel] *)

Definition new_user (user_id : string) : User :=
  {| referral_code := "ref_" +:+ String.substring 0 8 user_id;
     balance := 0; tickets_purchased_count := ∅;
     referral_count := 0; referral_bonus_claimed := false |}.

(** [UserModel.get_or_create] without a referrer code. *)
Definition get_or_create (user_id : string) : M State User :=
  λ s, match users s !! user_id with
       | Some u => (Some u, s)
       | None => (Some (new_user user_id),
                  set_users (insert user_id (new_user user_id)) s)
       end.

Definition add_balance (amount : Z) (u : User) : User :=
  {| referral_code := referral_code u; balance := balance u + amount;
     tickets_purchased_count := tickets_purchased_count u;
     referral_count := referral_count u;
     referral_bonus_claimed := referral_bonus_claimed u |}.

Definition update_user_balance (user_id : string) (amount : Z) : M State unit :=
  user_update user_id (add_balance amount).

(** The count of one ticket value: [.get(str(ticket_value), 0)]. *)
Definition purchased_count (u : User) (ticket_value : Z) : Z :=
  default 0 (tickets_purchased_count u !! ticket_value).

Definition increment_count (ticket_value : Z) (u : User) : User :=
  {| referral_code := referral_code u; balance := balance u;
     tickets_purchased_count :=
       <[ticket_value := purchased_count u ticket_value + 1]>
         (tickets_purchased_count u);
     referral_count := referral_count u;
     referral_bonus_claimed := referral_bonus_claimed u |}.

Definition update_tickets_purchased_count (user_id : string) (ticket_value : Z)
    : M State unit :=
  user_update user_id (increment_count ticket_value).

(** *** [TicketModel] *)

Definition get_available (ticket_value : Z) (s : State) : list Z :=
  (filter (λ d, is_sold d.2 = false) (stream (tickets_of s ticket_value))).*1.

Definition sell (user_id : string) (free : bool) (reason : option string)
    (t : Ticket) : Ticket :=
  {| number := number t; value := value t; is_sold := true;
     buyer_id := Some user_id; is_free := free; free_reason := reason |}.

Definition mark_as_sold (ticket_value ticket_number : Z) (user_id : string)
    (free : bool) (reason : option string) : M State unit :=
  let! c := (λ s, (doc_update ticket_number (sell user_id free reason)
                     (tickets_of s ticket_value), s)) in
  do! modify (set_tickets (insert ticket_value c)) in
  modify (set_registrations (λ l, l ++
    [{| reg_ticket_value := ticket_value; reg_ticket_number := ticket_number;
        reg_buyer_id := user_id; reg_is_free := free;
        reg_free_reason := reason |}])).

(** *** [LotterySystem] *)

Definition new_ticket (num ticket_value : Z) : Ticket :=
  {| number := num; value := ticket_value; is_sold := false;
     buyer_id := None; is_free := false; free_reason := None |}.

(** The batch of [batch.set] calls over [range(1, TOTAL_TICKETS_PER_VALUE + 1)],
    applied to a collection from which every document was deleted. *)
Definition fresh_pool (ticket_value : Z) : Collection Ticket :=
  foldl (λ c num, doc_set num (new_ticket num ticket_value) c) [] ticket_range.

Definition bump (ticket_value : Z) (r : gmap Z nat) : gmap Z nat :=
  <[ticket_value := S (default 0%nat (r !! ticket_value))]> r.

(** The body of the loop of [initialize_tickets] for one value. *)
Definition initialize_value (ticket_value : Z) (s : State) : State :=
  let existing_tickets_count := length (stream (tickets_of s ticket_value)) in
  if decide (Z.of_nat existing_tickets_count < TOTAL_TICKETS_PER_VALUE)
  then set_round (bump ticket_value)
         (set_tickets (insert ticket_value (fresh_pool ticket_value)) s)
  else s.

Definition initialize_tickets (s : State) : State :=
  foldl (λ s ticket_value, initialize_value ticket_value s) s TICKET_VALUES.

Definition make_winner (rank : nat) (r : Registration) (amount : Z) : Winner :=
  {| position := Z.of_nat rank + 1; ticket_number := reg_ticket_number r;
     user_id := reg_buyer_id r; prize := amount |}.

(** The loop [for i in range(TOTAL_TICKETS_PER_VALUE)] of [conduct_draw], with
    [iterations] rounds left and index [i].  [None] is an exception: the
    IndexError of [sold_tickets[i]] past the end of the list, or a missing key
    or rank of [Config.REWARDS]. *)
Fixpoint draw_loop (iterations : nat) (i : nat) (ticket_value : Z)
    (sold_tickets : list Registration) (winners_data : list Winner)
    (drawn_ticket_numbers : gset Z) (drawn_buyer_ids : gset string)
    : option (list Winner) :=
  match iterations with
  | O => Some winners_data
  | S iterations' =>
      if decide (3 ≤ length winners_data)%nat then Some winners_data
      else
        match sold_tickets !! i with
        | None => None
        | Some candidate_ticket =>
            if decide ((reg_ticket_number candidate_ticket ∉ drawn_ticket_numbers)
                       ∧ (reg_buyer_id candidate_ticket ∉ drawn_buyer_ids))
            then
              match REWARDS ticket_value ≫= (λ l, l !! length winners_data) with
              | None => None
              | Some amount =>
                  draw_loop iterations' (S i) ticket_value sold_tickets
                    (winners_data ++
                       [make_winner (length winners_data) candidate_ticket amount])
                    ({[reg_ticket_number candidate_ticket]} ∪ drawn_ticket_numbers)
                    ({[reg_buyer_id candidate_ticket]} ∪ drawn_buyer_ids)
              end
            else
              draw_loop iterations' (S i) ticket_value sold_tickets winners_data
                drawn_ticket_numbers drawn_buyer_ids
        end
  end.

Definition select_winners (ticket_value : Z) (sold_tickets : list Registration)
    : option (list Winner) :=
  draw_loop (Z.to_nat TOTAL_TICKETS_PER_VALUE) 0 ticket_value sold_tickets [] ∅ ∅.

(** The loop that notifies the winners and credits their balances. *)
Fixpoint credit_winners (winners_data : list Winner) : M State unit :=
  match winners_data with
  | [] => ret ()
  | winner_info :: rest =>
      do! update_user_balance (user_id winner_info) (prize winner_info) in
      credit_winners rest
  end.

Definition registrations_of (s : State) (ticket_value : Z) : list Registration :=
  filter (λ r, reg_ticket_value r = ticket_value) (lottery_registrations s).

(** [reset_tickets]: three committed batches (the old tickets deleted, the
    registrations of the value deleted, the new tickets created), and then
    the line [if application and application.bot:].  [Main.py] binds no
    global [application] (the only one is a local of [create_application]),
    so this line raises NameError, after the batches were committed. *)
Definition reset_tickets (ticket_value : Z) : M State unit :=
  do! modify (set_tickets (insert ticket_value [])) in
  do! modify (set_registrations (filter (λ r, reg_ticket_value r ≠ ticket_value))) in
  do! modify (set_tickets (insert ticket_value (fresh_pool ticket_value))) in
  do! modify (set_round (bump ticket_value)) in
  raise.

(** How a call of [conduct_draw] ended: the early [return], the [except]
    branch, or the end of the [try] block. *)
Inductive DrawOutcome : Type := DrawPostponed | DrawFailed | DrawCompleted.

Definition conduct_draw (o : Oracle Registration) (ticket_value : Z)
    : M State DrawOutcome :=
  try_except
    (let! sold_tickets := gets (λ s, registrations_of s ticket_value) in
     if decide (length sold_tickets < 3)%nat then ret DrawPostponed
     else
       let! winners_data :=
         lift_option (select_winners ticket_value (shuffle o sold_tickets)) in
       let! r := gets (λ s, round_of s ticket_value) in
       do! modify (set_draws (λ l, l ++
             [{| draw_ticket_value := ticket_value; winners := winners_data;
                 draw_round := r |}])) in
       do! credit_winners winners_data in
       do! reset_tickets ticket_value in
       ret DrawCompleted)
    (ret DrawFailed).

(** What a bonus award did: the number of the free ticket, or nothing when no
    number was available. *)
Inductive BonusOutcome : Type := BonusAwarded (free_ticket_number : Z) | BonusNoNumbers.

Definition award_loyalty_bonus (o : Oracle Registration) (user_id : string)
    (purchased_ticket_value : Z) : M State BonusOutcome :=
  let! available_free_numbers := gets (get_available purchased_ticket_value) in
  match available_free_numbers with
  | _ :: _ =>
      let free_ticket_number := choice o available_free_numbers in
      do! mark_as_sold purchased_ticket_value free_ticket_number user_id true
            (Some "Loyalty Bonus"%string) in
      do! update_tickets_purchased_count user_id purchased_ticket_value in
      ret (BonusAwarded free_ticket_number)
  | [] => ret BonusNoNumbers
  end.

Definition claim (u : User) : User :=
  {| referral_code := referral_code u; balance := balance u;
     tickets_purchased_count := tickets_purchased_count u;
     referral_count := referral_count u; referral_bonus_claimed := true |}.

Definition award_referral_bonus (o : Oracle Registration) (user_id : string)
    : M State BonusOutcome :=
  let! available_free_numbers := gets (get_available REFERRAL_BONUS_TICKET_VALUE) in
  match available_free_numbers with
  | _ :: _ =>
      let free_ticket_number := choice o available_free_numbers in
      do! mark_as_sold REFERRAL_BONUS_TICKET_VALUE free_ticket_number user_id true
            (Some "Referral Bonus"%string) in
      do! update_tickets_purchased_count user_id REFERRAL_BONUS_TICKET_VALUE in
      do! user_update user_id claim in
      ret (BonusAwarded free_ticket_number)
  | [] => ret BonusNoNumbers
  end.

(** *** [UserHandlers] *)

(** How [claim_referral_bonus] ended: the bonus was awarded, no number was
    available, the [except] branch, or the refusal "You are not eligible to
    claim the referral bonus yet, or you have already claimed it." *)
Inductive ClaimOutcome : Type :=
  | ClaimAwarded (free_ticket_number : Z)
  | ClaimNoNumbers
  | ClaimError
  | ClaimRefused.

Definition claim_referral_bonus (o : Oracle Registration) (user_id : string)
    : M State ClaimOutcome :=
  let! user_data := get_or_create user_id in
  if decide (REFERRAL_REQUIRED_COUNT ≤ referral_count user_data
             ∧ referral_bonus_claimed user_data = false)
  then
    try_except
      (let! r := award_referral_bonus o user_id in
       do! get_or_create user_id in
       ret (match r with
            | BonusAwarded n => ClaimAwarded n
            | BonusNoNumbers => ClaimNoNumbers
            end))
      (ret ClaimError)
  else ret ClaimRefused.

Definition add_referral (u : User) : User :=
  {| referral_code := referral_code u; balance := balance u;
     tickets_purchased_count := tickets_purchased_count u;
     referral_count := referral_count u + 1;
     referral_bonus_claimed := referral_bonus_claimed u |}.

(** *** [PurchaseHandlers] *)

Definition no_user_data : UserData :=
  {| ud_ticket_value := None; ud_ticket_number := None |}.

Definition user_data_of (s : State) (user_id : string) : UserData :=
  default no_user_data (user_data s !! user_id).

Definition set_ud_ticket_value (ticket_value : Z) (d : UserData) : UserData :=
  {| ud_ticket_value := Some ticket_value; ud_ticket_number := ud_ticket_number d |}.

Definition set_ud_ticket_number (selected_number : Z) (d : UserData) : UserData :=
  {| ud_ticket_value := ud_ticket_value d; ud_ticket_number := Some selected_number |}.

Definition update_user_data (user_id : string) (f : UserData → UserData)
    : M State unit :=
  modify (λ s, set_user_data (insert user_id (f (user_data_of s user_id))) s).

(** [select_value]: remembers the value; the answer is the list of numbers
    put on the keyboard, [available[:50]]. *)
Definition select_value (user_id : string) (ticket_value : Z) : M State (list Z) :=
  do! update_user_data user_id (set_ud_ticket_value ticket_value) in
  let! available := gets (get_available ticket_value) in
  ret (take 50 available).

(** [select_number]: [true] when the number was accepted, that is when the
    ticket document exists and is not sold at this moment. *)
Definition select_number (user_id : string) (selected_number : Z) : M State bool :=
  let! d := gets (λ s, user_data_of s user_id) in
  match ud_ticket_value d with
  | Some ticket_value =>
      if truthy (Some ticket_value) then
        let! ticket_doc :=
          gets (λ s, doc_get selected_number (tickets_of s ticket_value)) in
        match ticket_doc with
        | Some t =>
            if is_sold t then ret false
            else
              do! update_user_data user_id (set_ud_ticket_number selected_number) in
              ret true
        | None => ret false
        end
      else ret false
  | None => ret false
  end.

(** [process_payment] with a valid receipt: records the transaction and
    clears the conversation data.  [false] when the selection is missing. *)
Definition process_payment (user_id : string) (payment_proof_file_id : string)
    : M State bool :=
  let! d := gets (λ s, user_data_of s user_id) in
  match ud_ticket_value d, ud_ticket_number d with
  | Some ticket_value, Some ticket_number =>
      if truthy (Some ticket_value) && truthy (Some ticket_number) then
        do! modify (set_transactions (λ l, l ++
              [{| tx_user_id := user_id; tx_ticket_value := ticket_value;
                  tx_ticket_number := ticket_number;
                  tx_payment_proof_file_id := payment_proof_file_id;
                  tx_status := pending_verification; tx_verified_by := None |}])) in
        do! modify (set_user_data (insert user_id no_user_data)) in
        ret true
      else ret false
  | _, _ => ret false
  end.

(** *** [AdminSystem] *)

Global Instance Status_eq_dec : EqDecision Status.
Proof. solve_decision. Defined.

Definition is_pending (user_id : string) (ticket_number ticket_value : Z)
    (t : Transaction) : bool :=
  bool_decide (tx_user_id t = user_id ∧ tx_ticket_number t = ticket_number
               ∧ tx_ticket_value t = ticket_value
               ∧ tx_status t = pending_verification).

Definition verify_transaction (admin : string) (t : Transaction) : Transaction :=
  {| tx_user_id := tx_user_id t; tx_ticket_value := tx_ticket_value t;
     tx_ticket_number := tx_ticket_number t;
     tx_payment_proof_file_id := tx_payment_proof_file_id t;
     tx_status := verified; tx_verified_by := Some admin |}.

(** Updates [transaction_docs[0]], the first match of the query; [None] when
    the query has no match. *)
Fixpoint verify_first (p : Transaction → bool) (admin : string)
    (l : list Transaction) : option (list Transaction) :=
  match l with
  | [] => None
  | t :: l' =>
      if p t then Some (verify_transaction admin t :: l')
      else match verify_first p admin l' with
           | Some l'' => Some (t :: l'')
           | None => None
           end
  end.

Definition sold_count (s : State) (ticket_value : Z) : nat :=
  length (filter (λ d, is_sold d.2 = true) (stream (tickets_of s ticket_value))).

(** How [verify_payment] ended. *)
Inductive VerifyOutcome : Type :=
  | AccessDenied
  | NoPendingTransaction
  | PaymentVerified
  | VerificationError.

Section Admins.
Variable ADMIN_IDS : list string.

(** [/verify <user_id> <ticket_number> <ticket_value>] with three
    well-formed arguments. *)
Definition verify_payment (o : Oracle Registration) (caller : string)
    (user_id_to_verify : string) (ticket_number_to_verify ticket_value_to_verify : Z)
    : M State VerifyOutcome :=
  if decide (caller ∉ ADMIN_IDS) then ret AccessDenied
  else
    try_except
      (let! found := gets (λ s,
           verify_first (is_pending user_id_to_verify ticket_number_to_verify
                           ticket_value_to_verify) caller (transactions s)) in
       match found with
       | None => ret NoPendingTransaction
       | Some transaction_docs =>
           do! modify (set_transactions (λ _, transaction_docs)) in
           do! mark_as_sold ticket_value_to_verify ticket_number_to_verify
                 user_id_to_verify false None in
           do! update_tickets_purchased_count user_id_to_verify
                 ticket_value_to_verify in
           let! user_data := get_or_create user_id_to_verify in
           let purchased_count_for_value :=
             purchased_count user_data ticket_value_to_verify in
           do! (if decide (purchased_count_for_value `mod`
                             LOYALTY_BONUS_PURCHASE_COUNT = 0)
                then do! award_loyalty_bonus o user_id_to_verify
                           ticket_value_to_verify in ret ()
                else ret ()) in
           let! actual_sold_count :=
             gets (λ s, sold_count s ticket_value_to_verify) in
           do! (if decide (TOTAL_TICKETS_PER_VALUE ≤ Z.of_nat actual_sold_count)
                then do! conduct_draw o ticket_value_to_verify in ret ()
                else ret ()) in
           ret PaymentVerified
       end)
      (ret VerificationError).

(** [simulate_invite_admin]: only for administrators. *)
Definition simulate_invite_admin (user_id : string) : M State bool :=
  if decide (user_id ∉ ADMIN_IDS) then ret false
  else
    do! get_or_create user_id in
    do! user_update user_id add_referral in
    do! get_or_create user_id in
    ret true.

(** *** Runs of the bot: one operation per update received *)

Inductive Op : Type :=
  | OnStartup
  | Start (user_id : string)
  | SelectValue (user_id : string) (ticket_value : Z)
  | SelectNumber (user_id : string) (selected_number : Z)
  | ProcessPayment (user_id : string) (payment_proof_file_id : string)
  | VerifyPayment (o : Oracle Registration) (caller user_id : string)
      (ticket_number ticket_value : Z)
  | ClaimReferralBonus (o : Oracle Registration) (user_id : string)
  | SimulateInvite (user_id : string).

Definition exec (op : Op) (s : State) : State :=
  match op with
  | OnStartup => initialize_tickets s
  | Start u => (get_or_create u s).2
  | SelectValue u v => (select_value u v s).2
  | SelectNumber u n => (select_number u n s).2
  | ProcessPayment u p => (process_payment u p s).2
  | VerifyPayment o a u n v => (verify_payment o a u n v s).2
  | ClaimReferralBonus o u => (claim_referral_bonus o u s).2
  | SimulateInvite u => (simulate_invite_admin u s).2
  end.

Definition run (ops : list Op) (s : State) : State :=
  foldl (λ s op, exec op s) s ops.

End Admins.

End AdminBot.

(** * [src/main.py]: self-service purchases *)

Module SelfBot.

(** A document of [lotteryTickets_{value}].  The field [id] holds [str(i)];
    the model keeps the number [i].  Fields missing from a document are [None]
    ([isFree]: [false], as every reader uses the default). *)
Record Ticket : Type := {
  tk_id : Z;
  tk_value : Z;
  isSold : bool;
  buyerId : option string;
  paymentProofInfo : option string;
  purchaseDate : option Z;
  isFree : bool;
  freeReason : option string
}.

(** A document of [lotteryRegistrations]. *)
Record Registration : Type := {
  reg_ticketId : Z;
  reg_ticketValue : Z;
  reg_buyerId : string;
  reg_purchaseDate : Z;
  reg_isFree : bool;
  reg_freeReason : option string
}.

(** A [userData] document is written with [set(..., merge=True)], field by
    field: every field may be missing. *)
Record User : Type := {
  referralCode : option string;
  invitedUsersCount : option Z;
  referralBonusClaimed : option bool;
  ticketsBoughtCount : option (gmap Z Z)
}.

Record Winner : Type := {
  rank : Z;
  ticketId : Z;
  winnerId : string;
  reward : Z
}.

(** A document of [lotteryDraws]; [draw_round] is a history variable as in
    [AdminBot.Draw]. *)
Record Draw : Type := {
  ticketValue : Z;
  drawDate : Z;
  winners : list Winner;
  draw_round : nat
}.

(** [context.user_data] of one user's conversation. *)
Record UserData : Type := {
  selected_ticket_value : option Z;
  selected_ticket_number : option Z;
  available_numbers : option (list Z)
}.

Record State : Type := {
  tickets : gmap Z (Collection Ticket);
  registrations : list Registration;
  users : gmap string User;
  draws : list Draw;
  user_data : gmap string UserData;
  round : gmap Z nat
}.

Definition empty_store : State :=
  {| tickets := ∅; registrations := []; users := ∅; draws := [];
     user_data := ∅; round := ∅ |}.

Definition set_tickets (f : gmap Z (Collection Ticket) → gmap Z (Collection Ticket))
    (s : State) : State :=
  {| tickets := f (tickets s); registrations := registrations s; users := users s;
     draws := draws s; user_data := user_data s; round := round s |}.

Definition set_registrations (f : list Registration → list Registration)
    (s : State) : State :=
  {| tickets := tickets s; registrations := f (registrations s); users := users s;
     draws := draws s; user_data := user_data s; round := round s |}.

Definition set_users (f : gmap string User → gmap string User) (s : State) : State :=
  {| tickets := tickets s; registrations := registrations s; users := f (users s);
     draws := draws s; user_data := user_data s; round := round s |}.

Definition set_draws (f : list Draw → list Draw) (s : State) : State :=
  {| tickets := tickets s; registrations := registrations s; users := users s;
     draws := f (draws s); user_data := user_data s; round := round s |}.

Definition set_user_data (f : gmap string UserData → gmap string UserData)
    (s : State) : State :=
  {| tickets := tickets s; registrations := registrations s; users := users s;
     draws := draws s; user_data := f (user_data s); round := round s |}.

Definition set_round (f : gmap Z nat → gmap Z nat) (s : State) : State :=
  {| tickets := tickets s; registrations := registrations s; users := users s;
     draws := draws s; user_data := user_data s; round := f (round s) |}.

Definition tickets_of (s : State) (ticket_value : Z) : Collection Ticket :=
  tickets s !!! ticket_value.

Definition round_of (s : State) (ticket_value : Z) : nat :=
  default 0%nat (round s !! ticket_value).

Definition registrations_of (s : State) (ticket_value : Z) : list Registration :=
  filter (λ r, reg_ticketValue r = ticket_value) (registrations s).

(** *** Helper functions *)

Definition new_ticket (i ticket_value : Z) : Ticket :=
  {| tk_id := i; tk_value := ticket_value; isSold := false; buyerId := None;
     paymentProofInfo := None; purchaseDate := None; isFree := false;
     freeReason := None |}.

(** The body of the loop of [initialize_tickets_firestore] for one value. *)
Definition initialize_value (ticket_value : Z) (s : State) : State :=
  let docs := stream (tickets_of s ticket_value) in
  let existing_ticket_ids : gset Z := list_to_set docs.*1 in
  if decide (size existing_ticket_ids < Z.to_nat TOTAL_TICKETS_PER_VALUE)%nat
  then
    set_tickets (insert ticket_value
      (foldl (λ c i, if decide (i ∈ existing_ticket_ids) then c
                     else doc_set i (new_ticket i ticket_value) c)
         docs ticket_range)) s
  else s.

Definition initialize_tickets_firestore (s : State) : State :=
  foldl (λ s ticket_value, initialize_value ticket_value s) s TICKET_VALUES.

Definition no_user : User :=
  {| referralCode := None; invitedUsersCount := None;
     referralBonusClaimed := None; ticketsBoughtCount := None |}.

(** [get_user_data]: the document as a dict, [{}] when it does not exist. *)
Definition get_user_data (user_id : string) (s : State) : User :=
  default no_user (users s !! user_id).

(** [update_user_data(user_id, data, merge=True)], one function per field
    written by the program. *)
Definition merge_referralBonusClaimed (b : bool) (u : User) : User :=
  {| referralCode := referralCode u; invitedUsersCount := invitedUsersCount u;
     referralBonusClaimed := Some b; ticketsBoughtCount := ticketsBoughtCount u |}.

Definition merge_invitedUsersCount (n : Z) (u : User) : User :=
  {| referralCode := referralCode u; invitedUsersCount := Some n;
     referralBonusClaimed := referralBonusClaimed u;
     ticketsBoughtCount := ticketsBoughtCount u |}.

Definition merge_ticketsBoughtCount (m : gmap Z Z) (u : User) : User :=
  {| referralCode := referralCode u; invitedUsersCount := invitedUsersCount u;
     referralBonusClaimed := referralBonusClaimed u;
     ticketsBoughtCount := Some (m ∪ default ∅ (ticketsBoughtCount u)) |}.

Definition update_user_data (user_id : string) (f : User → User) : M State unit :=
  modify (λ s, set_users (insert user_id (f (get_user_data user_id s))) s).

Definition bought_count (u : User) (ticket_value : Z) : Z :=
  default 0 (default ∅ (ticketsBoughtCount u) !! ticket_value).

Definition bump (ticket_value : Z) (r : gmap Z nat) : gmap Z nat :=
  <[ticket_value := S (default 0%nat (r !! ticket_value))]> r.

(** [reset_tickets_for_value]: deletes the tickets and the registrations of
    the value, then runs the initialization again. *)
Definition reset_tickets_for_value (ticket_value : Z) : M State unit :=
  do! modify (set_tickets (insert ticket_value [])) in
  do! modify (set_registrations (filter (λ r, reg_ticketValue r ≠ ticket_value))) in
  do! modify (set_round (bump ticket_value)) in
  modify initialize_tickets_firestore.

(** The inner loop [for ticket in eligible_tickets] of the draw: the first
    ticket whose id and whose buyer were not drawn yet. *)
Fixpoint find_winner (eligible_tickets : list Registration)
    (drawn_ticket_ids : gset Z) (drawn_buyer_ids : gset string)
    : option Registration :=
  match eligible_tickets with
  | [] => None
  | ticket :: rest =>
      if decide ((reg_ticketId ticket ∉ drawn_ticket_ids)
                 ∧ (reg_buyerId ticket ∉ drawn_buyer_ids))
      then Some ticket
      else find_winner rest drawn_ticket_ids drawn_buyer_ids
  end.

(** The outer loop [for i in range(min(3, len(eligible_tickets)))], with
    [iterations] rounds left. *)
Fixpoint draw_ranks (iterations : nat) (i : nat) (rewards : list Z)
    (eligible_tickets : list Registration) (winners_so_far : list Winner)
    (drawn_ticket_ids : gset Z) (drawn_buyer_ids : gset string) : list Winner :=
  match iterations with
  | O => winners_so_far
  | S iterations' =>
      match find_winner eligible_tickets drawn_ticket_ids drawn_buyer_ids with
      | Some winner_ticket =>
          draw_ranks iterations' (S i) rewards eligible_tickets
            (winners_so_far ++
               [{| rank := Z.of_nat i + 1; ticketId := reg_ticketId winner_ticket;
                   winnerId := reg_buyerId winner_ticket;
                   reward := default 0 (rewards !! i) |}])
            ({[reg_ticketId winner_ticket]} ∪ drawn_ticket_ids)
            ({[reg_buyerId winner_ticket]} ∪ drawn_buyer_ids)
      | None => winners_so_far
      end
  end.

Definition select_winners (ticket_value : Z) (eligible_tickets : list Registration)
    : list Winner :=
  draw_ranks (min 3 (length eligible_tickets)) 0
    (default [0; 0; 0] (REWARDS ticket_value)) eligible_tickets [] ∅ ∅.

(** How [conduct_lottery_draw] ended: the early [return] or the end. *)
Inductive DrawOutcome : Type := DrawPostponed | DrawCompleted.

Definition conduct_lottery_draw (o : Oracle Registration) (draw_date : Z)
    (ticket_value : Z) : M State DrawOutcome :=
  let! eligible_tickets := gets (λ s, registrations_of s ticket_value) in
  if decide (length eligible_tickets < 3)%nat then ret DrawPostponed
  else
    let! r := gets (λ s, round_of s ticket_value) in
    do! modify (set_draws (λ l, l ++
          [{| ticketValue := ticket_value; drawDate := draw_date;
              winners := select_winners ticket_value (shuffle o eligible_tickets);
              draw_round := r |}])) in
    ret DrawCompleted.

Definition sold_count (s : State) (ticket_value : Z) : nat :=
  length (filter (λ d, isSold d.2 = true) (stream (tickets_of s ticket_value))).

(** The query [order_by("purchaseDate", DESCENDING).limit(1)]: the latest
    purchase date of the value, [None] without registrations. *)
Definition last_purchase_date (regs : list Registration) : option Z :=
  foldr (λ r acc, match acc with
                  | Some d => Some (Z.max (reg_purchaseDate r) d)
                  | None => Some (reg_purchaseDate r)
                  end) None regs.

Definition draw_performed_recently (s : State) (ticket_value : Z) : bool :=
  match last_purchase_date (registrations_of s ticket_value) with
  | Some d =>
      match filter (λ w, ticketValue w = ticket_value ∧ d < drawDate w)
              (draws s) with
      | [] => false
      | _ :: _ => true
      end
  | None => false
  end.

Definition check_for_lottery_draw (o : Oracle Registration) (draw_date : Z)
    (ticket_value : Z) : M State unit :=
  let! sold := gets (λ s, sold_count s ticket_value) in
  if decide (TOTAL_TICKETS_PER_VALUE ≤ Z.of_nat sold) then
    let! recently := gets (λ s, draw_performed_recently s ticket_value) in
    if recently then ret ()
    else
      do! conduct_lottery_draw o draw_date ticket_value in
      reset_tickets_for_value ticket_value
  else ret ().

(** *** Ticket purchase flow *)

Definition no_user_data : UserData :=
  {| selected_ticket_value := None; selected_ticket_number := None;
     available_numbers := None |}.

Definition user_data_of (s : State) (user_id : string) : UserData :=
  default no_user_data (user_data s !! user_id).

Definition update_conversation (user_id : string) (f : UserData → UserData)
    : M State unit :=
  modify (λ s, set_user_data (insert user_id (f (user_data_of s user_id))) s).

Definition set_selected_value (v : Z) (d : UserData) : UserData :=
  {| selected_ticket_value := Some v;
     selected_ticket_number := selected_ticket_number d;
     available_numbers := available_numbers d |}.

Definition set_selected_number (n : Z) (d : UserData) : UserData :=
  {| selected_ticket_value := selected_ticket_value d;
     selected_ticket_number := Some n;
     available_numbers := available_numbers d |}.

Definition set_available_numbers (l : list Z) (d : UserData) : UserData :=
  {| selected_ticket_value := selected_ticket_value d;
     selected_ticket_number := selected_ticket_number d;
     available_numbers := Some l |}.

(** The numbers of the unsold tickets, in the order of the stream. *)
Definition unsold_numbers (s : State) (ticket_value : Z) : list Z :=
  tk_id <$> (filter (λ t, isSold t = false) (stream (tickets_of s ticket_value)).*2).

(** [select_ticket_value]: the answer is [available_numbers] after
    [available_numbers.sort()]. *)
Definition select_ticket_value (user_id : string) (selected_value : Z)
    : M State (list Z) :=
  do! update_conversation user_id (set_selected_value selected_value) in
  let! available := gets (λ s, merge_sort Z.le (unsold_numbers s selected_value)) in
  match available with
  | [] => ret available
  | _ :: _ =>
      do! update_conversation user_id (set_available_numbers available) in
      ret available
  end.

Definition select_ticket_number (user_id : string) (selected_number : Z)
    : M State bool :=
  let! d := gets (λ s, user_data_of s user_id) in
  if truthy (selected_ticket_value d) then
    if decide (selected_number ∈ default [] (available_numbers d)) then
      do! update_conversation user_id (set_selected_number selected_number) in
      ret true
    else ret false
  else ret false.

Definition sell (user_id : string) (proof : string) (date : Z) (t : Ticket) : Ticket :=
  {| tk_id := tk_id t; tk_value := tk_value t; isSold := true;
     buyerId := Some user_id; paymentProofInfo := Some proof;
     purchaseDate := Some date; isFree := isFree t; freeReason := freeReason t |}.

Definition sell_free (user_id : string) (reason : string) (date : Z) (t : Ticket)
    : Ticket :=
  {| tk_id := tk_id t; tk_value := tk_value t; isSold := true;
     buyerId := Some user_id; paymentProofInfo := Some reason;
     purchaseDate := Some date; isFree := true; freeReason := Some reason |}.

Definition ticket_update (ticket_value ticket_number : Z) (f : Ticket → Ticket)
    : M State unit :=
  let! c := (λ s, (doc_update ticket_number f (tickets_of s ticket_value), s)) in
  modify (set_tickets (insert ticket_value c)).

Definition add_registration (r : Registration) : M State unit :=
  modify (set_registrations (λ l, l ++ [r])).

(** What a bonus award did: the number of the free ticket, or nothing when no
    number was available. *)
Inductive BonusOutcome : Type := BonusAwarded (free_ticket_number : Z) | BonusNoNumbers.

(** The award of a free ticket, as written twice in the program: in
    [award_loyalty_bonus] and in [claim_referral_bonus]. *)
Definition award_free_ticket (o : Oracle Registration) (t_ticket t_registration : Z)
    (user_id : string) (ticket_value : Z) (reason : string) : M State BonusOutcome :=
  let! available_free_numbers := gets (λ s, unsold_numbers s ticket_value) in
  match available_free_numbers with
  | _ :: _ =>
      let free_ticket_number := choice o available_free_numbers in
      do! ticket_update ticket_value free_ticket_number
            (sell_free user_id reason t_ticket) in
      do! add_registration
            {| reg_ticketId := free_ticket_number; reg_ticketValue := ticket_value;
               reg_buyerId := user_id; reg_purchaseDate := t_registration;
               reg_isFree := true; reg_freeReason := Some reason |} in
      ret (BonusAwarded free_ticket_number)
  | [] => ret BonusNoNumbers
  end.

Definition award_loyalty_bonus (o : Oracle Registration) (t_ticket t_registration : Z)
    (user_id : string) (ticket_value : Z) : M State BonusOutcome :=
  award_free_ticket o t_ticket t_registration user_id ticket_value "Loyalty Bonus".

(** How [process_payment_proof] ended. *)
Inductive PurchaseOutcome : Type :=
  | NoSelection
  | Purchased
  | TicketJustSold
  | PurchaseError.

(** [process_payment_proof] with a photo or a document attached. *)
Definition process_payment_proof (o : Oracle Registration) (user_id : string)
    (payment_proof_info : string) : M State PurchaseOutcome :=
  let! d := gets (λ s, user_data_of s user_id) in
  match selected_ticket_value d, selected_ticket_number d with
  | Some selected_value, Some selected_number =>
      if truthy (Some selected_value) && truthy (Some selected_number) then
        let! r := try_except
          (let! ticket_doc :=
             gets (λ s, doc_get selected_number (tickets_of s selected_value)) in
           match ticket_doc with
           | Some t =>
               if isSold t then ret TicketJustSold
               else
                 do! ticket_update selected_value selected_number
                       (sell user_id payment_proof_info (now o 0)) in
                 do! add_registration
                       {| reg_ticketId := selected_number;
                          reg_ticketValue := selected_value;
                          reg_buyerId := user_id; reg_purchaseDate := now o 1;
                          reg_isFree := false; reg_freeReason := None |} in
                 let! user := gets (get_user_data user_id) in
                 let count := bought_count user selected_value + 1 in
                 do! update_user_data user_id
                       (merge_ticketsBoughtCount
                          (<[selected_value := count]>
                             (default ∅ (ticketsBoughtCount user)))) in
                 do! (if decide (count `mod` 10 = 0)
                      then do! award_loyalty_bonus o (now o 2) (now o 3) user_id
                                 selected_value in ret ()
                      else ret ()) in
                 do! check_for_lottery_draw o (now o 4) selected_value in
                 ret Purchased
           | None => ret TicketJustSold
           end)
          (ret PurchaseError) in
        match r with
        | TicketJustSold => ret TicketJustSold
        | _ =>
            do! modify (set_user_data (insert user_id no_user_data)) in
            ret r
        end
      else ret NoSelection
  | _, _ => ret NoSelection
  end.

(** *** Referral program *)

(** How [claim_referral_bonus] ended: the bonus was awarded, no number was
    available, the [except] branch, or the refusal "You are not eligible to
    claim the referral bonus yet, or you have already claimed it." *)
Inductive ClaimOutcome : Type :=
  | ClaimAwarded (free_ticket_number : Z)
  | ClaimNoNumbers
  | ClaimError
  | ClaimRefused.

Definition claim_referral_bonus (o : Oracle Registration) (user_id : string)
    : M State ClaimOutcome :=
  let! user := gets (get_user_data user_id) in
  let invited_users_count := default 0 (invitedUsersCount user) in
  let referral_bonus_claimed := default false (referralBonusClaimed user) in
  if decide (10 ≤ invited_users_count ∧ referral_bonus_claimed = false) then
    try_except
      (let! r := award_free_ticket o (now o 0) (now o 1) user_id 200
                   "Referral Bonus" in
       match r with
       | BonusAwarded n =>
           do! update_user_data user_id (merge_referralBonusClaimed true) in
           ret (ClaimAwarded n)
       | BonusNoNumbers => ret ClaimNoNumbers
       end)
      (ret ClaimError)
  else ret ClaimRefused.

(** Python's [not user_data] for the dict of a user document. *)
Definition is_empty (u : User) : bool :=
  match referralCode u, invitedUsersCount u, referralBonusClaimed u,
        ticketsBoughtCount u with
  | None, None, None, None => true
  | _, _, _, _ => false
  end.

(** [start]: a user without data gets a fresh document. *)
Definition start (user_id : string) : M State unit :=
  let! user := gets (get_user_data user_id) in
  if is_empty user then
    modify (set_users (insert user_id
      {| referralCode := Some (String.substring 0 8 user_id);
         invitedUsersCount := Some 0; referralBonusClaimed := Some false;
         ticketsBoughtCount := Some ∅ |}))
  else ret ().

Definition simulate_invite (user_id : string) : M State unit :=
  let! user := gets (get_user_data user_id) in
  update_user_data user_id
    (merge_invitedUsersCount (default 0 (invitedUsersCount user) + 1)).

(** *** Runs of the bot: one operation per update received *)

Inductive Op : Type :=
  | Startup
  | Start (user_id : string)
  | SelectTicketValue (user_id : string) (selected_value : Z)
  | SelectTicketNumber (user_id : string) (selected_number : Z)
  | ProcessPaymentProof (o : Oracle Registration) (user_id : string)
      (payment_proof_info : string)
  | ClaimReferralBonus (o : Oracle Registration) (user_id : string)
  | SimulateInvite (user_id : string).

Definition exec (op : Op) (s : State) : State :=
  match op with
  | Startup => initialize_tickets_firestore s
  | Start u => (start u s).2
  | SelectTicketValue u v => (select_ticket_value u v s).2
  | SelectTicketNumber u n => (select_ticket_number u n s).2
  | ProcessPaymentProof o u p => (process_payment_proof o u p s).2
  | ClaimReferralBonus o u => (claim_referral_bonus o u s).2
  | SimulateInvite u => (simulate_invite u s).2
  end.

Definition oracle_of (op : Op) : option (Oracle Registration) :=
  match op with
  | ProcessPaymentProof o _ _ | ClaimReferralBonus o _ => Some o
  | _ => None
  end.

(** The runs of the bot from the empty store, with every answer of the random
    generator a permutation, respectively a member, of its argument. *)
Inductive reachable : State → Prop :=
  | reachable_init : reachable empty_store
  | reachable_step (op : Op) (s : State) :
      reachable s →
      (∀ o, oracle_of op = Some o → ValidOracle o) →
      reachable (exec op s).

End SelfBot.

(** * Vocabulary of the statements *)

(** The round of a value is fully initialized: the collection holds at least
    [TOTAL_TICKETS_PER_VALUE] documents (under distinct ids, as in any
    collection of the store). *)
Definition admin_pool_full (s : AdminBot.State) (ticket_value : Z) : Prop :=
  TOTAL_TICKETS_PER_VALUE ≤ Z.of_nat (length (AdminBot.tickets_of s ticket_value)).

Definition self_pool_full (s : SelfBot.State) (ticket_value : Z) : Prop :=
  NoDup (SelfBot.tickets_of s ticket_value).*1 ∧
  TOTAL_TICKETS_PER_VALUE ≤ Z.of_nat (length (SelfBot.tickets_of s ticket_value)).


(** ** Example runs *)

(** A random generator that leaves lists in their order and picks the first
    element; its clock returns 0, 1, 2, ... *)
Definition first_oracle {R : Type} : Oracle R :=
  {| shuffle := λ l, l; choice := λ l, default 0 (head l); now := Z.of_nat |}.

Definition example_admins : list string := ["900"%string; "901"%string].

(** One user selects a number of a value and uploads a receipt
    ([Main.py]). *)
Definition admin_order (user_id : string) (ticket_value ticket_number : Z)
    : list AdminBot.Op :=
  [AdminBot.SelectValue user_id ticket_value;
   AdminBot.SelectNumber user_id ticket_number;
   AdminBot.ProcessPayment user_id "receipt"%string].

(** The same, followed by the administrator's [/verify]. *)
Definition admin_purchase (user_id : string) (ticket_value ticket_number : Z)
    : list AdminBot.Op :=
  admin_order user_id ticket_value ticket_number ++
  [AdminBot.VerifyPayment first_oracle "900"%string user_id ticket_number
     ticket_value].

(** One user selects a number of a value and uploads a receipt
    ([main.py]). *)
Definition self_purchase (user_id : string) (ticket_value ticket_number : Z)
    : list SelfBot.Op :=
  [SelfBot.SelectTicketValue user_id ticket_value;
   SelfBot.SelectTicketNumber user_id ticket_number;
   SelfBot.ProcessPaymentProof first_oracle user_id "receipt"%string].

Definition self_run (ops : list SelfBot.Op) (s : SelfBot.State) : SelfBot.State :=
  foldl (λ s op, SelfBot.exec op s) s ops.

(** Two tickets of 100 sold to two users, in each program. *)
Definition admin_two_sales : AdminBot.State :=
  AdminBot.run example_admins
    ([AdminBot.OnStartup; AdminBot.Start "alice"%string; AdminBot.Start "bob"%string]
     ++ admin_purchase "alice"%string 100 1 ++ admin_purchase "bob"%string 100 2)
    AdminBot.empty_store.

Definition self_two_sales : SelfBot.State :=
  self_run
    ([SelfBot.Startup; SelfBot.Start "alice"%string; SelfBot.Start "bob"%string]
     ++ self_purchase "alice"%string 100 1 ++ self_purchase "bob"%string 100 2)
    SelfBot.empty_store.


(** ** Draw records *)

(** The winners of a draw record are pairwise distinct in ticket number and
    in buyer. *)
Definition admin_distinct_winners (d : AdminBot.Draw) : Prop :=
  NoDup (AdminBot.ticket_number <$> AdminBot.winners d) ∧
  NoDup (AdminBot.user_id <$> AdminBot.winners d).

Definition self_distinct_winners (d : SelfBot.Draw) : Prop :=
  NoDup (SelfBot.ticketId <$> SelfBot.winners d) ∧
  NoDup (SelfBot.winnerId <$> SelfBot.winners d).


(** Two users select ticket 7 of 100 while it is available and upload their
    receipts; the administrator verifies the first payment ([Main.py]). *)
Definition admin_ticket_7_ordered_twice : AdminBot.State :=
  AdminBot.run example_admins
    ([AdminBot.OnStartup; AdminBot.Start "alice"%string; AdminBot.Start "carol"%string]
     ++ admin_order "alice"%string 100 7 ++ admin_order "carol"%string 100 7
     ++ [AdminBot.VerifyPayment first_oracle "900"%string "alice"%string 7 100])
    AdminBot.empty_store.

(** ... and then the second one. *)
Definition admin_ticket_7_verified_twice : AdminBot.State :=
  AdminBot.exec example_admins
    (AdminBot.VerifyPayment first_oracle "900"%string "carol"%string 7 100)
    admin_ticket_7_ordered_twice.

(** The same orders in [main.py], where the first upload confirms the
    purchase. *)
Definition self_ticket_7_selected_twice : SelfBot.State :=
  self_run
    [SelfBot.Startup; SelfBot.Start "alice"%string; SelfBot.Start "carol"%string;
     SelfBot.SelectTicketValue "alice"%string 100;
     SelfBot.SelectTicketNumber "alice"%string 7;
     SelfBot.SelectTicketValue "carol"%string 100;
     SelfBot.SelectTicketNumber "carol"%string 7;
     SelfBot.ProcessPaymentProof first_oracle "alice"%string "receipt"%string]
    SelfBot.empty_store.

(** A round of 100 in [Main.py]: bob, who never sent [/start] and so has no
    user document, buys the tickets 1 to 99; alice and carol both order
    ticket 100 while it is available; alice's payment is verified. *)
Definition admin_round_sold_out : AdminBot.State :=
  AdminBot.run example_admins
    ([AdminBot.OnStartup; AdminBot.Start "alice"%string; AdminBot.Start "carol"%string]
     ++ flat_map (admin_purchase "bob"%string 100) (seqZ 1 99)
     ++ admin_order "alice"%string 100 100 ++ admin_order "carol"%string 100 100
     ++ [AdminBot.VerifyPayment first_oracle "900"%string "alice"%string 100 100])
    AdminBot.empty_store.

(** ... and then carol's. *)
Definition admin_round_verified_again : AdminBot.State :=
  AdminBot.exec example_admins
    (AdminBot.VerifyPayment first_oracle "900"%string "carol"%string 100 100)
    admin_round_sold_out.

(** Alice buys three tickets of 100, in each program. *)
Definition admin_three_sales_one_buyer : AdminBot.State :=
  AdminBot.run example_admins
    ([AdminBot.OnStartup; AdminBot.Start "alice"%string]
     ++ flat_map (admin_purchase "alice"%string 100) (seqZ 1 3))
    AdminBot.empty_store.

Definition self_three_sales_one_buyer : SelfBot.State :=
  self_run
    ([SelfBot.Startup; SelfBot.Start "alice"%string]
     ++ flat_map (self_purchase "alice"%string 100) (seqZ 1 3))
    SelfBot.empty_store.

(** Alice buys ten tickets of 100 (the numbers 1 to 9 and 20), in each
    program; the tenth purchase earns the loyalty bonus. *)
Definition admin_ten_purchases : AdminBot.State :=
  AdminBot.run example_admins
    ([AdminBot.OnStartup; AdminBot.Start "alice"%string]
     ++ flat_map (admin_purchase "alice"%string 100) (seqZ 1 9)
     ++ admin_purchase "alice"%string 100 20)
    AdminBot.empty_store.

Definition self_ten_purchases : SelfBot.State :=
  self_run
    ([SelfBot.Startup; SelfBot.Start "alice"%string]
     ++ flat_map (self_purchase "alice"%string 100) (seqZ 1 9)
     ++ self_purchase "alice"%string 100 20)
    SelfBot.empty_store.

(** Eleven users buy nine tickets of 200 each; the administrators 900 and
    901 each have ten invited users; 900 claims the referral bonus and gets
    the last ticket of the round ([Main.py]). *)
Definition eleven_buyers : list (Z * string) :=
  zip (seqZ 0 11)
    ["u0"; "u1"; "u2"; "u3"; "u4"; "u5"; "u6"; "u7"; "u8"; "u9"; "u10"]%string.

Definition admin_round_200_sold_out : AdminBot.State :=
  AdminBot.run example_admins
    ([AdminBot.OnStartup]
     ++ ((λ iu : Z * string, AdminBot.Start iu.2) <$> eleven_buyers)
     ++ flat_map (λ iu : Z * string,
          flat_map (admin_purchase iu.2 200) (seqZ (9 * iu.1 + 1) 9)) eleven_buyers
     ++ repeat (AdminBot.SimulateInvite "900"%string) 10
     ++ repeat (AdminBot.SimulateInvite "901"%string) 10
     ++ [AdminBot.ClaimReferralBonus first_oracle "900"%string])
    AdminBot.empty_store.

(** ** Referral claims *)

(** The user may claim: the document exists, the count is reached, the bonus
    was not claimed. *)
Definition admin_eligible (s : AdminBot.State) (user_id : string) : Prop :=
  ∃ u, AdminBot.users s !! user_id = Some u ∧
       REFERRAL_REQUIRED_COUNT ≤ AdminBot.referral_count u ∧
       AdminBot.referral_bonus_claimed u = false.

Definition self_eligible (s : SelfBot.State) (user_id : string) : Prop :=
  10 ≤ default 0 (SelfBot.invitedUsersCount (SelfBot.get_user_data user_id s)) ∧
  default false (SelfBot.referralBonusClaimed (SelfBot.get_user_data user_id s))
  = false.

Definition admin_claimed (s : AdminBot.State) (user_id : string) : Prop :=
  ∃ u, AdminBot.users s !! user_id = Some u ∧
       AdminBot.referral_bonus_claimed u = true.

(** The ticket [n] of value [v] is sold to the user as a free ticket. *)
Definition admin_owns_free_ticket (s : AdminBot.State) (v n : Z) (user_id : string)
    : Prop :=
  ∃ t, doc_get n (AdminBot.tickets_of s v) = Some t ∧ AdminBot.is_sold t = true ∧
       AdminBot.buyer_id t = Some user_id ∧ AdminBot.is_free t = true.

Definition self_owns_free_ticket (s : SelfBot.State) (v n : Z) (user_id : string)
    : Prop :=
  ∃ t, doc_get n (SelfBot.tickets_of s v) = Some t ∧ SelfBot.isSold t = true ∧
       SelfBot.buyerId t = Some user_id ∧ SelfBot.isFree t = true.

(** The first of two claims in sequence awards one free ticket: it answers
    with a number that was available, the ticket of that number is sold to
    the user as a free ticket, no other ticket changes, one registration is
    appended and the flag is set; the second claim is refused and changes
    nothing ([Main.py]). *)
Definition admin_two_claims_award_one (o1 o2 : Oracle AdminBot.Registration)
    (s : AdminBot.State) (user_id : string) : Prop :=
  ∃ n s1,
    AdminBot.claim_referral_bonus o1 user_id s = (Some (AdminBot.ClaimAwarded n), s1) ∧
    n ∈ AdminBot.get_available REFERRAL_BONUS_TICKET_VALUE s ∧
    admin_owns_free_ticket s1 REFERRAL_BONUS_TICKET_VALUE n user_id ∧
    (∀ n', n' ≠ n →
       doc_get n' (AdminBot.tickets_of s1 REFERRAL_BONUS_TICKET_VALUE)
       = doc_get n' (AdminBot.tickets_of s REFERRAL_BONUS_TICKET_VALUE)) ∧
    (∀ v', v' ≠ REFERRAL_BONUS_TICKET_VALUE →
       AdminBot.tickets_of s1 v' = AdminBot.tickets_of s v') ∧
    AdminBot.lottery_registrations s1 =
      AdminBot.lottery_registrations s ++
        [{| AdminBot.reg_ticket_value := REFERRAL_BONUS_TICKET_VALUE;
            AdminBot.reg_ticket_number := n; AdminBot.reg_buyer_id := user_id;
            AdminBot.reg_is_free := true;
            AdminBot.reg_free_reason := Some "Referral Bonus"%string |}] ∧
    admin_claimed s1 user_id ∧
    AdminBot.claim_referral_bonus o2 user_id s1 = (Some AdminBot.ClaimRefused, s1).

Definition self_two_claims_award_one (o1 o2 : Oracle SelfBot.Registration)
    (s : SelfBot.State) (user_id : string) : Prop :=
  ∃ n s1,
    SelfBot.claim_referral_bonus o1 user_id s = (Some (SelfBot.ClaimAwarded n), s1) ∧
    n ∈ SelfBot.unsold_numbers s 200 ∧
    self_owns_free_ticket s1 200 n user_id ∧
    (∀ n', n' ≠ n →
       doc_get n' (SelfBot.tickets_of s1 200) = doc_get n' (SelfBot.tickets_of s 200)) ∧
    (∀ v', v' ≠ 200 → SelfBot.tickets_of s1 v' = SelfBot.tickets_of s v') ∧
    SelfBot.registrations s1 =
      SelfBot.registrations s ++
        [{| SelfBot.reg_ticketId := n; SelfBot.reg_ticketValue := 200;
            SelfBot.reg_buyerId := user_id; SelfBot.reg_purchaseDate := now o1 1;
            SelfBot.reg_isFree := true;
            SelfBot.reg_freeReason := Some "Referral Bonus"%string |}] ∧
    SelfBot.referralBonusClaimed (SelfBot.get_user_data user_id s1) = Some true ∧
    SelfBot.claim_referral_bonus o2 user_id s1 = (Some SelfBot.ClaimRefused, s1).

(** Alice has ten invited users, and the tickets were never created: no
    number of any value is available ([main.py]). *)
Definition self_ten_invites_unopened : SelfBot.State :=
  self_run
    (SelfBot.Start "alice"%string :: repeat (SelfBot.SimulateInvite "alice"%string) 10)
    SelfBot.empty_store.

(** The claim as the specification states it, for every eligible user. *)
Definition referral_claim_as_stated : Prop :=
  ∀ (o1 o2 : Oracle AdminBot.Registration) (s : AdminBot.State) (user_id : string),
    ValidOracle o1 → admin_eligible s user_id →
    admin_two_claims_award_one o1 o2 s user_id.

(** The field [id] of every ticket document of the value is the number under
    which the document is stored ([main.py] selects by the field and updates
    by the document id). *)
Definition self_ids_match (s : SelfBot.State) (ticket_value : Z) : Prop :=
  ∀ k t, (k, t) ∈ SelfBot.tickets_of s ticket_value → SelfBot.tk_id t = k.

(** ** Lists of available numbers *)

Definition ascending (l : list Z) : Prop := StronglySorted Z.le l.


(** Ten simulated invitations for one user, on the initialized store. *)
Definition admin_ten_invites : AdminBot.State :=
  AdminBot.run example_admins
    (AdminBot.OnStartup :: repeat (AdminBot.SimulateInvite "900"%string) 10)
    AdminBot.empty_store.

Definition self_ten_invites : SelfBot.State :=
  self_run
    ([SelfBot.Startup; SelfBot.Start "alice"%string]
     ++ repeat (SelfBot.SimulateInvite "alice"%string) 10)
    SelfBot.empty_store.


(** The winners of a draw are ranked 1, 2, ... in the order of the list, each
    with the prize of its rank in the table of the value, and each is the
    ticket and the buyer of one of the registrations. *)
Definition admin_ranked (v : Z) (sold : list AdminBot.Registration)
    (ws : list AdminBot.Winner) : Prop :=
  (length ws ≤ 3)%nat ∧
  ∀ k w, ws !! k = Some w →
    AdminBot.position w = Z.of_nat k + 1 ∧
    REWARDS v ≫= (λ l, l !! k) = Some (AdminBot.prize w) ∧
    ∃ r, r ∈ sold ∧ AdminBot.ticket_number w = AdminBot.reg_ticket_number r ∧
         AdminBot.user_id w = AdminBot.reg_buyer_id r.

Definition self_ranked (v : Z) (l : list SelfBot.Registration)
    (ws : list SelfBot.Winner) : Prop :=
  (length ws ≤ 3)%nat ∧
  ∀ k w, ws !! k = Some w →
    SelfBot.rank w = Z.of_nat k + 1 ∧
    SelfBot.reward w = default 0 (default [0; 0; 0] (REWARDS v) !! k) ∧
    ∃ r, r ∈ l ∧ SelfBot.ticketId w = SelfBot.reg_ticketId r ∧
         SelfBot.winnerId w = SelfBot.reg_buyerId r.


(** The sum of the prizes of one user among the winners. *)
Definition winnings (u : string) (ws : list AdminBot.Winner) : Z :=
  foldr (λ w acc, if decide (AdminBot.user_id w = u) then AdminBot.prize w + acc
                  else acc) 0 ws.

(** The users after the winners were credited. *)
Definition credited (ws : list AdminBot.Winner) (m : gmap string AdminBot.User)
    : gmap string AdminBot.User :=
  foldl (λ m w, alter (AdminBot.add_balance (AdminBot.prize w)) (AdminBot.user_id w) m)
    m ws.

(** What a draw of [Main.py] that reaches the end of [reset_tickets] has
    written. *)
Definition admin_drawn_and_reset (v : Z) (ws : list AdminBot.Winner)
    (s s' : AdminBot.State) : Prop :=
  AdminBot.draws s' = AdminBot.draws s ++
    [{| AdminBot.draw_ticket_value := v; AdminBot.winners := ws;
        AdminBot.draw_round := AdminBot.round_of s v |}] ∧
  AdminBot.tickets_of s' v = AdminBot.fresh_pool v ∧
  AdminBot.registrations_of s' v = [] ∧
  AdminBot.round_of s' v = S (AdminBot.round_of s v) ∧
  (∀ v', v' ≠ v →
     AdminBot.tickets_of s' v' = AdminBot.tickets_of s v' ∧
     AdminBot.registrations_of s' v' = AdminBot.registrations_of s v' ∧
     AdminBot.round_of s' v' = AdminBot.round_of s v') ∧
  AdminBot.transactions s' = AdminBot.transactions s ∧
  (∀ u usr, AdminBot.users s !! u = Some usr →
     ∃ usr', AdminBot.users s' !! u = Some usr' ∧
       AdminBot.balance usr' = AdminBot.balance usr + winnings u ws).


(** ** Committing a sale in [Main.py] *)

Definition admin_registration (v n : Z) (u : string) (free : bool)
    (reason : option string) : AdminBot.Registration :=
  {| AdminBot.reg_ticket_value := v; AdminBot.reg_ticket_number := n;
     AdminBot.reg_buyer_id := u; AdminBot.reg_is_free := free;
     AdminBot.reg_free_reason := reason |}.

(** The ticket [n] of value [v] went from [t] to its sold form, one
    registration was appended, and nothing else changed between [s] and
    [s']. *)
Definition admin_sale (v n : Z) (u : string) (free : bool) (reason : option string)
    (t : AdminBot.Ticket) (s s' : AdminBot.State) : Prop :=
  doc_get n (AdminBot.tickets_of s' v) = Some (AdminBot.sell u free reason t) ∧
  (∀ n', n' ≠ n →
     doc_get n' (AdminBot.tickets_of s' v) = doc_get n' (AdminBot.tickets_of s v)) ∧
  (∀ v', v' ≠ v → AdminBot.tickets_of s' v' = AdminBot.tickets_of s v') ∧
  AdminBot.lottery_registrations s' =
    AdminBot.lottery_registrations s ++ [admin_registration v n u free reason] ∧
  AdminBot.draws s' = AdminBot.draws s ∧
  AdminBot.round s' = AdminBot.round s.


(** ** The rule for [main.py], for invariants on tickets and registrations *)

(** [f] marks a ticket sold to the buyer of the registration [r], which
    registers the ticket [n] of value [v]. *)
Definition self_sale_shape (f : SelfBot.Ticket → SelfBot.Ticket)
    (r : SelfBot.Registration) (v n : Z) : Prop :=
  (∀ t, SelfBot.isSold (f t) = true ∧
        SelfBot.buyerId (f t) = Some (SelfBot.reg_buyerId r) ∧
        SelfBot.tk_id (f t) = SelfBot.tk_id t) ∧
  SelfBot.reg_ticketValue r = v ∧ SelfBot.reg_ticketId r = n.

(** ** At most one draw per round in [main.py] *)

Definition self_draw_key (d : SelfBot.Draw) : Z * nat :=
  (SelfBot.ticketValue d, SelfBot.draw_round d).

(** No two draw records of the same value and round, and no draw record yet
    for the current round of any value. *)
Definition self_one_draw_per_round (s : SelfBot.State) : Prop :=
  NoDup (self_draw_key <$> SelfBot.draws s) ∧
  ∀ d, d ∈ SelfBot.draws s →
       (SelfBot.draw_round d < SelfBot.round_of s (SelfBot.ticketValue d))%nat.

(** The same between the draw of value [v] and the reset that follows it. *)
Definition self_drawn (v : Z) (s : SelfBot.State) : Prop :=
  NoDup (self_draw_key <$> SelfBot.draws s) ∧
  ∀ d, d ∈ SelfBot.draws s →
       if decide (SelfBot.ticketValue d = v)
       then (SelfBot.draw_round d ≤ SelfBot.round_of s v)%nat
       else (SelfBot.draw_round d < SelfBot.round_of s (SelfBot.ticketValue d))%nat.

(** Every sold ticket has exactly one registration, with the same value,
    number and buyer, and every registration has such a sold ticket; the
    documents of a collection have distinct ids and carry their number. *)
Definition self_consistent (s : SelfBot.State) : Prop :=
  ∀ v,
    NoDup (SelfBot.tickets_of s v).*1 ∧
    self_ids_match s v ∧
    NoDup (SelfBot.reg_ticketId <$> SelfBot.registrations_of s v) ∧
    ∀ n u,
      (∃ r, r ∈ SelfBot.registrations_of s v ∧ SelfBot.reg_ticketId r = n ∧
            SelfBot.reg_buyerId r = u)
      ↔ (∃ t, doc_get n (SelfBot.tickets_of s v) = Some t ∧
              SelfBot.isSold t = true ∧ SelfBot.buyerId t = Some u).

(** ** The plain path of a purchase in [main.py] *)

Definition self_sale (v n : Z) (f : SelfBot.Ticket → SelfBot.Ticket)
    (r : SelfBot.Registration) (t : SelfBot.Ticket) (s s' : SelfBot.State) : Prop :=
  doc_get n (SelfBot.tickets_of s' v) = Some (f t) ∧
  (∀ n', n' ≠ n →
     doc_get n' (SelfBot.tickets_of s' v) = doc_get n' (SelfBot.tickets_of s v)) ∧
  (∀ v', v' ≠ v → SelfBot.tickets_of s' v' = SelfBot.tickets_of s v') ∧
  SelfBot.registrations s' = SelfBot.registrations s ++ [r] ∧
  SelfBot.draws s' = SelfBot.draws s ∧
  SelfBot.round s' = SelfBot.round s.

(** ** Further example runs *)

(** Alice, bob and carol each buy one ticket of 100 ([Main.py]). *)
Definition admin_three_buyers : AdminBot.State :=
  AdminBot.run example_admins
    ([AdminBot.OnStartup; AdminBot.Start "alice"%string; AdminBot.Start "bob"%string;
      AdminBot.Start "carol"%string]
     ++ admin_purchase "alice"%string 100 1 ++ admin_purchase "bob"%string 100 2
     ++ admin_purchase "carol"%string 100 3)
    AdminBot.empty_store.

(** The same, but bob never sent [/start] and has no user document. *)
Definition admin_three_buyers_one_unknown : AdminBot.State :=
  AdminBot.run example_admins
    ([AdminBot.OnStartup; AdminBot.Start "alice"%string; AdminBot.Start "carol"%string]
     ++ admin_purchase "alice"%string 100 1 ++ admin_purchase "bob"%string 100 2
     ++ admin_purchase "carol"%string 100 3)
    AdminBot.empty_store.

(** Alice has ordered ticket 7 of 100 and uploaded her receipt; the payment
    is pending ([Main.py]). *)
Definition admin_pending_order : AdminBot.State :=
  AdminBot.run example_admins
    ([AdminBot.OnStartup; AdminBot.Start "alice"%string]
     ++ admin_order "alice"%string 100 7)
    AdminBot.empty_store.

(** The same order by bob, who has no user document. *)
Definition admin_pending_order_unknown : AdminBot.State :=
  AdminBot.run example_admins
    (AdminBot.OnStartup :: admin_order "bob"%string 100 2)
    AdminBot.empty_store.

(** Alice has selected ticket 7 of 100 and not yet uploaded a proof
    ([main.py]). *)
Definition self_number_selected : SelfBot.State :=
  self_run
    [SelfBot.Startup; SelfBot.Start "alice"%string;
     SelfBot.SelectTicketValue "alice"%string 100;
     SelfBot.SelectTicketNumber "alice"%string 7]
    SelfBot.empty_store.

(** Alice, bob and carol buy the hundred tickets of 100 between them; the
    draw takes place and the next round begins ([main.py]). *)
Definition self_round_sold_out : SelfBot.State :=
  self_run
    ([SelfBot.Startup; SelfBot.Start "alice"%string; SelfBot.Start "bob"%string;
      SelfBot.Start "carol"%string]
     ++ flat_map (self_purchase "alice"%string 100) (seqZ 1 40)
     ++ flat_map (self_purchase "bob"%string 100) (seqZ 41 40)
     ++ flat_map (self_purchase "carol"%string 100) (seqZ 81 20))
    SelfBot.empty_store.


(** ** Counting of loyalty bonus tickets *)

(** The claim as the specification states it, for both programs: whenever a
    loyalty bonus ticket is awarded, the count of the user for the value is
    one more than before. *)
Definition loyalty_bonus_counted_as_stated : Prop :=
  (∀ (o : Oracle AdminBot.Registration) (u : string) (v n : Z) (s s' : AdminBot.State),
     AdminBot.award_loyalty_bonus o u v s = (Some (AdminBot.BonusAwarded n), s') →
     ∃ usr usr', AdminBot.users s !! u = Some usr ∧ AdminBot.users s' !! u = Some usr' ∧
                 AdminBot.purchased_count usr' v = AdminBot.purchased_count usr v + 1)
  ∧ (∀ (o : Oracle SelfBot.Registration) (t1 t2 : Z) (u : string) (v n : Z)
       (s s' : SelfBot.State),
       SelfBot.award_loyalty_bonus o t1 t2 u v s = (Some (SelfBot.BonusAwarded n), s') →
       SelfBot.bought_count (SelfBot.get_user_data u s') v
       = SelfBot.bought_count (SelfBot.get_user_data u s) v + 1).

(** ** Sold tickets are registered in [main.py] *)

(** Per value, there are at least as many registrations as sold tickets. *)
Definition self_sold_registered (s : SelfBot.State) : Prop :=
  ∀ v, (SelfBot.sold_count s v ≤ length (SelfBot.registrations_of s v))%nat.

(** ** A round of which one buyer holds every ticket *)

(** Alice buys tickets of 100 until 99 are sold (her loyalty bonus tickets
    included), and orders ticket 99, the last one available ([Main.py]). *)
Definition admin_one_buyer_ordered : AdminBot.State :=
  AdminBot.run example_admins
    ([AdminBot.OnStartup; AdminBot.Start "alice"%string]
     ++ flat_map (admin_purchase "alice"%string 100) (seqZ 1 98)
     ++ admin_order "alice"%string 100 99)
    AdminBot.empty_store.

(** The state in which the [/verify] of that order calls [conduct_draw]: the
    transaction is marked verified, ticket 99 is sold and counted. *)
Definition admin_one_buyer_sold_out : AdminBot.State :=
  ((do! modify (AdminBot.set_transactions (λ l,
          default l (AdminBot.verify_first
                       (AdminBot.is_pending "alice"%string 99 100) "900"%string l))) in
    do! AdminBot.mark_as_sold 100 99 "alice"%string false None in
    AdminBot.update_tickets_purchased_count "alice"%string 100)
     admin_one_buyer_ordered).2.

(** * Properties *)

(** ** The store *)

Section StoreFacts.
Context {V : Type}.
Implicit Types (c : Collection V) (k : Z) (d : V).

Lemma doc_update_get k (f : V → V) c :
  doc_update k f c = None ↔ doc_get k c = None.
Proof.
  induction c as [|[k' d'] c IH]; simpl; [done|].
  case_decide; [done|].
  destruct (doc_update k f c); [|tauto].
  split; [done|]. intros H'. by apply IH in H'.
Qed.

Lemma doc_update_keys k (f : V → V) c c' :
  doc_update k f c = Some c' → c'.*1 = c.*1.
Proof.
  revert c'. induction c as [|[k' d'] c IH]; intros c'; simpl; [done|].
  case_decide as Hk.
  - intros [= <-]. simpl. by rewrite Hk.
  - destruct (doc_update k f c) as [c''|]; [|done].
    intros [= <-]. simpl. f_equal. by apply IH.
Qed.

Lemma doc_get_update k k' (f : V → V) c c' :
  doc_update k f c = Some c' →
  doc_get k' c' = if decide (k' = k) then f <$> doc_get k c else doc_get k' c.
Proof.
  revert c'. induction c as [|[k0 d0] c IH]; intros c'; simpl; [done|].
  destruct (decide (k = k0)) as [<-|Hk].
  - intros [= <-]. simpl.
    by destruct (decide (k' = k)) as [->|].
  - destruct (doc_update k f c) as [c''|]; [|done].
    intros [= <-]. simpl. specialize (IH _ eq_refl).
    destruct (decide (k' = k0)) as [->|]; [|done].
    by rewrite decide_False.
Qed.

Lemma doc_get_In k d c : doc_get k c = Some d → (k, d) ∈ c.
Proof.
  induction c as [|[k' d'] c IH]; simpl; [done|].
  case_decide as Hk.
  - intros [= ->]. subst. left.
  - intros H'. right. by apply IH.
Qed.

Lemma doc_get_None k c : doc_get k c = None ↔ k ∉ c.*1.
Proof.
  induction c as [|[k' d'] c IH]; simpl.
  - split; [intros _; apply not_elem_of_nil | done].
  - rewrite not_elem_of_cons. case_decide; [|tauto]. split; [done|]. tauto.
Qed.

Lemma doc_get_NoDup k d c : NoDup c.*1 → (k, d) ∈ c → doc_get k c = Some d.
Proof.
  induction c as [|[k' d'] c IH]; simpl; [by intros _ ?%elem_of_nil|].
  rewrite NoDup_cons. intros [Hk Hc] [[= -> ->]|Hin]%elem_of_cons.
  - by rewrite decide_True.
  - rewrite decide_False; [by apply IH|].
    intros ->. apply Hk. apply list_elem_of_fmap. by exists (k', d).
Qed.
End StoreFacts.

(** ** A small program logic for handlers

    [hoare P m Q E]: from a state in [P], the handler [m] either returns [a]
    in a state with [Q a], or raises in a state with [E]. *)

Definition hoare {S A : Type} (P : S → Prop) (m : M S A) (Q : A → S → Prop)
    (E : S → Prop) : Prop :=
  ∀ s, P s → match m s with
             | (Some a, s') => Q a s'
             | (None, s') => E s'
             end.

Section Hoare.
Context {S : Type}.
Implicit Types (P E : S → Prop).

Lemma hoare_ret {A} P E (Q : A → S → Prop) (a : A) :
  (∀ s, P s → Q a s) → hoare P (ret a) Q E.
Proof. intros H s Hs. by apply H. Qed.

Lemma hoare_raise {A} P E (Q : A → S → Prop) :
  (∀ s, P s → E s) → hoare P (raise : M S A) Q E.
Proof. intros H s Hs. by apply H. Qed.

Lemma hoare_bind {A B} P E (R : A → S → Prop) (Q : B → S → Prop)
    (m : M S A) (k : A → M S B) :
  hoare P m R E → (∀ a, hoare (R a) (k a) Q E) → hoare P (bind m k) Q E.
Proof.
  intros Hm Hk s Hs. unfold bind. specialize (Hm s Hs).
  destruct (m s) as [[a|] s']; [|done]. by apply Hk.
Qed.

Lemma hoare_try {A} P E E' (Q : A → S → Prop) (m h : M S A) :
  hoare P m Q E' → hoare E' h Q E → hoare P (try_except m h) Q E.
Proof.
  intros Hm Hh s Hs. unfold try_except. specialize (Hm s Hs).
  destruct (m s) as [[a|] s']; [done|]. by apply Hh.
Qed.

Lemma hoare_gets {A} P E (Q : A → S → Prop) (f : S → A) :
  (∀ s, P s → Q (f s) s) → hoare P (gets f) Q E.
Proof. intros H s Hs. by apply H. Qed.

Lemma hoare_modify P E (Q : unit → S → Prop) (f : S → S) :
  (∀ s, P s → Q () (f s)) → hoare P (modify f) Q E.
Proof. intros H s Hs. by apply H. Qed.

Lemma hoare_lift_option {A} P E (Q : A → S → Prop) (x : option A) :
  (∀ a s, x = Some a → P s → Q a s) → (∀ s, x = None → P s → E s) →
  hoare P (lift_option x) Q E.
Proof. intros H1 H2 s Hs. destruct x; simpl; eauto. Qed.

Lemma hoare_conseq {A} P P' E E' (Q Q' : A → S → Prop) (m : M S A) :
  hoare P' m Q' E' → (∀ s, P s → P' s) → (∀ a s, Q' a s → Q a s) →
  (∀ s, E' s → E s) → hoare P m Q E.
Proof.
  intros Hm HP HQ HE s Hs. specialize (Hm s (HP s Hs)).
  destruct (m s) as [[a|] s']; eauto.
Qed.

(** Handlers that keep an invariant, whatever they return. *)
Definition keeps (I : S → Prop) {A} (m : M S A) : Prop :=
  hoare I m (λ _, I) I.

Lemma keeps_state (I : S → Prop) {A} (m : M S A) s : keeps I m → I s → I (m s).2.
Proof. intros Hm Hs. specialize (Hm s Hs). by destruct (m s) as [[a|] s']. Qed.

Lemma keeps_bind (I : S → Prop) {A B} (m : M S A) (k : A → M S B) :
  keeps I m → (∀ a, keeps I (k a)) → keeps I (bind m k).
Proof. intros Hm Hk. by eapply hoare_bind. Qed.

Lemma keeps_try (I : S → Prop) {A} (m h : M S A) :
  keeps I m → keeps I h → keeps I (try_except m h).
Proof. intros Hm Hh. by eapply hoare_try. Qed.

Lemma keeps_ret (I : S → Prop) {A} (a : A) : keeps I (ret a).
Proof. by apply hoare_ret. Qed.

Lemma keeps_raise (I : S → Prop) {A} : keeps I (raise : M S A).
Proof. by apply hoare_raise. Qed.

Lemma keeps_gets (I : S → Prop) {A} (f : S → A) : keeps I (gets f).
Proof. by apply hoare_gets. Qed.

Lemma keeps_modify (I : S → Prop) (f : S → S) :
  (∀ s, I s → I (f s)) → keeps I (modify f).
Proof. intros H. by apply hoare_modify. Qed.

Lemma keeps_lift_option (I : S → Prop) {A} (x : option A) : keeps I (lift_option x).
Proof. by apply hoare_lift_option. Qed.
End Hoare.

Create HintDb keeps discriminated.

(** ** Round initialization *)

#[global] Arguments AdminBot.fresh_pool : simpl never.
#[global] Arguments ticket_range : simpl never.
#[global] Arguments doc_id : simpl never.

Lemma admin_tickets_of_set_tickets f s v :
  AdminBot.tickets_of (AdminBot.set_tickets f s) v = f (AdminBot.tickets s) !!! v.
Proof. reflexivity. Qed.

Lemma self_tickets_of_set_tickets f s v :
  SelfBot.tickets_of (SelfBot.set_tickets f s) v = f (SelfBot.tickets s) !!! v.
Proof. reflexivity. Qed.

Lemma admin_initialize_value_other v v' s :
  v ≠ v' →
  AdminBot.tickets_of (AdminBot.initialize_value v' s) v = AdminBot.tickets_of s v.
Proof.
  intros Hv. unfold AdminBot.initialize_value. case_decide; [|done].
  change (AdminBot.tickets_of (AdminBot.set_round ?f ?s) v)
    with (AdminBot.tickets_of s v).
  rewrite admin_tickets_of_set_tickets. by rewrite lookup_total_insert_ne.
Qed.

Lemma admin_initialize_value_full v s :
  admin_pool_full s v → AdminBot.initialize_value v s = s.
Proof.
  unfold admin_pool_full, AdminBot.initialize_value, stream. intros Hfull.
  case_decide; [lia|done].
Qed.

Lemma admin_initialize_full l v s :
  admin_pool_full s v →
  AdminBot.tickets_of
    (foldl (λ s ticket_value, AdminBot.initialize_value ticket_value s) s l) v
  = AdminBot.tickets_of s v.
Proof.
  revert s. induction l as [|v' l IH]; intros s Hfull; simpl; [done|].
  destruct (decide (v = v')) as [<-|Hv].
  - rewrite admin_initialize_value_full; auto.
  - rewrite IH.
    + by apply admin_initialize_value_other.
    + unfold admin_pool_full. by rewrite admin_initialize_value_other.
Qed.

Lemma self_initialize_value_other v v' s :
  v ≠ v' →
  SelfBot.tickets_of (SelfBot.initialize_value v' s) v = SelfBot.tickets_of s v.
Proof.
  intros Hv. unfold SelfBot.initialize_value. case_decide; [|done].
  rewrite self_tickets_of_set_tickets. by rewrite lookup_total_insert_ne.
Qed.

Lemma self_initialize_value_full v s :
  self_pool_full s v → SelfBot.initialize_value v s = s.
Proof.
  unfold self_pool_full, SelfBot.initialize_value, stream. intros [Hnd Hfull].
  case_decide as Hsize; [|done].
  rewrite size_list_to_set in Hsize by done. rewrite length_fmap in Hsize.
  unfold TOTAL_TICKETS_PER_VALUE in *. lia.
Qed.

Lemma self_initialize_full l v s :
  self_pool_full s v →
  SelfBot.tickets_of
    (foldl (λ s ticket_value, SelfBot.initialize_value ticket_value s) s l) v
  = SelfBot.tickets_of s v.
Proof.
  revert s. induction l as [|v' l IH]; intros s Hfull; simpl; [done|].
  destruct (decide (v = v')) as [<-|Hv].
  - rewrite self_initialize_value_full; auto.
  - rewrite IH.
    + by apply self_initialize_value_other.
    + unfold self_pool_full. by rewrite self_initialize_value_other.
Qed.

(** C10. Round initialization is idempotent: when the round of a value
    already holds its [TOTAL_TICKETS_PER_VALUE] tickets, running the
    initialization again leaves the tickets of that value (numbers, states,
    owners) as they are, in both programs. *)
Theorem initialization_of_full_round_is_noop :
  (∀ (s : AdminBot.State) (v : Z),
     admin_pool_full s v →
     AdminBot.tickets_of (AdminBot.initialize_tickets s) v = AdminBot.tickets_of s v)
  ∧ (∀ (s : SelfBot.State) (v : Z),
       self_pool_full s v →
       SelfBot.tickets_of (SelfBot.initialize_tickets_firestore s) v
       = SelfBot.tickets_of s v).
Proof.
  split; intros s v Hfull.
  - by apply admin_initialize_full.
  - by apply self_initialize_full.
Qed.

Lemma initialization_of_full_round_is_noop_witness :
  (admin_pool_full (AdminBot.initialize_tickets AdminBot.empty_store) 100 ∧
   AdminBot.tickets_of
     (AdminBot.initialize_tickets (AdminBot.initialize_tickets AdminBot.empty_store)) 100
   = AdminBot.tickets_of (AdminBot.initialize_tickets AdminBot.empty_store) 100)
  ∧ (self_pool_full (SelfBot.initialize_tickets_firestore SelfBot.empty_store) 200 ∧
     SelfBot.tickets_of
       (SelfBot.initialize_tickets_firestore
          (SelfBot.initialize_tickets_firestore SelfBot.empty_store)) 200
     = SelfBot.tickets_of (SelfBot.initialize_tickets_firestore SelfBot.empty_store) 200).
Proof.
  assert (H1 : admin_pool_full (AdminBot.initialize_tickets AdminBot.empty_store) 100)
    by (vm_compute; discriminate).
  assert (H2 : self_pool_full
                 (SelfBot.initialize_tickets_firestore SelfBot.empty_store) 200).
  { split; [|vm_compute; discriminate].
    refine (bool_decide_unpack _ _). vm_compute. exact I. }
  exact (conj (conj H1 (proj1 initialization_of_full_round_is_noop _ _ H1))
               (conj H2 (proj2 initialization_of_full_round_is_noop _ _ H2))).
Defined.

(** ** The draw *)

(** *** Winners are distinct *)

Lemma admin_draw_loop_distinct n i v sold ws (nums : gset Z) (buyers : gset string) res :
  NoDup (AdminBot.ticket_number <$> ws) →
  NoDup (AdminBot.user_id <$> ws) →
  (∀ w, w ∈ ws → AdminBot.ticket_number w ∈ nums ∧ AdminBot.user_id w ∈ buyers) →
  AdminBot.draw_loop n i v sold ws nums buyers = Some res →
  NoDup (AdminBot.ticket_number <$> res) ∧ NoDup (AdminBot.user_id <$> res).
Proof.
  revert i ws nums buyers.
  induction n as [|n IH]; intros i ws nums buyers Hn Hb Hin; simpl.
  { by intros [= <-]. }
  case_decide; [by intros [= <-]|].
  destruct (sold !! i) as [c|]; [|done].
  case_decide as Hfresh; [|by apply IH].
  destruct (REWARDS v ≫= _) as [amount|]; [|done].
  destruct Hfresh as [Hnum Hbuyer].
  apply IH.
  - rewrite fmap_app. simpl. apply NoDup_app. split_and!; [done| |apply NoDup_singleton].
    intros x [w [-> Hw]]%list_elem_of_fmap Hx%list_elem_of_singleton.
    apply Hnum. rewrite <- Hx. by apply Hin.
  - rewrite fmap_app. simpl. apply NoDup_app. split_and!; [done| |apply NoDup_singleton].
    intros x [w [-> Hw]]%list_elem_of_fmap Hx%list_elem_of_singleton.
    apply Hbuyer. rewrite <- Hx. by apply Hin.
  - intros w [Hw| ->%list_elem_of_singleton]%elem_of_app.
    + destruct (Hin w Hw). split; apply elem_of_union; by right.
    + simpl. split; apply elem_of_union; left; by apply elem_of_singleton.
Qed.

Lemma admin_select_winners_distinct v sold res :
  AdminBot.select_winners v sold = Some res →
  NoDup (AdminBot.ticket_number <$> res) ∧ NoDup (AdminBot.user_id <$> res).
Proof.
  apply admin_draw_loop_distinct; try apply NoDup_nil_2.
  by intros w ?%elem_of_nil.
Qed.

Lemma self_find_winner_fresh l (ids : gset Z) (buyers : gset string) t :
  SelfBot.find_winner l ids buyers = Some t →
  (SelfBot.reg_ticketId t ∉ ids) ∧ (SelfBot.reg_buyerId t ∉ buyers) ∧ t ∈ l.
Proof.
  induction l as [|x l IH]; simpl; [done|].
  case_decide as Hx.
  - intros [= <-]. destruct Hx. split_and!; [done..|left].
  - intros Ht. destruct (IH Ht) as (? & ? & ?). split_and!; [done..|by right].
Qed.

Lemma self_draw_ranks_distinct n i rewards l ws (ids : gset Z) (buyers : gset string) :
  NoDup (SelfBot.ticketId <$> ws) →
  NoDup (SelfBot.winnerId <$> ws) →
  (∀ w, w ∈ ws → SelfBot.ticketId w ∈ ids ∧ SelfBot.winnerId w ∈ buyers) →
  NoDup (SelfBot.ticketId <$> SelfBot.draw_ranks n i rewards l ws ids buyers) ∧
  NoDup (SelfBot.winnerId <$> SelfBot.draw_ranks n i rewards l ws ids buyers).
Proof.
  revert i ws ids buyers.
  induction n as [|n IH]; intros i ws ids buyers Hn Hb Hin; simpl; [done|].
  destruct (SelfBot.find_winner l ids buyers) as [t|] eqn:Ht; [|done].
  apply self_find_winner_fresh in Ht as (Hid & Hbuyer & _).
  apply IH.
  - rewrite fmap_app. simpl. apply NoDup_app. split_and!; [done| |apply NoDup_singleton].
    intros x [w [-> Hw]]%list_elem_of_fmap Hx%list_elem_of_singleton.
    apply Hid. rewrite <- Hx. by apply Hin.
  - rewrite fmap_app. simpl. apply NoDup_app. split_and!; [done| |apply NoDup_singleton].
    intros x [w [-> Hw]]%list_elem_of_fmap Hx%list_elem_of_singleton.
    apply Hbuyer. rewrite <- Hx. by apply Hin.
  - intros w [Hw| ->%list_elem_of_singleton]%elem_of_app.
    + destruct (Hin w Hw). split; apply elem_of_union; by right.
    + simpl. split; apply elem_of_union; left; by apply elem_of_singleton.
Qed.

Lemma self_select_winners_distinct v l :
  NoDup (SelfBot.ticketId <$> SelfBot.select_winners v l) ∧
  NoDup (SelfBot.winnerId <$> SelfBot.select_winners v l).
Proof.
  apply self_draw_ranks_distinct; try apply NoDup_nil_2.
  by intros w ?%elem_of_nil.
Qed.

(** ** Invariants of the runs

    An invariant of the handlers is an invariant of the runs.  The rule is
    proved once per program: the facts to supply are that the invariant does
    not see the user documents, the conversation data and the transactions,
    and that the four writers of tickets, registrations and draws keep it. *)

Lemma keeps_peek {S A : Type} (I : S → Prop) (f : S → option A) :
  keeps I (λ s, (f s, s)).
Proof. intros s Hs. by destruct (f s). Qed.

Ltac keeps_step :=
  lazymatch goal with
  | |- keeps _ (ret _) => apply keeps_ret
  | |- keeps _ raise => apply keeps_raise
  | |- keeps _ (gets _) => apply keeps_gets
  | |- keeps _ (lift_option _) => apply keeps_lift_option
  | |- keeps _ (bind _ _) => apply keeps_bind; [|intros ?]
  | |- keeps _ (try_except _ _) => apply keeps_try
  | |- keeps _ (modify _) => apply keeps_modify; intros ? ?
  | |- keeps _ (match ?x with _ => _ end) => destruct x
  | |- keeps _ (λ s, (_, s)) => apply keeps_peek
  end.

Ltac keeps_go := repeat (first [ solve [eauto 2 with keeps] | keeps_step ]).

Section AdminInvariant.
Import AdminBot.
Variable ADMIN_IDS : list string.
Variable I : State → Prop.
Hypothesis I_users : ∀ f s, I s → I (set_users f s).
Hypothesis I_user_data : ∀ f s, I s → I (set_user_data f s).
Hypothesis I_transactions : ∀ f s, I s → I (set_transactions f s).
Hypothesis I_sale : ∀ v n u free reason, keeps I (mark_as_sold v n u free reason).
Hypothesis I_reset : ∀ v, keeps I (reset_tickets v).
Hypothesis I_draw : ∀ v sold ws s,
  I s → select_winners v sold = Some ws →
  I (set_draws (λ l, l ++ [{| draw_ticket_value := v; winners := ws;
                              draw_round := round_of s v |}]) s).
Hypothesis I_init : ∀ v s, I s → I (initialize_value v s).

Local Hint Resolve I_users I_user_data I_transactions I_sale I_reset : keeps.

Lemma admin_user_update_keeps u f : keeps I (user_update u f).
Proof. intros s Hs. unfold user_update. destruct (users s !! u); auto. Qed.

Lemma admin_get_or_create_keeps u : keeps I (get_or_create u).
Proof. intros s Hs. unfold get_or_create. destruct (users s !! u); auto. Qed.

Local Hint Resolve admin_user_update_keeps admin_get_or_create_keeps : keeps.

Lemma admin_credit_winners_keeps ws : keeps I (credit_winners ws).
Proof.
  induction ws as [|w ws IH]; simpl; [apply keeps_ret|].
  apply keeps_bind; [apply admin_user_update_keeps|auto].
Qed.

Local Hint Resolve admin_credit_winners_keeps : keeps.

Lemma admin_conduct_draw_keeps o v : keeps I (conduct_draw o v).
Proof.
  unfold conduct_draw. apply keeps_try; [|apply keeps_ret].
  apply keeps_bind; [apply keeps_gets|]. intros sold.
  case_decide; [apply keeps_ret|].
  eapply hoare_bind with
    (R := λ ws s, I s ∧ select_winners v (shuffle o sold) = Some ws).
  { apply hoare_lift_option; auto. }
  intros ws.
  eapply hoare_bind with
    (R := λ r s, I s ∧ select_winners v (shuffle o sold) = Some ws
                 ∧ r = round_of s v).
  { apply hoare_gets. intros s [? ?]. auto. }
  intros r. eapply hoare_conseq with (P' := λ s, _) (Q' := λ _, I) (E' := I);
    [|intros s Hs; exact Hs|auto..].
  apply (hoare_bind _ _ (λ _, I)).
  { apply hoare_modify. intros s (Hs & Hws & ->). by eapply I_draw. }
  intros _. change (keeps I (do! credit_winners ws in do! reset_tickets v in
                             ret DrawCompleted)).
  keeps_go.
Qed.

Local Hint Resolve admin_conduct_draw_keeps : keeps.

Lemma admin_update_count_keeps u v : keeps I (update_tickets_purchased_count u v).
Proof. apply admin_user_update_keeps. Qed.

Local Hint Resolve admin_update_count_keeps : keeps.

Lemma admin_award_loyalty_bonus_keeps o u v : keeps I (award_loyalty_bonus o u v).
Proof. unfold award_loyalty_bonus. keeps_go. Qed.

Lemma admin_award_referral_bonus_keeps o u : keeps I (award_referral_bonus o u).
Proof. unfold award_referral_bonus. keeps_go. Qed.

Local Hint Resolve admin_award_loyalty_bonus_keeps admin_award_referral_bonus_keeps
  : keeps.

Lemma admin_claim_referral_bonus_keeps o u : keeps I (claim_referral_bonus o u).
Proof. unfold claim_referral_bonus. keeps_go. Qed.

Lemma admin_update_user_data_keeps u f : keeps I (AdminBot.update_user_data u f).
Proof. apply keeps_modify. auto. Qed.

Local Hint Resolve admin_update_user_data_keeps : keeps.

Lemma admin_select_value_keeps u v : keeps I (select_value u v).
Proof. unfold select_value. keeps_go. Qed.

Lemma admin_select_number_keeps u n : keeps I (select_number u n).
Proof. unfold select_number. keeps_go. Qed.

Lemma admin_process_payment_keeps u p : keeps I (process_payment u p).
Proof. unfold process_payment. keeps_go. Qed.

Lemma admin_verify_payment_keeps o a u n v : keeps I (verify_payment ADMIN_IDS o a u n v).
Proof. unfold verify_payment. keeps_go. Qed.

Lemma admin_simulate_invite_keeps u : keeps I (simulate_invite_admin ADMIN_IDS u).
Proof. unfold simulate_invite_admin. keeps_go. Qed.

Lemma admin_initialize_tickets_keeps s : I s → I (initialize_tickets s).
Proof.
  unfold initialize_tickets. generalize TICKET_VALUES. intros l. revert s.
  induction l as [|v l IH]; intros s Hs; simpl; auto.
Qed.

Lemma admin_exec_keeps op s : I s → I (exec ADMIN_IDS op s).
Proof.
  intros Hs. destruct op; cbn [exec].
  - by apply admin_initialize_tickets_keeps.
  - by apply (keeps_state I (get_or_create _)); [apply admin_get_or_create_keeps|].
  - by apply (keeps_state I (select_value _ _)); [apply admin_select_value_keeps|].
  - by apply (keeps_state I (select_number _ _)); [apply admin_select_number_keeps|].
  - by apply (keeps_state I (process_payment _ _));
      [apply admin_process_payment_keeps|].
  - by apply (keeps_state I (verify_payment _ _ _ _ _ _));
      [apply admin_verify_payment_keeps|].
  - by apply (keeps_state I (claim_referral_bonus _ _));
      [apply admin_claim_referral_bonus_keeps|].
  - by apply (keeps_state I (simulate_invite_admin _ _));
      [apply admin_simulate_invite_keeps|].
Qed.

Lemma admin_run_keeps ops s : I s → I (run ADMIN_IDS ops s).
Proof.
  unfold run. revert s. induction ops as [|op ops IH]; intros s Hs; simpl; [done|].
  apply IH. by apply admin_exec_keeps.
Qed.
End AdminInvariant.

(** The rule for [main.py], for invariants that speak of the draw records
    and of the rounds only. *)
Section SelfInvariant.
Import SelfBot.
Variable I : State → Prop.
Hypothesis I_tickets : ∀ f s, I s → I (set_tickets f s).
Hypothesis I_registrations : ∀ f s, I s → I (set_registrations f s).
Hypothesis I_users : ∀ f s, I s → I (set_users f s).
Hypothesis I_user_data : ∀ f s, I s → I (set_user_data f s).
Hypothesis I_round : ∀ v s, I s → I (set_round (bump v) s).
Hypothesis I_draw : ∀ v date l s,
  I s →
  I (set_draws (λ ds, ds ++ [{| ticketValue := v; drawDate := date;
                                winners := select_winners v l;
                                draw_round := round_of s v |}]) s).

Local Hint Resolve I_tickets I_registrations I_users I_user_data I_round : keeps.

Lemma self_initialize_value_keeps v s : I s → I (initialize_value v s).
Proof. intros Hs. unfold initialize_value. case_decide; auto. Qed.

Lemma self_initialize_keeps s : I s → I (initialize_tickets_firestore s).
Proof.
  unfold initialize_tickets_firestore. generalize TICKET_VALUES. intros l. revert s.
  induction l as [|v l IH]; intros s Hs; simpl; [done|].
  apply IH. by apply self_initialize_value_keeps.
Qed.

Local Hint Resolve self_initialize_keeps : keeps.

Lemma self_reset_keeps v : keeps I (reset_tickets_for_value v).
Proof. unfold reset_tickets_for_value. keeps_go. Qed.

Lemma self_conduct_keeps o date v : keeps I (conduct_lottery_draw o date v).
Proof.
  unfold conduct_lottery_draw.
  apply keeps_bind; [apply keeps_gets|]. intros l.
  case_decide; [apply keeps_ret|].
  eapply hoare_bind with (R := λ r s, I s ∧ r = round_of s v).
  { by apply hoare_gets. }
  intros r. apply (hoare_bind _ _ (λ _, I)).
  - apply hoare_modify. intros s [Hs ->]. apply I_draw, Hs.
  - intros _. apply keeps_ret.
Qed.

Local Hint Resolve self_reset_keeps self_conduct_keeps : keeps.

Lemma self_check_keeps o date v : keeps I (check_for_lottery_draw o date v).
Proof. unfold check_for_lottery_draw. keeps_go. Qed.

Lemma self_ticket_update_keeps v n f : keeps I (ticket_update v n f).
Proof. unfold ticket_update. keeps_go. Qed.

Lemma self_add_registration_keeps r : keeps I (add_registration r).
Proof. unfold add_registration. keeps_go. Qed.

Lemma self_update_user_data_keeps u f : keeps I (SelfBot.update_user_data u f).
Proof. unfold SelfBot.update_user_data. keeps_go. Qed.

Lemma self_update_conversation_keeps u f : keeps I (update_conversation u f).
Proof. unfold update_conversation. keeps_go. Qed.

Local Hint Resolve self_check_keeps self_ticket_update_keeps
  self_add_registration_keeps self_update_user_data_keeps
  self_update_conversation_keeps : keeps.

Lemma self_award_free_ticket_keeps o t1 t2 u v reason :
  keeps I (award_free_ticket o t1 t2 u v reason).
Proof. unfold award_free_ticket. keeps_go. Qed.

Local Hint Resolve self_award_free_ticket_keeps : keeps.

Lemma self_award_loyalty_bonus_keeps o t1 t2 u v :
  keeps I (award_loyalty_bonus o t1 t2 u v).
Proof. unfold award_loyalty_bonus. keeps_go. Qed.

Local Hint Resolve self_award_loyalty_bonus_keeps : keeps.

Lemma self_process_payment_proof_keeps o u p : keeps I (process_payment_proof o u p).
Proof. unfold process_payment_proof. keeps_go. Qed.

Lemma self_claim_referral_bonus_keeps o u : keeps I (claim_referral_bonus o u).
Proof. unfold claim_referral_bonus. keeps_go. Qed.

Lemma self_select_ticket_value_keeps u v : keeps I (select_ticket_value u v).
Proof. unfold select_ticket_value. keeps_go. Qed.

Lemma self_select_ticket_number_keeps u n : keeps I (select_ticket_number u n).
Proof. unfold select_ticket_number. keeps_go. Qed.

Lemma self_start_keeps u : keeps I (start u).
Proof. unfold start. keeps_go. Qed.

Lemma self_simulate_invite_keeps u : keeps I (simulate_invite u).
Proof. unfold simulate_invite. keeps_go. Qed.

Lemma self_exec_keeps op s : I s → I (exec op s).
Proof.
  intros Hs. destruct op; cbn [exec].
  - by apply self_initialize_keeps.
  - by apply (keeps_state I (start _)); [apply self_start_keeps|].
  - by apply (keeps_state I (select_ticket_value _ _));
      [apply self_select_ticket_value_keeps|].
  - by apply (keeps_state I (select_ticket_number _ _));
      [apply self_select_ticket_number_keeps|].
  - by apply (keeps_state I (process_payment_proof _ _ _));
      [apply self_process_payment_proof_keeps|].
  - by apply (keeps_state I (claim_referral_bonus _ _));
      [apply self_claim_referral_bonus_keeps|].
  - by apply (keeps_state I (simulate_invite _)); [apply self_simulate_invite_keeps|].
Qed.

Lemma self_run_keeps ops s : I s → I (self_run ops s).
Proof.
  unfold self_run. revert s. induction ops as [|op ops IH]; intros s Hs; simpl; [done|].
  apply IH. by apply self_exec_keeps.
Qed.
End SelfInvariant.

(** C4. In every draw record created in a run of either program, from the
    empty store and whatever the random generator answers, the winners are
    pairwise distinct in ticket number and pairwise distinct in buyer. *)
Theorem draw_winners_are_pairwise_distinct :
  (∀ (admins : list string) (ops : list AdminBot.Op),
     Forall admin_distinct_winners
       (AdminBot.draws (AdminBot.run admins ops AdminBot.empty_store)))
  ∧ (∀ ops : list SelfBot.Op,
       Forall self_distinct_winners
         (SelfBot.draws (self_run ops SelfBot.empty_store))).
Proof.
  split.
  - intros admins ops.
    apply (admin_run_keeps admins
             (λ s, Forall admin_distinct_winners (AdminBot.draws s))); try done.
    + intros v n u free reason. unfold AdminBot.mark_as_sold. keeps_go; done.
    + intros v. unfold AdminBot.reset_tickets. keeps_go; done.
    + intros v sold ws s Hs Hws. cbn. apply Forall_app. split; [done|].
      apply Forall_singleton. by apply admin_select_winners_distinct in Hws.
    + intros v s Hs. unfold AdminBot.initialize_value. by case_decide.
  - intros ops.
    apply (self_run_keeps (λ s, Forall self_distinct_winners (SelfBot.draws s)));
      try done.
    intros v date l s Hs. cbn. apply Forall_app. split; [done|].
    apply Forall_singleton. apply self_select_winners_distinct.
Qed.

(** ** Committing a sale *)

(** X15. In [main.py], the upload of a payment proof for a ticket that is
    already sold is refused and changes nothing. *)
Lemma self_purchase_of_sold_ticket_is_refused o u p s v n t :
  SelfBot.selected_ticket_value (SelfBot.user_data_of s u) = Some v →
  SelfBot.selected_ticket_number (SelfBot.user_data_of s u) = Some n →
  v ≠ 0 → n ≠ 0 →
  doc_get n (SelfBot.tickets_of s v) = Some t →
  SelfBot.isSold t = true →
  SelfBot.process_payment_proof o u p s = (Some SelfBot.TicketJustSold, s).
Proof.
  intros Hv Hn Hv0 Hn0 Ht Hsold.
  unfold SelfBot.process_payment_proof, bind, gets, try_except, truthy.
  rewrite Hv, Hn.
  destruct (Z.eqb_spec v 0) as [|_]; [done|].
  destruct (Z.eqb_spec n 0) as [|_]; [done|]. cbn [negb andb].
  by rewrite Ht, Hsold.
Qed.

Lemma self_purchase_of_sold_ticket_is_refused_witness :
  ∃ t,
    SelfBot.selected_ticket_value
      (SelfBot.user_data_of self_ticket_7_selected_twice "carol"%string) = Some 100 ∧
    SelfBot.selected_ticket_number
      (SelfBot.user_data_of self_ticket_7_selected_twice "carol"%string) = Some 7 ∧
    doc_get 7 (SelfBot.tickets_of self_ticket_7_selected_twice 100) = Some t ∧
    SelfBot.isSold t = true ∧
    SelfBot.process_payment_proof first_oracle "carol"%string "receipt"%string
      self_ticket_7_selected_twice
    = (Some SelfBot.TicketJustSold, self_ticket_7_selected_twice).
Proof.
  assert (H1 : SelfBot.selected_ticket_value
                 (SelfBot.user_data_of self_ticket_7_selected_twice "carol"%string)
               = Some 100) by (vm_compute; reflexivity).
  assert (H2 : SelfBot.selected_ticket_number
                 (SelfBot.user_data_of self_ticket_7_selected_twice "carol"%string)
               = Some 7) by (vm_compute; reflexivity).
  eassert (H3 : doc_get 7 (SelfBot.tickets_of self_ticket_7_selected_twice 100)
                = Some _) by (vm_compute; reflexivity).
  match type of H3 with
  | _ = Some ?t =>
      assert (H4 : SelfBot.isSold t = true) by reflexivity;
      exists t;
      exact (conj H1 (conj H2 (conj H3 (conj H4
               (self_purchase_of_sold_ticket_is_refused first_oracle "carol"%string
                  "receipt"%string self_ticket_7_selected_twice 100 7 t H1 H2
                  ltac:(discriminate) ltac:(discriminate) H3 H4)))))
  end.
Defined.

(** C1 (the program does otherwise). In [Main.py], ticket 7 of 100 is sold
    to alice; the verification of carol's pending payment for the same ticket
    succeeds, makes carol the owner and appends a second registration. *)
Theorem admin_verification_resells_sold_ticket :
  doc_get 7 (AdminBot.tickets_of admin_ticket_7_ordered_twice 100) =
    Some {| AdminBot.number := 7; AdminBot.value := 100; AdminBot.is_sold := true;
            AdminBot.buyer_id := Some "alice"%string; AdminBot.is_free := false;
            AdminBot.free_reason := None |} ∧
  (AdminBot.verify_payment example_admins first_oracle "900"%string "carol"%string
     7 100 admin_ticket_7_ordered_twice).1 = Some AdminBot.PaymentVerified ∧
  doc_get 7 (AdminBot.tickets_of admin_ticket_7_verified_twice 100) =
    Some {| AdminBot.number := 7; AdminBot.value := 100; AdminBot.is_sold := true;
            AdminBot.buyer_id := Some "carol"%string; AdminBot.is_free := false;
            AdminBot.free_reason := None |} ∧
  AdminBot.lottery_registrations admin_ticket_7_verified_twice =
    AdminBot.lottery_registrations admin_ticket_7_ordered_twice ++
      [{| AdminBot.reg_ticket_value := 100; AdminBot.reg_ticket_number := 7;
          AdminBot.reg_buyer_id := "carol"%string; AdminBot.reg_is_free := false;
          AdminBot.reg_free_reason := None |}].
Proof. repeat split; vm_compute; reflexivity. Qed.

(** C2 (the program does otherwise). In a run of [Main.py], the sold ticket
    7 of 100 has two registrations, and the first of them names a buyer who
    does not own the ticket. *)
Theorem admin_sold_ticket_with_two_sale_records :
  AdminBot.is_sold <$> doc_get 7 (AdminBot.tickets_of admin_ticket_7_verified_twice 100)
    = Some true ∧
  AdminBot.buyer_id <$> doc_get 7 (AdminBot.tickets_of admin_ticket_7_verified_twice 100)
    = Some (Some "carol"%string) ∧
  AdminBot.reg_buyer_id <$>
    filter (λ r, AdminBot.reg_ticket_value r = 100 ∧ AdminBot.reg_ticket_number r = 7)
      (AdminBot.lottery_registrations admin_ticket_7_verified_twice)
    = ["alice"%string; "carol"%string].
Proof. repeat split; vm_compute; reflexivity. Qed.

(** ** The draw trigger *)

(** C3 (the program does otherwise). In a run of [Main.py], the draw of a
    sold-out round stops when it credits a winner without user document, so
    the round is not reset; the next verified payment finds the pool sold out
    and draws again: two draw records of value 100 in the same round. *)
Theorem admin_two_draws_in_one_round :
  AdminBot.sold_count admin_round_sold_out 100 = 100%nat ∧
  (λ d, (AdminBot.draw_ticket_value d, AdminBot.draw_round d)) <$>
    AdminBot.draws admin_round_sold_out = [(100, 1%nat)] ∧
  AdminBot.round_of admin_round_sold_out 100 = 1%nat ∧
  (AdminBot.verify_payment example_admins first_oracle "900"%string "carol"%string
     100 100 admin_round_sold_out).1 = Some AdminBot.PaymentVerified ∧
  (λ d, (AdminBot.draw_ticket_value d, AdminBot.draw_round d)) <$>
    AdminBot.draws admin_round_verified_again = [(100, 1%nat); (100, 1%nat)] ∧
  AdminBot.round_of admin_round_verified_again 100 = 1%nat.
Proof. repeat split; vm_compute; reflexivity. Qed.

(** ** Bonus tickets *)

(** After ten purchases of value 100, alice holds eleven tickets in both
    programs, the last one a loyalty bonus; [Main.py] has counted eleven,
    [main.py] has counted ten. *)
Lemma ten_purchases_and_one_bonus_ticket :
  length (SelfBot.registrations_of self_ten_purchases 100) = 11%nat ∧
  SelfBot.reg_freeReason <$> last (SelfBot.registrations self_ten_purchases)
    = Some (Some "Loyalty Bonus"%string) ∧
  SelfBot.bought_count (SelfBot.get_user_data "alice"%string self_ten_purchases) 100
    = 10 ∧
  length (AdminBot.registrations_of admin_ten_purchases 100) = 11%nat ∧
  (λ u, AdminBot.purchased_count u 100) <$>
    AdminBot.users admin_ten_purchases !! "alice"%string = Some 11.
Proof. repeat split; vm_compute; reflexivity. Qed.

(** ** Available numbers *)

(** C9 (the program does otherwise). On the freshly initialized store,
    [TicketModel.get_available] of [Main.py] returns the numbers in the order
    of the document ids, 1, 10, 100, 11, ..., which is not ascending; the
    list of [select_ticket_value] of [main.py] starts 1, 2, 3, 4. *)
Theorem admin_available_numbers_not_ascending :
  take 4 (AdminBot.get_available 100 (AdminBot.initialize_tickets AdminBot.empty_store))
    = [1; 10; 100; 11] ∧
  ¬ ascending
      (AdminBot.get_available 100 (AdminBot.initialize_tickets AdminBot.empty_store)) ∧
  take 4 <$>
    (SelfBot.select_ticket_value "alice"%string 100
       (SelfBot.initialize_tickets_firestore SelfBot.empty_store)).1
    = Some [1; 2; 3; 4].
Proof.
  split_and!; [vm_compute; reflexivity| |vm_compute; reflexivity].
  unfold ascending. refine (bool_decide_unpack _ _). vm_compute. exact I.
Qed.

(** ** The referral claim *)

Lemma first_oracle_valid {R : Type} : ValidOracle (@first_oracle R).
Proof.
  split; [done|]. intros [|x l] Hl; [done|]. simpl. left.
Qed.

Lemma admin_user_update_found u f s usr :
  AdminBot.users s !! u = Some usr →
  AdminBot.user_update u f s = (Some (), AdminBot.set_users (insert u (f usr)) s).
Proof. intros H. unfold AdminBot.user_update. by rewrite H. Qed.

Lemma admin_user_update_missing u f s :
  AdminBot.users s !! u = None → AdminBot.user_update u f s = (None, s).
Proof. intros H. unfold AdminBot.user_update. by rewrite H. Qed.

Lemma admin_get_or_create_found u s usr :
  AdminBot.users s !! u = Some usr → AdminBot.get_or_create u s = (Some usr, s).
Proof. intros H. unfold AdminBot.get_or_create. by rewrite H. Qed.

Lemma admin_mark_as_sold_found v n u free reason s c :
  doc_update n (AdminBot.sell u free reason) (AdminBot.tickets_of s v) = Some c →
  AdminBot.mark_as_sold v n u free reason s =
    (Some (),
     AdminBot.set_registrations (λ l, l ++
       [{| AdminBot.reg_ticket_value := v; AdminBot.reg_ticket_number := n;
           AdminBot.reg_buyer_id := u; AdminBot.reg_is_free := free;
           AdminBot.reg_free_reason := reason |}])
       (AdminBot.set_tickets (insert v c) s)).
Proof. intros H. unfold AdminBot.mark_as_sold, bind, modify. by rewrite H. Qed.

Lemma admin_mark_as_sold_missing v n u free reason s :
  doc_get n (AdminBot.tickets_of s v) = None →
  AdminBot.mark_as_sold v n u free reason s = (None, s).
Proof.
  intros H. unfold AdminBot.mark_as_sold, bind, modify.
  by rewrite (proj2 (doc_update_get _ _ _) H).
Qed.

Lemma admin_available_is_unsold_key v s n :
  n ∈ AdminBot.get_available v s ↔
  ∃ t, (n, t) ∈ AdminBot.tickets_of s v ∧ AdminBot.is_sold t = false.
Proof.
  unfold AdminBot.get_available, stream. rewrite list_elem_of_fmap. split.
  - intros [[k t] [-> [Hs Hin]%list_elem_of_filter]]. by exists t.
  - intros [t [Hin Hs]]. exists (n, t). split; [done|].
    by apply list_elem_of_filter.
Qed.

Lemma admin_available_can_be_updated v s n f :
  n ∈ AdminBot.get_available v s →
  ∃ c, doc_update n f (AdminBot.tickets_of s v) = Some c.
Proof.
  intros [t [Hin _]]%admin_available_is_unsold_key.
  destruct (doc_update n f (AdminBot.tickets_of s v)) as [c|] eqn:E; [by exists c|].
  apply doc_update_get, doc_get_None in E. destruct E.
  apply list_elem_of_fmap. by exists (n, t).
Qed.

Lemma self_ticket_update_found v n f s c :
  doc_update n f (SelfBot.tickets_of s v) = Some c →
  SelfBot.ticket_update v n f s = (Some (), SelfBot.set_tickets (insert v c) s).
Proof. intros H. unfold SelfBot.ticket_update, bind, modify. by rewrite H. Qed.

Lemma self_unsold_is_unsold_ticket v s n :
  n ∈ SelfBot.unsold_numbers s v ↔
  ∃ k t, (k, t) ∈ SelfBot.tickets_of s v ∧ SelfBot.tk_id t = n ∧
         SelfBot.isSold t = false.
Proof.
  unfold SelfBot.unsold_numbers, stream. rewrite list_elem_of_fmap. split.
  - intros [t [-> [Hs [[k t'] [-> Hin]]%list_elem_of_fmap]%list_elem_of_filter]].
    by exists k, t'.
  - intros (k & t & Hin & <- & Hs). exists t. split; [done|].
    apply list_elem_of_filter. split; [done|].
    apply list_elem_of_fmap. by exists (k, t).
Qed.

Lemma self_unsold_can_be_updated v s n f :
  self_ids_match s v → n ∈ SelfBot.unsold_numbers s v →
  ∃ c, doc_update n f (SelfBot.tickets_of s v) = Some c.
Proof.
  intros Hids (k & t & Hin & Hid & _)%self_unsold_is_unsold_ticket.
  rewrite (Hids _ _ Hin) in Hid. subst k.
  destruct (doc_update n f (SelfBot.tickets_of s v)) as [c|] eqn:E; [by exists c|].
  apply doc_update_get, doc_get_None in E. destruct E.
  apply list_elem_of_fmap. by exists (n, t).
Qed.

Lemma self_ids_match_Forall s v :
  Forall (λ kt, SelfBot.tk_id kt.2 = kt.1) (SelfBot.tickets_of s v) →
  self_ids_match s v.
Proof. intros H k t Hin. by apply (proj1 (Forall_forall _ _) H (k, t)). Qed.

(** ** Further properties of the draw *)

Lemma REWARDS_length v l : REWARDS v = Some l → length l = 3%nat.
Proof.
  unfold REWARDS. repeat case_decide; intros [= <-]; reflexivity.
Qed.

Lemma admin_draw_loop_total n i v sold ws (nums : gset Z) (buyers : gset string) :
  is_Some (REWARDS v) → (i + n ≤ length sold)%nat →
  is_Some (AdminBot.draw_loop n i v sold ws nums buyers).
Proof.
  intros [rewards Hr]. revert i ws nums buyers.
  induction n as [|n IH]; intros i ws nums buyers Hlen; simpl; [done|].
  case_decide as Hws; [done|].
  destruct (sold !! i) as [c|] eqn:Hc.
  2:{ apply lookup_ge_None in Hc. lia. }
  case_decide.
  - rewrite Hr. simpl.
    destruct (rewards !! length ws) as [amount|] eqn:Ha.
    + apply IH. lia.
    + apply lookup_ge_None in Ha. apply REWARDS_length in Hr. lia.
  - apply IH. lia.
Qed.

(** X3. In [Main.py], the winner loop of [conduct_draw] does not raise
    when the value has a reward table and there are at least
    [TOTAL_TICKETS_PER_VALUE] registrations, as on the path from the draw
    trigger: every index it reads is in range. *)
Lemma admin_select_winners_on_full_round v sold :
  is_Some (REWARDS v) →
  TOTAL_TICKETS_PER_VALUE ≤ Z.of_nat (length sold) →
  is_Some (AdminBot.select_winners v sold).
Proof.
  intros Hr Hlen. apply admin_draw_loop_total; [done|].
  unfold TOTAL_TICKETS_PER_VALUE in *. lia.
Qed.

Lemma admin_select_winners_on_full_round_witness :
  is_Some (REWARDS 100) ∧
  TOTAL_TICKETS_PER_VALUE
    ≤ Z.of_nat (length (AdminBot.registrations_of admin_round_sold_out 100)) ∧
  is_Some (AdminBot.select_winners 100
             (AdminBot.registrations_of admin_round_sold_out 100)).
Proof.
  assert (H1 : is_Some (REWARDS 100)) by (eexists; reflexivity).
  assert (H2 : TOTAL_TICKETS_PER_VALUE
               ≤ Z.of_nat (length (AdminBot.registrations_of admin_round_sold_out 100)))
    by (vm_compute; discriminate).
  exact (conj H1 (conj H2 (admin_select_winners_on_full_round _ _ H1 H2))).
Defined.

Lemma admin_draw_loop_ranked n i v sold ws (nums : gset Z) (buyers : gset string) res :
  admin_ranked v sold ws →
  AdminBot.draw_loop n i v sold ws nums buyers = Some res →
  admin_ranked v sold res.
Proof.
  revert i ws nums buyers.
  induction n as [|n IH]; intros i ws nums buyers Hws; simpl.
  { by intros [= <-]. }
  case_decide as Hlen; [by intros [= <-]|].
  destruct (sold !! i) as [c|] eqn:Hc; [|done].
  case_decide; [|by apply IH].
  destruct (REWARDS v ≫= _) as [amount|] eqn:Ha; [|done].
  apply IH. destruct Hws as [Hle Hws]. split.
  - rewrite length_app. simpl. lia.
  - intros k w Hk. apply lookup_app_Some in Hk as [Hk|[Hge Hk]]; [by apply Hws|].
    apply list_lookup_singleton_Some in Hk as [Hk <-].
    assert (k = length ws) as -> by lia. simpl. split_and!; [lia|done|].
    exists c. split_and!; [|done..]. by eapply list_elem_of_lookup_2.
Qed.

(** X4. Whenever the winner loop of [Main.py] returns, there are at most
    three winners; they are ranked 1, 2, ... in the order they were drawn,
    each has the prize of its rank in the reward table of the value, and each
    is the ticket and the buyer of one of the registrations. *)
Lemma admin_select_winners_ranked v sold ws :
  AdminBot.select_winners v sold = Some ws → admin_ranked v sold ws.
Proof.
  apply admin_draw_loop_ranked. split; [simpl; lia|]. intros k w Hk. done.
Qed.

Lemma admin_select_winners_ranked_witness :
  ∃ ws,
    AdminBot.select_winners 100 (AdminBot.registrations_of admin_three_buyers 100)
      = Some ws ∧
    admin_ranked 100 (AdminBot.registrations_of admin_three_buyers 100) ws.
Proof.
  eexists. split; [vm_compute; reflexivity|].
  apply admin_select_winners_ranked. vm_compute. reflexivity.
Defined.

Lemma self_draw_ranks_ranked n v l ws (ids : gset Z) (buyers : gset string) :
  (length ws + n ≤ 3)%nat →
  self_ranked v l ws →
  self_ranked v l
    (SelfBot.draw_ranks n (length ws) (default [0; 0; 0] (REWARDS v)) l ws ids buyers).
Proof.
  revert ws ids buyers.
  induction n as [|n IH]; intros ws ids buyers Hn Hws; simpl; [done|].
  destruct (SelfBot.find_winner l ids buyers) as [t|] eqn:Ht; [|done].
  apply self_find_winner_fresh in Ht as (_ & _ & Hin).
  match goal with |- context [ws ++ [?x]] => remember x as w eqn:Hw end.
  replace (S (length ws)) with (length (ws ++ [w]))
    by (rewrite length_app; simpl; lia).
  apply IH; [rewrite length_app; simpl; lia|].
  destruct Hws as [Hle Hws]. split.
  - rewrite length_app. simpl. lia.
  - intros k w' Hk. apply lookup_app_Some in Hk as [Hk|[Hge Hk]]; [by apply Hws|].
    apply list_lookup_singleton_Some in Hk as [Hk <-].
    assert (k = length ws) as -> by lia. subst w. simpl. split_and!; [lia|done|].
    by exists t.
Qed.

(** X18. The winner selection of [main.py] always returns; there are at most
    three winners, ranked 1, 2, ... in the order they were drawn, each with
    the reward of its rank (0 beyond the table), and each is the ticket and
    the buyer of one of the registrations. *)
Lemma self_select_winners_ranked v l : self_ranked v l (SelfBot.select_winners v l).
Proof.
  unfold SelfBot.select_winners.
  apply (self_draw_ranks_ranked _ v l []); [apply Nat.le_min_l|].
  split; [simpl; lia|]. intros k w Hk. done.
Qed.

Lemma admin_set_users_id s : AdminBot.set_users (λ m, m) s = s.
Proof. by destruct s. Qed.

Lemma admin_set_users_set_users f g s :
  AdminBot.set_users f (AdminBot.set_users g s) = AdminBot.set_users (f ∘ g) s.
Proof. reflexivity. Qed.

Lemma credited_dom ws m u : is_Some (credited ws m !! u) ↔ is_Some (m !! u).
Proof.
  revert m. induction ws as [|w ws IH]; intros m; simpl; [done|].
  rewrite IH. rewrite lookup_alter. case_decide; [subst|done].
  by rewrite fmap_is_Some.
Qed.

Lemma insert_as_alter {A} (f : A → A) (m : gmap string A) k x :
  m !! k = Some x → <[k := f x]> m = alter f k m.
Proof.
  intros H. apply map_eq. intros u. rewrite lookup_alter, lookup_insert.
  case_decide; [subst; by rewrite H|done].
Qed.

Lemma admin_credit_winners_ok ws s :
  (∀ w, w ∈ ws → is_Some (AdminBot.users s !! AdminBot.user_id w)) →
  AdminBot.credit_winners ws s = (Some (), AdminBot.set_users (credited ws) s).
Proof.
  revert s. induction ws as [|w ws IH]; intros s Hws; simpl.
  { by rewrite admin_set_users_id. }
  unfold bind, AdminBot.update_user_balance.
  destruct (Hws w) as [usr Hu]; [left|].
  rewrite (admin_user_update_found _ _ _ _ Hu).
  rewrite IH.
  - rewrite admin_set_users_set_users. unfold AdminBot.set_users, compose.
    rewrite (insert_as_alter _ _ _ _ Hu). reflexivity.
  - intros w' Hw'. cbn [AdminBot.users AdminBot.set_users].
    rewrite lookup_insert. case_decide; [done|]. apply Hws. by right.
Qed.

Lemma admin_credit_winners_missing ws s :
  (∃ w, w ∈ ws ∧ AdminBot.users s !! AdminBot.user_id w = None) →
  ∃ m, AdminBot.credit_winners ws s = (None, AdminBot.set_users (λ _, m) s).
Proof.
  revert s. induction ws as [|w ws IH]; intros s (w0 & Hin & Hnone); simpl.
  { by apply elem_of_nil in Hin. }
  unfold bind, AdminBot.update_user_balance.
  destruct (AdminBot.users s !! AdminBot.user_id w) as [usr|] eqn:Hu.
  - rewrite (admin_user_update_found _ _ _ _ Hu).
    apply elem_of_cons in Hin as [->|Hin]; [congruence|].
    destruct (IH (AdminBot.set_users <[AdminBot.user_id w:=AdminBot.add_balance
                    (AdminBot.prize w) usr]> s)) as [m Hm].
    + exists w0. split; [done|]. cbn [AdminBot.users AdminBot.set_users].
      rewrite lookup_insert_ne; [done|]. intros E. rewrite E in Hu. congruence.
    + exists m. by rewrite Hm.
  - rewrite (admin_user_update_missing _ _ _ Hu). exists (AdminBot.users s).
    by destruct s.
Qed.

Lemma credited_balance ws m u usr :
  m !! u = Some usr →
  ∃ usr', credited ws m !! u = Some usr' ∧
    AdminBot.balance usr' = AdminBot.balance usr + winnings u ws ∧
    AdminBot.tickets_purchased_count usr' = AdminBot.tickets_purchased_count usr ∧
    AdminBot.referral_count usr' = AdminBot.referral_count usr ∧
    AdminBot.referral_bonus_claimed usr' = AdminBot.referral_bonus_claimed usr.
Proof.
  revert m usr. induction ws as [|w ws IH]; intros m usr Hu; simpl.
  { exists usr. split_and!; [done|lia|done..]. }
  destruct (decide (AdminBot.user_id w = u)) as [Heq|Hne].
  - destruct (IH (alter (AdminBot.add_balance (AdminBot.prize w)) (AdminBot.user_id w) m)
                (AdminBot.add_balance (AdminBot.prize w) usr))
      as (usr' & H1 & H2 & H3 & H4 & H5).
    { rewrite lookup_alter. rewrite decide_True by done. rewrite Heq.
      by rewrite Hu. }
    exists usr'. split_and!; [done| |exact H3|exact H4|exact H5].
    rewrite H2. simpl. lia.
  - destruct (IH (alter (AdminBot.add_balance (AdminBot.prize w)) (AdminBot.user_id w) m)
                usr) as (usr' & H1 & H2 & H3 & H4 & H5).
    { rewrite lookup_alter. by rewrite decide_False. }
    by exists usr'.
Qed.

Lemma admin_registrations_after_reset (l : list AdminBot.Registration) v v' :
  filter (λ r, AdminBot.reg_ticket_value r = v')
    (filter (λ r, AdminBot.reg_ticket_value r ≠ v) l) =
  if decide (v' = v) then [] else filter (λ r, AdminBot.reg_ticket_value r = v') l.
Proof.
  induction l as [|r l IH]; simpl; [by case_decide|].
  rewrite !filter_cons. destruct (decide (AdminBot.reg_ticket_value r = v')) as [E|E];
    destruct (decide (AdminBot.reg_ticket_value r ≠ v)) as [E'|E']; simpl.
  - rewrite filter_cons, decide_True by done. rewrite IH.
    case_decide; [congruence|done].
  - rewrite IH. case_decide; [done|]. destruct E'. congruence.
  - rewrite filter_cons, decide_False by done. done.
  - done.
Qed.

(** X5. In [Main.py], a draw over at least three registrations whose
    winner loop returns and whose winners all have a user document writes
    everything and then fails: the draw record is appended with the current
    round, the balance of every user grows by the sum of that user's prizes,
    the pool of the value is re-created, its registrations are deleted and
    its round advances, the other values and the transactions are untouched;
    then [reset_tickets] raises on the unbound name [application] and the
    draw ends in its [except] branch. *)
Lemma admin_draw_writes_all_then_fails o v s ws :
  (3 ≤ length (AdminBot.registrations_of s v))%nat →
  AdminBot.select_winners v (shuffle o (AdminBot.registrations_of s v)) = Some ws →
  (∀ w, w ∈ ws → is_Some (AdminBot.users s !! AdminBot.user_id w)) →
  ∃ s', AdminBot.conduct_draw o v s = (Some AdminBot.DrawFailed, s') ∧
        admin_drawn_and_reset v ws s s'.
Proof.
  intros Hlen Hws Husers. eexists. split.
  - unfold AdminBot.conduct_draw, try_except. unfold bind at 1, gets at 1.
    rewrite decide_False by lia. unfold bind at 1. rewrite Hws. simpl lift_option.
    unfold ret at 1. unfold bind at 1, gets at 1. unfold bind at 1, modify at 1.
    unfold bind at 1. rewrite admin_credit_winners_ok by exact Husers.
    unfold AdminBot.reset_tickets, bind, modify, raise, ret. reflexivity.
  - unfold admin_drawn_and_reset. split_and!.
    + reflexivity.
    + unfold AdminBot.tickets_of. cbn [AdminBot.tickets AdminBot.set_tickets
        AdminBot.set_round AdminBot.set_registrations AdminBot.set_users
        AdminBot.set_draws]. by rewrite lookup_total_insert_eq.
    + unfold AdminBot.registrations_of. cbn [AdminBot.lottery_registrations
        AdminBot.set_tickets AdminBot.set_round AdminBot.set_registrations
        AdminBot.set_users AdminBot.set_draws].
      rewrite admin_registrations_after_reset. by rewrite decide_True.
    + unfold AdminBot.round_of, AdminBot.bump. cbn [AdminBot.round AdminBot.set_tickets
        AdminBot.set_round AdminBot.set_registrations AdminBot.set_users
        AdminBot.set_draws]. by rewrite lookup_insert_eq.
    + intros v' Hv'. split_and!.
      * unfold AdminBot.tickets_of. cbn [AdminBot.tickets AdminBot.set_tickets
          AdminBot.set_round AdminBot.set_registrations AdminBot.set_users
          AdminBot.set_draws]. by rewrite !lookup_total_insert_ne.
      * unfold AdminBot.registrations_of. cbn [AdminBot.lottery_registrations
          AdminBot.set_tickets AdminBot.set_round AdminBot.set_registrations
          AdminBot.set_users AdminBot.set_draws].
        rewrite admin_registrations_after_reset. by rewrite decide_False.
      * unfold AdminBot.round_of, AdminBot.bump. cbn [AdminBot.round
          AdminBot.set_tickets AdminBot.set_round AdminBot.set_registrations
          AdminBot.set_users AdminBot.set_draws]. by rewrite lookup_insert_ne.
    + reflexivity.
    + intros u usr Hu. cbn [AdminBot.users AdminBot.set_tickets AdminBot.set_round
        AdminBot.set_registrations AdminBot.set_users AdminBot.set_draws].
      destruct (credited_balance ws _ _ _ Hu) as (usr' & H1 & H2 & _). by exists usr'.
Qed.

Lemma admin_draw_writes_all_then_fails_witness :
  ∃ ws s',
    AdminBot.select_winners 100
      (shuffle first_oracle (AdminBot.registrations_of admin_three_buyers 100))
      = Some ws ∧
    AdminBot.conduct_draw first_oracle 100 admin_three_buyers
      = (Some AdminBot.DrawFailed, s') ∧
    admin_drawn_and_reset 100 ws admin_three_buyers s'.
Proof.
  assert (H1 : (3 ≤ length (AdminBot.registrations_of admin_three_buyers 100))%nat)
    by (vm_compute; repeat constructor).
  eassert (H2 : AdminBot.select_winners 100
                  (shuffle first_oracle (AdminBot.registrations_of admin_three_buyers 100))
                = Some _) by (vm_compute; reflexivity).
  match type of H2 with
  | _ = Some ?ws =>
      assert (H3 : ∀ w, w ∈ ws →
                is_Some (AdminBot.users admin_three_buyers !! AdminBot.user_id w))
        by (apply Forall_forall; refine (bool_decide_unpack _ _); vm_compute; exact I);
      destruct (admin_draw_writes_all_then_fails first_oracle 100 admin_three_buyers ws H1 H2 H3)
        as (s' & Hd & Ha);
      exists ws, s'; exact (conj H2 (conj Hd Ha))
  end.
Defined.

(** X6. In [Main.py], a draw one of whose winners has no user document
    fails after the draw record was written: the record is appended, but the
    tickets, the registrations and the rounds stay as they were (there is no
    reset). *)
Lemma admin_draw_stops_at_missing_user o v s ws :
  (3 ≤ length (AdminBot.registrations_of s v))%nat →
  AdminBot.select_winners v (shuffle o (AdminBot.registrations_of s v)) = Some ws →
  (∃ w, w ∈ ws ∧ AdminBot.users s !! AdminBot.user_id w = None) →
  ∃ s', AdminBot.conduct_draw o v s = (Some AdminBot.DrawFailed, s') ∧
    AdminBot.draws s' = AdminBot.draws s ++
      [{| AdminBot.draw_ticket_value := v; AdminBot.winners := ws;
          AdminBot.draw_round := AdminBot.round_of s v |}] ∧
    AdminBot.tickets s' = AdminBot.tickets s ∧
    AdminBot.lottery_registrations s' = AdminBot.lottery_registrations s ∧
    AdminBot.round s' = AdminBot.round s.
Proof.
  intros Hlen Hws Hmiss.
  destruct (admin_credit_winners_missing ws
    (AdminBot.set_draws (λ l, l ++
       [{| AdminBot.draw_ticket_value := v; AdminBot.winners := ws;
           AdminBot.draw_round := AdminBot.round_of s v |}]) s) Hmiss) as [m Hm].
  eexists. split.
  - unfold AdminBot.conduct_draw, try_except. unfold bind at 1, gets at 1.
    rewrite decide_False by lia. unfold bind at 1. rewrite Hws. simpl lift_option.
    unfold ret at 1. unfold bind at 1, gets at 1. unfold bind at 1, modify at 1.
    unfold bind at 1. rewrite Hm. unfold ret. reflexivity.
  - by split_and!.
Qed.

Lemma admin_draw_stops_at_missing_user_witness :
  ∃ ws s',
    AdminBot.select_winners 100
      (shuffle first_oracle
         (AdminBot.registrations_of admin_three_buyers_one_unknown 100))
      = Some ws ∧
    AdminBot.conduct_draw first_oracle 100 admin_three_buyers_one_unknown
      = (Some AdminBot.DrawFailed, s') ∧
    AdminBot.draws s' = AdminBot.draws admin_three_buyers_one_unknown ++
      [{| AdminBot.draw_ticket_value := 100; AdminBot.winners := ws;
          AdminBot.draw_round := AdminBot.round_of admin_three_buyers_one_unknown 100 |}] ∧
    AdminBot.tickets s' = AdminBot.tickets admin_three_buyers_one_unknown ∧
    AdminBot.lottery_registrations s'
      = AdminBot.lottery_registrations admin_three_buyers_one_unknown ∧
    AdminBot.round s' = AdminBot.round admin_three_buyers_one_unknown.
Proof.
  assert (H1 : (3 ≤ length (AdminBot.registrations_of
                              admin_three_buyers_one_unknown 100))%nat)
    by (vm_compute; repeat constructor).
  eassert (H2 : AdminBot.select_winners 100
                  (shuffle first_oracle
                     (AdminBot.registrations_of admin_three_buyers_one_unknown 100))
                = Some _) by (vm_compute; reflexivity).
  match type of H2 with
  | _ = Some ?ws =>
      assert (H3 : ∃ w, w ∈ ws ∧
                AdminBot.users admin_three_buyers_one_unknown !! AdminBot.user_id w
                = None)
        by (eexists; split;
            [apply (list_elem_of_lookup_2 _ 1%nat); reflexivity
            |vm_compute; reflexivity]);
      destruct (admin_draw_stops_at_missing_user first_oracle 100
                  admin_three_buyers_one_unknown ws H1 H2 H3) as (s' & Hd);
      exists ws, s'; exact (conj H2 Hd)
  end.
Defined.

Lemma admin_sale_after_update v n u free reason t c s :
  doc_get n (AdminBot.tickets_of s v) = Some t →
  doc_update n (AdminBot.sell u free reason) (AdminBot.tickets_of s v) = Some c →
  admin_sale v n u free reason t s
    (AdminBot.set_registrations (λ l, l ++ [admin_registration v n u free reason])
       (AdminBot.set_tickets (insert v c) s)).
Proof.
  intros Ht Hc. unfold admin_sale, AdminBot.tickets_of.
  cbn [AdminBot.tickets AdminBot.set_tickets AdminBot.set_registrations
       AdminBot.lottery_registrations AdminBot.draws AdminBot.round].
  rewrite lookup_total_insert_eq. split_and!; try done.
  - rewrite (doc_get_update _ _ _ _ _ Hc), decide_True by done.
    by rewrite Ht.
  - intros n' Hn'. by rewrite (doc_get_update _ _ _ _ _ Hc), decide_False.
  - intros v' Hv'. by rewrite lookup_total_insert_ne.
Qed.

(** X1. [mark_as_sold] of [Main.py] raises and changes nothing when the
    ticket document does not exist; otherwise, whether or not the ticket was
    already sold, it rewrites the ticket as sold to the buyer and appends one
    registration, and changes no other ticket, no user, no transaction, no
    draw record. *)
Lemma admin_mark_as_sold_spec v n u free reason s :
  match doc_get n (AdminBot.tickets_of s v) with
  | None => AdminBot.mark_as_sold v n u free reason s = (None, s)
  | Some t =>
      ∃ s', AdminBot.mark_as_sold v n u free reason s = (Some (), s') ∧
            admin_sale v n u free reason t s s' ∧
            AdminBot.users s' = AdminBot.users s ∧
            AdminBot.transactions s' = AdminBot.transactions s
  end.
Proof.
  destruct (doc_get n (AdminBot.tickets_of s v)) as [t|] eqn:Ht.
  - destruct (doc_update n (AdminBot.sell u free reason) (AdminBot.tickets_of s v))
      as [c|] eqn:Hc.
    + eexists. split; [by apply admin_mark_as_sold_found|].
      split_and!; [|done..]. by apply admin_sale_after_update.
    + apply doc_update_get in Hc. congruence.
  - by apply admin_mark_as_sold_missing.
Qed.

(** ** Verification of a payment in [Main.py] *)

Lemma admin_verify_rejected admins o caller u n v s :
  (caller ∉ admins →
   AdminBot.verify_payment admins o caller u n v s = (Some AdminBot.AccessDenied, s)) ∧
  (caller ∈ admins →
   AdminBot.verify_first (AdminBot.is_pending u n v) caller (AdminBot.transactions s)
     = None →
   AdminBot.verify_payment admins o caller u n v s
     = (Some AdminBot.NoPendingTransaction, s)).
Proof.
  split.
  - intros H. unfold AdminBot.verify_payment. by rewrite decide_True.
  - intros H Hnone. unfold AdminBot.verify_payment.
    rewrite decide_False by (intros ?; done).
    unfold try_except, bind, gets. by rewrite Hnone.
Qed.

(** X7. In [Main.py], [/verify] from a caller who is not an administrator
    is denied and changes nothing. *)
Lemma admin_verify_payment_by_non_admin admins o caller u n v s :
  caller ∉ admins →
  AdminBot.verify_payment admins o caller u n v s = (Some AdminBot.AccessDenied, s).
Proof. apply admin_verify_rejected. Qed.

Lemma admin_verify_payment_by_non_admin_witness :
("alice"%string ∉ example_admins) ∧
  AdminBot.verify_payment example_admins first_oracle "alice"%string "alice"%string
    7 100 admin_pending_order
  = (Some AdminBot.AccessDenied, admin_pending_order).
Proof.
  assert (H : "alice"%string ∉ example_admins)
    by (refine (bool_decide_unpack _ _); vm_compute; exact I).
  exact (conj H (admin_verify_payment_by_non_admin _ _ _ _ _ _ _ H)).
Defined.

(** The first pending transaction of the query is the one that is marked. *)
Lemma admin_verify_first_spec p admin l :
  match AdminBot.verify_first p admin l with
  | None => Forall (λ t, p t = false) l
  | Some l' =>
      ∃ l1 t l2, l = l1 ++ t :: l2 ∧ Forall (λ t, p t = false) l1 ∧ p t = true ∧
                 l' = l1 ++ AdminBot.verify_transaction admin t :: l2
  end.
Proof.
  induction l as [|t l IH]; simpl; [done|].
  destruct (p t) eqn:Hp.
  - by exists [], t, l.
  - destruct (AdminBot.verify_first p admin l) as [l'|].
    + destruct IH as (l1 & t' & l2 & -> & H1 & H2 & ->).
      exists (t :: l1), t', l2. split_and!; try done. by constructor.
    + by constructor.
Qed.

(** A verified transaction is not pending any more: verifying the only
    pending transaction of a user and ticket leaves none. *)
Lemma admin_verified_is_not_pending u n v admin t :
  AdminBot.is_pending u n v (AdminBot.verify_transaction admin t) = false.
Proof.
  unfold AdminBot.is_pending. apply bool_decide_eq_false. simpl.
  intros (_ & _ & _ & ?). done.
Qed.

(** X8. A verification by an administrator that finds a pending
    transaction marks it verified before anything else. If the ticket
    document is missing, it stops there with an error. If the buyer has no
    user document, it stops with an error after the ticket was marked sold and
    registered. *)
Lemma admin_verify_payment_error_paths admins o caller u n v s txs :
  caller ∈ admins →
  AdminBot.verify_first (AdminBot.is_pending u n v) caller (AdminBot.transactions s)
    = Some txs →
  (doc_get n (AdminBot.tickets_of s v) = None →
   AdminBot.verify_payment admins o caller u n v s
     = (Some AdminBot.VerificationError, AdminBot.set_transactions (λ _, txs) s)) ∧
  (∀ t, doc_get n (AdminBot.tickets_of s v) = Some t →
        AdminBot.users s !! u = None →
        ∃ s', AdminBot.verify_payment admins o caller u n v s
                = (Some AdminBot.VerificationError, s') ∧
              admin_sale v n u false None t s s' ∧
              AdminBot.users s' = AdminBot.users s ∧
              AdminBot.transactions s' = txs).
Proof.
  intros Hadmin Htx. split.
  - intros Hnone. unfold AdminBot.verify_payment.
    rewrite decide_False by (intros ?; done).
    unfold try_except. unfold bind at 1, gets at 1. rewrite Htx.
    unfold bind at 1, modify at 1. unfold bind at 1.
    rewrite admin_mark_as_sold_missing by exact Hnone. reflexivity.
  - intros t Ht Hu.
    destruct (doc_update n (AdminBot.sell u false None) (AdminBot.tickets_of s v))
      as [c|] eqn:Hc.
    2:{ apply doc_update_get in Hc. congruence. }
    eexists. split.
    + unfold AdminBot.verify_payment.
      rewrite decide_False by (intros ?; done).
      unfold try_except. unfold bind at 1, gets at 1. rewrite Htx.
      unfold bind at 1, modify at 1. unfold bind at 1.
      rewrite (admin_mark_as_sold_found _ _ _ _ _ _ c) by exact Hc.
      unfold bind at 1, AdminBot.update_tickets_purchased_count.
      rewrite admin_user_update_missing by exact Hu. reflexivity.
    + split_and!; [|done..].
      apply (admin_sale_after_update v n u false None t c
               (AdminBot.set_transactions (λ _, txs) s) Ht Hc).
Qed.

Lemma admin_verify_payment_error_paths_witness :
  ∃ txs t s',
    "900"%string ∈ example_admins ∧
    AdminBot.verify_first (AdminBot.is_pending "bob"%string 2 100) "900"%string
      (AdminBot.transactions admin_pending_order_unknown) = Some txs ∧
    doc_get 2 (AdminBot.tickets_of admin_pending_order_unknown 100) = Some t ∧
    AdminBot.users admin_pending_order_unknown !! "bob"%string = None ∧
    AdminBot.verify_payment example_admins first_oracle "900"%string "bob"%string
      2 100 admin_pending_order_unknown = (Some AdminBot.VerificationError, s') ∧
    admin_sale 100 2 "bob"%string false None t admin_pending_order_unknown s' ∧
    AdminBot.users s' = AdminBot.users admin_pending_order_unknown ∧
    AdminBot.transactions s' = txs.
Proof.
  assert (H0 : "900"%string ∈ example_admins)
    by (refine (bool_decide_unpack _ _); vm_compute; exact I).
  eassert (H1 : AdminBot.verify_first (AdminBot.is_pending "bob"%string 2 100)
                  "900"%string (AdminBot.transactions admin_pending_order_unknown)
                = Some _) by (vm_compute; reflexivity).
  eassert (H2 : doc_get 2 (AdminBot.tickets_of admin_pending_order_unknown 100)
                = Some _) by (vm_compute; reflexivity).
  assert (H3 : AdminBot.users admin_pending_order_unknown !! "bob"%string = None)
    by (vm_compute; reflexivity).
  match type of H1 with
  | _ = Some ?txs =>
      match type of H2 with
      | _ = Some ?t =>
          destruct (proj2 (admin_verify_payment_error_paths example_admins first_oracle
                             "900"%string "bob"%string 2 100
                             admin_pending_order_unknown txs H0 H1) t H2 H3)
            as (s' & Hv & Hs);
          exists txs, t, s'; exact (conj H0 (conj H1 (conj H2 (conj H3 (conj Hv Hs)))))
      end
  end.
Defined.

Lemma admin_sold_after_update n f (c c' : list (Z * AdminBot.Ticket)) :
  doc_update n f c = Some c' →
  (length (filter (λ d, AdminBot.is_sold d.2 = true) c')
   ≤ S (length (filter (λ d, AdminBot.is_sold d.2 = true) c)))%nat.
Proof.
  revert c'. induction c as [|[k t] c IH]; intros c'; cbn [doc_update]; [done|].
  case_decide as Hk.
  - intros [= <-]. rewrite !filter_cons.
    repeat case_decide; cbn [length]; lia.
  - destruct (doc_update n f c) as [c''|]; [|done]. intros [= <-].
    rewrite !filter_cons. specialize (IH _ eq_refl).
    case_decide; cbn [length]; lia.
Qed.

(** X9. The plain path of a verification in [Main.py]: the caller is an
    administrator, a pending transaction matches, the ticket and the buyer
    exist, no loyalty bonus is due and the round is not sold out. The answer
    is [PaymentVerified]; the ticket is sold to the buyer with one
    registration, the buyer's count for the value grows by one, and the
    first matching transaction is marked verified. *)
Lemma admin_verify_payment_plain admins o caller u n v s txs t usr :
  caller ∈ admins →
  AdminBot.verify_first (AdminBot.is_pending u n v) caller (AdminBot.transactions s)
    = Some txs →
  doc_get n (AdminBot.tickets_of s v) = Some t →
  AdminBot.users s !! u = Some usr →
  (AdminBot.purchased_count usr v + 1) `mod` LOYALTY_BONUS_PURCHASE_COUNT ≠ 0 →
  Z.of_nat (AdminBot.sold_count s v) + 1 < TOTAL_TICKETS_PER_VALUE →
  ∃ s', AdminBot.verify_payment admins o caller u n v s
          = (Some AdminBot.PaymentVerified, s') ∧
        admin_sale v n u false None t s s' ∧
        AdminBot.users s' = <[u := AdminBot.increment_count v usr]> (AdminBot.users s) ∧
        AdminBot.transactions s' = txs.
Proof.
  intros Hadmin Htx Ht Hu Hmod Hsold.
  destruct (doc_update n (AdminBot.sell u false None) (AdminBot.tickets_of s v))
    as [c|] eqn:Hc.
  2:{ apply doc_update_get in Hc. congruence. }
  eexists. split.
  - unfold AdminBot.verify_payment.
    rewrite decide_False by (intros ?; done).
    unfold try_except. unfold bind at 1, gets at 1. rewrite Htx.
    unfold bind at 1, modify at 1. unfold bind at 1.
    rewrite (admin_mark_as_sold_found _ _ _ _ _ _ c) by exact Hc.
    unfold bind at 1, AdminBot.update_tickets_purchased_count.
    erewrite admin_user_update_found by exact Hu.
    unfold bind at 1.
    erewrite admin_get_or_create_found by apply lookup_insert_eq.
    unfold bind at 1.
    rewrite decide_False.
    2:{ unfold AdminBot.purchased_count at 1. simpl.
        by rewrite lookup_insert_eq. }
    unfold ret at 1. unfold bind at 1, gets at 1.
    unfold bind at 1. rewrite decide_False.
    2:{ unfold AdminBot.sold_count, AdminBot.tickets_of, stream in *.
        cbn [AdminBot.tickets AdminBot.set_tickets AdminBot.set_registrations
             AdminBot.set_users AdminBot.set_transactions].
        rewrite lookup_total_insert_eq.
        pose proof (admin_sold_after_update _ _ _ _ Hc). lia. }
    unfold ret. reflexivity.
  - split_and!; [|done..].
    apply (admin_sale_after_update v n u false None t c
             (AdminBot.set_transactions (λ _, txs) s) Ht Hc).
Qed.

Lemma admin_verify_payment_plain_witness :
  ∃ txs t usr s',
    "900"%string ∈ example_admins ∧
    AdminBot.verify_first (AdminBot.is_pending "alice"%string 7 100) "900"%string
      (AdminBot.transactions admin_pending_order) = Some txs ∧
    doc_get 7 (AdminBot.tickets_of admin_pending_order 100) = Some t ∧
    AdminBot.users admin_pending_order !! "alice"%string = Some usr ∧
    (AdminBot.purchased_count usr 100 + 1) `mod` LOYALTY_BONUS_PURCHASE_COUNT ≠ 0 ∧
    Z.of_nat (AdminBot.sold_count admin_pending_order 100) + 1
      < TOTAL_TICKETS_PER_VALUE ∧
    AdminBot.verify_payment example_admins first_oracle "900"%string "alice"%string
      7 100 admin_pending_order = (Some AdminBot.PaymentVerified, s') ∧
    admin_sale 100 7 "alice"%string false None t admin_pending_order s' ∧
    AdminBot.users s'
      = <["alice"%string := AdminBot.increment_count 100 usr]>
          (AdminBot.users admin_pending_order) ∧
    AdminBot.transactions s' = txs.
Proof.
  assert (H0 : "900"%string ∈ example_admins)
    by (refine (bool_decide_unpack _ _); vm_compute; exact I).
  eassert (H1 : AdminBot.verify_first (AdminBot.is_pending "alice"%string 7 100)
                  "900"%string (AdminBot.transactions admin_pending_order)
                = Some _) by (vm_compute; reflexivity).
  eassert (H2 : doc_get 7 (AdminBot.tickets_of admin_pending_order 100) = Some _)
    by (vm_compute; reflexivity).
  eassert (H3 : AdminBot.users admin_pending_order !! "alice"%string = Some _)
    by (vm_compute; reflexivity).
  match type of H1 with
  | _ = Some ?txs =>
      match type of H2 with
      | _ = Some ?t =>
          match type of H3 with
          | _ = Some ?usr =>
              assert (H4 : (AdminBot.purchased_count usr 100 + 1)
                             `mod` LOYALTY_BONUS_PURCHASE_COUNT ≠ 0)
                by (vm_compute; discriminate);
              assert (H5 : Z.of_nat (AdminBot.sold_count admin_pending_order 100) + 1
                           < TOTAL_TICKETS_PER_VALUE) by (vm_compute; reflexivity);
              destruct (admin_verify_payment_plain example_admins first_oracle
                          "900"%string "alice"%string 7 100 admin_pending_order
                          txs t usr H0 H1 H2 H3 H4 H5) as (s' & Hv);
              exists txs, t, usr, s';
              exact (conj H0 (conj H1 (conj H2 (conj H3 (conj H4 (conj H5 Hv))))))
          end
      end
  end.
Defined.

(** ** Draw records are only appended *)

(** X12. In both programs, no operation of a run removes or changes a draw
    record: the draw records before a run are a prefix of those after it. *)
Lemma draw_records_are_only_appended :
  (∀ (admins : list string) (ops : list AdminBot.Op) (s : AdminBot.State),
     AdminBot.draws s `prefix_of` AdminBot.draws (AdminBot.run admins ops s))
  ∧ (∀ (ops : list SelfBot.Op) (s : SelfBot.State),
       SelfBot.draws s `prefix_of` SelfBot.draws (self_run ops s)).
Proof.
  split.
  - intros admins ops s.
    apply (admin_run_keeps admins
             (λ s', AdminBot.draws s `prefix_of` AdminBot.draws s')); try done.
    + intros v n u free reason. unfold AdminBot.mark_as_sold. keeps_go; done.
    + intros v. unfold AdminBot.reset_tickets. keeps_go; done.
    + intros v sold ws s' Hs' _. cbn. by apply prefix_app_r.
    + intros v s' Hs'. unfold AdminBot.initialize_value. by case_decide.
  - intros ops s.
    apply (self_run_keeps (λ s', SelfBot.draws s `prefix_of` SelfBot.draws s'));
      try done.
    intros v date l s' Hs'. cbn. by apply prefix_app_r.
Qed.

(** ** The loyalty bonus of [Main.py] *)

(** X11. The loyalty bonus of [Main.py]: with no available number the
    answer is [BonusNoNumbers] and nothing changes; otherwise the number the
    random generator picks is marked sold as a free ticket with one
    registration, and the count of the user for the value grows by one; when
    the user has no document, the handler raises after the ticket was sold. *)
Lemma admin_award_loyalty_bonus_spec o u v s :
  ValidOracle o →
  match AdminBot.get_available v s with
  | [] => AdminBot.award_loyalty_bonus o u v s = (Some AdminBot.BonusNoNumbers, s)
  | a :: l =>
      ∃ t, doc_get (choice o (a :: l)) (AdminBot.tickets_of s v) = Some t ∧
      match AdminBot.users s !! u with
      | Some usr =>
          ∃ s', AdminBot.award_loyalty_bonus o u v s
                  = (Some (AdminBot.BonusAwarded (choice o (a :: l))), s') ∧
                admin_sale v (choice o (a :: l)) u true (Some "Loyalty Bonus"%string)
                  t s s' ∧
                AdminBot.users s' = <[u := AdminBot.increment_count v usr]>
                                      (AdminBot.users s)
      | None =>
          ∃ s', AdminBot.award_loyalty_bonus o u v s = (None, s') ∧
                admin_sale v (choice o (a :: l)) u true (Some "Loyalty Bonus"%string)
                  t s s' ∧
                AdminBot.users s' = AdminBot.users s
      end
  end.
Proof.
  intros [_ Hchoice].
  destruct (AdminBot.get_available v s) as [|a l] eqn:Ea.
  { unfold AdminBot.award_loyalty_bonus, bind, gets. by rewrite Ea. }
  assert (Hn : choice o (a :: l) ∈ AdminBot.get_available v s).
  { rewrite Ea. by apply Hchoice. }
  destruct (admin_available_can_be_updated _ _ _
    (AdminBot.sell u true (Some "Loyalty Bonus"%string)) Hn) as [c Hc].
  destruct (doc_get (choice o (a :: l)) (AdminBot.tickets_of s v)) as [t|] eqn:Ht.
  2:{ by rewrite (proj2 (doc_update_get _ _ _) Ht) in Hc. }
  exists t. split; [done|].
  destruct (AdminBot.users s !! u) as [usr|] eqn:Hu.
  - eexists. split_and!.
    + unfold AdminBot.award_loyalty_bonus. unfold bind at 1, gets at 1. rewrite Ea.
      unfold bind at 1. rewrite (admin_mark_as_sold_found _ _ _ _ _ _ c) by exact Hc.
      unfold bind at 1, AdminBot.update_tickets_purchased_count.
      erewrite admin_user_update_found by exact Hu. reflexivity.
    + apply (admin_sale_after_update _ _ _ _ _ _ _ _ Ht Hc).
    + reflexivity.
  - eexists. split_and!.
    + unfold AdminBot.award_loyalty_bonus. unfold bind at 1, gets at 1. rewrite Ea.
      unfold bind at 1. rewrite (admin_mark_as_sold_found _ _ _ _ _ _ c) by exact Hc.
      unfold bind at 1, AdminBot.update_tickets_purchased_count.
      rewrite admin_user_update_missing by exact Hu. reflexivity.
    + apply (admin_sale_after_update _ _ _ _ _ _ _ _ Ht Hc).
    + reflexivity.
Qed.

Lemma admin_award_loyalty_bonus_spec_witness :
  ValidOracle (@first_oracle AdminBot.Registration) ∧
  match AdminBot.get_available 100 admin_two_sales with
  | [] => AdminBot.award_loyalty_bonus first_oracle "alice"%string 100 admin_two_sales
          = (Some AdminBot.BonusNoNumbers, admin_two_sales)
  | a :: l =>
      ∃ t, doc_get (choice (@first_oracle AdminBot.Registration) (a :: l)) (AdminBot.tickets_of admin_two_sales 100)
           = Some t ∧
      match AdminBot.users admin_two_sales !! "alice"%string with
      | Some usr =>
          ∃ s', AdminBot.award_loyalty_bonus first_oracle "alice"%string 100
                  admin_two_sales
                  = (Some (AdminBot.BonusAwarded (choice (@first_oracle AdminBot.Registration) (a :: l))), s') ∧
                admin_sale 100 (choice (@first_oracle AdminBot.Registration) (a :: l)) "alice"%string true
                  (Some "Loyalty Bonus"%string) t admin_two_sales s' ∧
                AdminBot.users s' = <["alice"%string := AdminBot.increment_count 100 usr]>
                                      (AdminBot.users admin_two_sales)
      | None =>
          ∃ s', AdminBot.award_loyalty_bonus first_oracle "alice"%string 100
                  admin_two_sales = (None, s') ∧
                admin_sale 100 (choice (@first_oracle AdminBot.Registration) (a :: l)) "alice"%string true
                  (Some "Loyalty Bonus"%string) t admin_two_sales s' ∧
                AdminBot.users s' = AdminBot.users admin_two_sales
      end
  end.
Proof.
  split; [apply first_oracle_valid|].
  exact (admin_award_loyalty_bonus_spec (@first_oracle AdminBot.Registration)
           "alice"%string 100 admin_two_sales
           (@first_oracle_valid AdminBot.Registration)).
Defined.

(** ** Initialization in [Main.py] *)

Lemma admin_fresh_pool_length v :
  length (AdminBot.fresh_pool v) = Z.to_nat TOTAL_TICKETS_PER_VALUE.
Proof. vm_compute. reflexivity. Qed.

Lemma admin_initialize_value_makes_full v s :
  admin_pool_full (AdminBot.initialize_value v s) v.
Proof.
  unfold admin_pool_full, AdminBot.initialize_value, stream.
  case_decide as H; [|lia].
  change (AdminBot.tickets_of (AdminBot.set_round ?f ?s) v)
    with (AdminBot.tickets_of s v).
  rewrite admin_tickets_of_set_tickets, lookup_total_insert_eq.
  rewrite admin_fresh_pool_length. unfold TOTAL_TICKETS_PER_VALUE. lia.
Qed.

Lemma admin_initialize_value_keeps_full v v' s :
  admin_pool_full s v → admin_pool_full (AdminBot.initialize_value v' s) v.
Proof.
  intros H. destruct (decide (v = v')) as [<-|Hne].
  - apply admin_initialize_value_makes_full.
  - unfold admin_pool_full. by rewrite admin_initialize_value_other.
Qed.

Lemma admin_initialize_makes_full s v :
  v ∈ TICKET_VALUES → admin_pool_full (AdminBot.initialize_tickets s) v.
Proof.
  unfold AdminBot.initialize_tickets. generalize TICKET_VALUES. intros l. revert s.
  induction l as [|v' l IH]; intros s Hv; [by apply elem_of_nil in Hv|].
  simpl. apply elem_of_cons in Hv as [->|Hv]; [|by apply IH].
  generalize (admin_initialize_value_makes_full v' s).
  generalize (AdminBot.initialize_value v' s). clear. intros s. revert s.
  induction l as [|v l IH]; intros s Hs; simpl; [done|].
  apply IH. by apply admin_initialize_value_keeps_full.
Qed.

(** X2. In [Main.py], initializing twice is initializing once, from any
    store. *)
Lemma admin_initialize_idempotent s :
  AdminBot.initialize_tickets (AdminBot.initialize_tickets s)
  = AdminBot.initialize_tickets s.
Proof.
  pose proof (admin_initialize_makes_full s) as Hfull.
  generalize dependent (AdminBot.initialize_tickets s). intros s1 Hfull.
  unfold AdminBot.initialize_tickets.
  assert (∀ l, l ⊆ TICKET_VALUES →
    foldl (λ s v, AdminBot.initialize_value v s) s1 l = s1) as H.
  { induction l as [|v l IH]; intros Hl; simpl; [done|].
    rewrite admin_initialize_value_full; [apply IH|apply Hfull]; set_solver. }
  by apply H.
Qed.

(** ** The list of available numbers in [main.py] *)

(** X14. [select_ticket_value] of [main.py] shows the unsold numbers of the
    value in ascending order, each once, and writes no ticket and no
    registration. *)
Lemma self_select_ticket_value_sorted u v s :
  ∃ l, (SelfBot.select_ticket_value u v s).1 = Some l ∧
       ascending l ∧ l ≡ₚ SelfBot.unsold_numbers s v ∧
       SelfBot.tickets (SelfBot.select_ticket_value u v s).2 = SelfBot.tickets s ∧
       SelfBot.registrations (SelfBot.select_ticket_value u v s).2
         = SelfBot.registrations s.
Proof.
  unfold SelfBot.select_ticket_value, bind, SelfBot.update_conversation, modify, gets.
  cbn beta iota.
  change (SelfBot.unsold_numbers (SelfBot.set_user_data ?f s) v)
    with (SelfBot.unsold_numbers s v).
  exists (merge_sort Z.le (SelfBot.unsold_numbers s v)).
  assert (ascending (merge_sort Z.le (SelfBot.unsold_numbers s v))) as Hsorted.
  { unfold ascending. apply StronglySorted_merge_sort; apply _. }
  pose proof (merge_sort_Permutation Z.le (SelfBot.unsold_numbers s v)) as Hperm.
  destruct (merge_sort Z.le (SelfBot.unsold_numbers s v)) as [|a l]; by split_and!.
Qed.

(** ** The bonus award of [main.py] *)

(** X17. The loyalty bonus of [main.py] writes no user document, whatever
    it awards: the purchase counts, the draw records and the rounds are as
    before. *)
Lemma self_award_loyalty_bonus_frame o t1 t2 u v s :
  SelfBot.users (SelfBot.award_loyalty_bonus o t1 t2 u v s).2 = SelfBot.users s ∧
  SelfBot.draws (SelfBot.award_loyalty_bonus o t1 t2 u v s).2 = SelfBot.draws s ∧
  SelfBot.round (SelfBot.award_loyalty_bonus o t1 t2 u v s).2 = SelfBot.round s.
Proof.
  apply (keeps_state (λ s', SelfBot.users s' = SelfBot.users s ∧
                            SelfBot.draws s' = SelfBot.draws s ∧
                            SelfBot.round s' = SelfBot.round s)); [|done].
  by apply self_award_loyalty_bonus_keeps.
Qed.

Lemma hoare_bind_assoc {S A B C} (P : S → Prop) (Q : C → S → Prop) (E : S → Prop)
    (m : M S A) (k : A → M S B) (h : B → M S C) :
  hoare P (bind (bind m k) h) Q E → hoare P (bind m (λ a, bind (k a) h)) Q E.
Proof.
  intros H s Hs. specialize (H s Hs). unfold bind in *.
  by destruct (m s) as [[a|] s'].
Qed.

Section SelfRule.
Import SelfBot.
Variable I : State → Prop.
Hypothesis I_users : ∀ f s, I s → I (set_users f s).
Hypothesis I_user_data : ∀ f s, I s → I (set_user_data f s).
Hypothesis I_init : ∀ s, I s → I (initialize_tickets_firestore s).
Hypothesis I_sale : ∀ v n f r s c t,
  I s → doc_get n (tickets_of s v) = Some t → isSold t = false →
  doc_update n f (tickets_of s v) = Some c → self_sale_shape f r v n →
  I (set_registrations (λ l, l ++ [r]) (set_tickets (insert v c) s)).
Hypothesis I_free : ∀ o t1 t2 u v reason,
  ValidOracle o → keeps I (award_free_ticket o t1 t2 u v reason).
Hypothesis I_check : ∀ o date v, keeps I (check_for_lottery_draw o date v).

Local Hint Resolve I_users I_user_data I_check : keeps.

Lemma self_rule_update_user_data u f : keeps I (SelfBot.update_user_data u f).
Proof. unfold SelfBot.update_user_data. keeps_go. Qed.

Lemma self_rule_update_conversation u f : keeps I (update_conversation u f).
Proof. unfold update_conversation. keeps_go. Qed.

Local Hint Resolve self_rule_update_user_data self_rule_update_conversation : keeps.

Lemma self_rule_sale v n f r t :
  self_sale_shape f r v n → isSold t = false →
  hoare (λ s, I s ∧ doc_get n (tickets_of s v) = Some t)
    (do! ticket_update v n f in add_registration r) (λ _, I) I.
Proof.
  intros Hshape Hunsold s [Hs Ht].
  unfold ticket_update, add_registration, modify, bind.
  destruct (doc_update n f (tickets_of s v)) as [c|] eqn:Hc; [|done].
  by eapply I_sale.
Qed.

Lemma self_rule_process_payment_proof o u p :
  ValidOracle o → keeps I (process_payment_proof o u p).
Proof.
  intros Ho. unfold process_payment_proof.
  apply keeps_bind; [apply keeps_gets|]. intros d.
  destruct (selected_ticket_value d) as [v|]; [|apply keeps_ret].
  destruct (selected_ticket_number d) as [n|]; [|apply keeps_ret].
  destruct (truthy (Some v) && truthy (Some n)); [|apply keeps_ret].
  apply keeps_bind; [|intros r; keeps_go].
  apply keeps_try; [|apply keeps_ret].
  eapply hoare_bind with
    (R := λ doc s, I s ∧ doc_get n (tickets_of s v) = doc).
  { by apply hoare_gets. }
  intros [t|]; [|apply hoare_ret; tauto].
  destruct (isSold t) eqn:Hsold; [apply hoare_ret; tauto|].
  set (f := sell u p (now o 0)).
  set (r := {| reg_ticketId := n |}).
  apply hoare_bind_assoc.
  eapply hoare_bind; [apply self_rule_sale; [|done]|].
  { split; [|done]. intros t'. by split_and!. }
  intros ?. match goal with |- hoare _ ?m _ _ => change (keeps I m) end.
  unfold award_loyalty_bonus. keeps_go.
Qed.

Lemma self_rule_claim_referral_bonus o u :
  ValidOracle o → keeps I (claim_referral_bonus o u).
Proof. intros Ho. unfold claim_referral_bonus. keeps_go. Qed.

Lemma self_rule_select_ticket_value u v : keeps I (select_ticket_value u v).
Proof. unfold select_ticket_value. keeps_go. Qed.

Lemma self_rule_select_ticket_number u n : keeps I (select_ticket_number u n).
Proof. unfold select_ticket_number. keeps_go. Qed.

Lemma self_rule_start u : keeps I (start u).
Proof. unfold start. keeps_go. Qed.

Lemma self_rule_simulate_invite u : keeps I (simulate_invite u).
Proof. unfold simulate_invite. keeps_go. Qed.

Lemma self_rule_exec op s :
  (∀ o, oracle_of op = Some o → ValidOracle o) → I s → I (exec op s).
Proof.
  intros Ho Hs. destruct op; cbn [exec].
  - by apply I_init.
  - by apply (keeps_state I (start _)); [apply self_rule_start|].
  - by apply (keeps_state I (select_ticket_value _ _));
      [apply self_rule_select_ticket_value|].
  - by apply (keeps_state I (select_ticket_number _ _));
      [apply self_rule_select_ticket_number|].
  - apply (keeps_state I (process_payment_proof _ _ _)); [|done].
    apply self_rule_process_payment_proof. by apply Ho.
  - apply (keeps_state I (claim_referral_bonus _ _)); [|done].
    apply self_rule_claim_referral_bonus. by apply Ho.
  - by apply (keeps_state I (simulate_invite _)); [apply self_rule_simulate_invite|].
Qed.

Lemma self_rule_reachable s : I empty_store → reachable s → I s.
Proof.
  intros H0 Hs. induction Hs as [|op s Hs IH Ho]; [done|].
  by apply self_rule_exec.
Qed.
End SelfRule.

Lemma self_initialize_frame s :
  SelfBot.draws (SelfBot.initialize_tickets_firestore s) = SelfBot.draws s ∧
  SelfBot.round (SelfBot.initialize_tickets_firestore s) = SelfBot.round s ∧
  SelfBot.registrations (SelfBot.initialize_tickets_firestore s)
    = SelfBot.registrations s ∧
  SelfBot.users (SelfBot.initialize_tickets_firestore s) = SelfBot.users s.
Proof.
  unfold SelfBot.initialize_tickets_firestore. generalize TICKET_VALUES. intros l.
  revert s. induction l as [|v l IH]; intros s; simpl; [done|].
  destruct (IH (SelfBot.initialize_value v s)) as (-> & -> & -> & ->).
  unfold SelfBot.initialize_value. by case_decide.
Qed.

Lemma self_conduct_drawn o date v :
  hoare self_one_draw_per_round (SelfBot.conduct_lottery_draw o date v)
    (λ _, self_drawn v) self_one_draw_per_round.
Proof.
  intros s [Hnd Hlt]. unfold SelfBot.conduct_lottery_draw, bind, gets, modify, ret.
  case_decide.
  - split; [done|]. intros d Hd. specialize (Hlt d Hd). case_decide; [subst|done]. lia.
  - split; cbn [SelfBot.draws SelfBot.set_draws].
    + rewrite fmap_app. apply NoDup_app. split_and!; [done| |apply NoDup_singleton].
      intros k [d [-> Hd]]%list_elem_of_fmap Hk%list_elem_of_singleton.
      specialize (Hlt d Hd). unfold self_draw_key in Hk. simpl in Hk.
      injection Hk as Hv Hr. rewrite Hv in Hlt. lia.
    + intros d [Hd| ->%list_elem_of_singleton]%elem_of_app.
      * specialize (Hlt d Hd). case_decide; [subst|done].
        change (SelfBot.round_of (SelfBot.set_draws ?f s) ?v)
          with (SelfBot.round_of s v). lia.
      * simpl. rewrite decide_True by done. done.
Qed.

Lemma self_reset_after_draw v :
  hoare (self_drawn v) (SelfBot.reset_tickets_for_value v)
    (λ _, self_one_draw_per_round) self_one_draw_per_round.
Proof.
  intros s [Hnd Hle]. unfold SelfBot.reset_tickets_for_value, bind, modify.
  destruct (self_initialize_frame
    (SelfBot.set_round (SelfBot.bump v)
       (SelfBot.set_registrations (filter (λ r, SelfBot.reg_ticketValue r ≠ v))
          (SelfBot.set_tickets (insert v []) s)))) as (Hd & Hr & _).
  unfold self_one_draw_per_round, SelfBot.round_of. rewrite Hd, Hr.
  cbn [SelfBot.draws SelfBot.round SelfBot.set_round SelfBot.set_registrations
       SelfBot.set_tickets].
  split; [done|]. intros d Hd'. specialize (Hle d Hd'). unfold SelfBot.bump.
  case_decide as Hv.
  - rewrite Hv, lookup_insert_eq. unfold SelfBot.round_of in Hle. simpl. lia.
  - rewrite lookup_insert_ne by done. exact Hle.
Qed.

Lemma self_check_one_draw_per_round o date v :
  keeps self_one_draw_per_round (SelfBot.check_for_lottery_draw o date v).
Proof.
  unfold SelfBot.check_for_lottery_draw.
  apply keeps_bind; [apply keeps_gets|]. intros sold.
  case_decide; [|apply keeps_ret].
  apply keeps_bind; [apply keeps_gets|]. intros [|]; [apply keeps_ret|].
  eapply hoare_bind; [apply self_conduct_drawn|].
  intros ?. apply self_reset_after_draw.
Qed.

(** Runs of [main.py] with valid random generators reach reachable states. *)
Lemma self_run_reachable ops s :
  SelfBot.reachable s →
  Forall (λ op, ∀ o, SelfBot.oracle_of op = Some o → ValidOracle o) ops →
  SelfBot.reachable (self_run ops s).
Proof.
  intros Hs Hops. revert s Hs.
  induction Hops as [|op ops Hop _ IH]; intros s Hs; [done|].
  apply IH. by constructor.
Qed.

Lemma self_round_sold_out_reachable : SelfBot.reachable self_round_sold_out.
Proof.
  apply self_run_reachable; [constructor|].
  repeat (apply Forall_app; split);
    try (apply Forall_flat_map, Forall_forall; intros n _);
    repeat (constructor;
            [intros o Ho; try discriminate Ho; injection Ho as <-;
             apply first_oracle_valid|]);
    constructor.
Qed.

(** X20. In every state that [main.py] reaches from the empty store, no two
    draw records belong to the same round of the same value, and every draw
    record belongs to a round that is over. *)
Lemma self_reachable_one_draw_per_round s :
  SelfBot.reachable s → self_one_draw_per_round s.
Proof.
  apply self_rule_reachable; try done.
  - intros s' [Hnd Hlt]. destruct (self_initialize_frame s') as (Hd & Hr & _).
    unfold self_one_draw_per_round, SelfBot.round_of. by rewrite Hd, Hr.
  - intros o t1 t2 u v reason _. by apply self_award_free_ticket_keeps.
  - apply self_check_one_draw_per_round.
  - split; [apply NoDup_nil_2|]. by intros d ?%elem_of_nil.
Qed.

Lemma self_reachable_one_draw_per_round_witness :
  SelfBot.reachable self_round_sold_out ∧
  length (SelfBot.draws self_round_sold_out) = 1%nat ∧
  self_one_draw_per_round self_round_sold_out.
Proof.
  assert (H : length (SelfBot.draws self_round_sold_out) = 1%nat)
    by (vm_compute; reflexivity).
  exact (conj self_round_sold_out_reachable
           (conj H (self_reachable_one_draw_per_round _ self_round_sold_out_reachable))).
Defined.

(** ** Sold tickets and registrations in [main.py] *)

Section StoreSetFacts.
Context {V : Type}.
Implicit Types (c : list (Z * V)) (k : Z) (d : V).

Lemma doc_get_set k k' d c :
  doc_get k' (doc_set k d c) = if decide (k' = k) then Some d else doc_get k' c.
Proof.
  induction c as [|[k0 d0] c IH]; cbn [doc_set doc_get].
  { by destruct (decide (k' = k)). }
  destruct (decide (k = k0)) as [<-|Hk0]; cbn [doc_get].
  { by destruct (decide (k' = k)). }
  destruct (String.ltb (doc_id k) (doc_id k0)); cbn [doc_get].
  { by destruct (decide (k' = k)). }
  rewrite IH. destruct (decide (k' = k0)) as [->|]; [|done].
  by rewrite decide_False.
Qed.

Lemma doc_set_keys k d c : k ∉ c.*1 → (doc_set k d c).*1 ≡ₚ k :: c.*1.
Proof.
  induction c as [|[k0 d0] c IH]; cbn [doc_set]; [done|].
  rewrite fmap_cons, not_elem_of_cons. cbn [fst]. intros [Hk Hc].
  rewrite decide_False by done.
  destruct (String.ltb (doc_id k) (doc_id k0)); [done|].
  rewrite fmap_cons. cbn [fst]. rewrite (IH Hc). apply Permutation_swap.
Qed.
End StoreSetFacts.

Lemma self_init_fold (existing : gset Z) v (l : list Z) (c : list (Z * SelfBot.Ticket)) :
  (∀ k, k ∈ c.*1 → k ∈ existing ∨ k ∉ l) →
  NoDup l → NoDup c.*1 →
  let c' := foldl (λ c i, if decide (i ∈ existing) then c
                          else doc_set i (SelfBot.new_ticket i v) c) c l in
  NoDup c'.*1 ∧
  ∀ k, doc_get k c' =
       match doc_get k c with
       | Some t => Some t
       | None => if decide (k ∈ l ∧ k ∉ existing)
                 then Some (SelfBot.new_ticket k v) else None
       end.
Proof.
  revert c. induction l as [|i l IH]; intros c Hc Hl Hnd; cbn [foldl].
  { split; [done|]. intros k. destruct (doc_get k c); [done|].
    rewrite decide_False; [done|]. intros [?%elem_of_nil _]. done. }
  apply NoDup_cons in Hl as [Hi Hl].
  destruct (decide (i ∈ existing)) as [Hex|Hex].
  - destruct (IH c) as [H1 H2]; [|done..|].
    { intros k Hk. destruct (Hc k Hk) as [?|Hn]; [by left|].
      right. intros ?. apply Hn. by right. }
    split; [done|]. intros k. rewrite H2. destruct (doc_get k c); [done|].
    destruct (decide (k ∈ l ∧ k ∉ existing)) as [[? ?]|Hn].
    + rewrite decide_True; [done|]. split; [by right|done].
    + rewrite decide_False; [done|]. intros [[->|?]%elem_of_cons ?]; [done|].
      apply Hn. done.
  - assert (i ∉ c.*1) as Hic.
    { intros Hin. destruct (Hc i Hin) as [?|Hn]; [done|]. apply Hn. left. }
    destruct (IH (doc_set i (SelfBot.new_ticket i v) c)) as [H1 H2]; [|done| |].
    { intros k Hk. rewrite (doc_set_keys _ _ _ Hic) in Hk.
      apply elem_of_cons in Hk as [->|Hk]; [by right|].
      destruct (Hc k Hk) as [?|Hn]; [by left|]. right. intros ?. apply Hn. by right. }
    { rewrite (doc_set_keys _ _ _ Hic). by apply NoDup_cons. }
    split; [done|]. intros k. rewrite H2, doc_get_set.
    destruct (decide (k = i)) as [->|Hki].
    + apply doc_get_None in Hic. rewrite Hic.
      rewrite decide_True; [done|]. split; [left|done].
    + destruct (doc_get k c); [done|].
      destruct (decide (k ∈ l ∧ k ∉ existing)) as [[? ?]|Hn].
      * rewrite decide_True; [done|]. split; [by right|done].
      * rewrite decide_False; [done|]. intros [[->|?]%elem_of_cons ?]; [done|].
        apply Hn. done.
Qed.

Lemma self_initialize_value_consistent v0 s :
  self_consistent s → self_consistent (SelfBot.initialize_value v0 s).
Proof.
  intros Hs. unfold SelfBot.initialize_value. case_decide as Hsize; [|done].
  intros v. destruct (Hs v) as (Hnd & Hids & Hregs & Hiff).
  destruct (decide (v = v0)) as [->|Hv].
  2:{ unfold self_ids_match. rewrite self_tickets_of_set_tickets.
      rewrite lookup_total_insert_ne by done. done. }
  destruct (self_init_fold (list_to_set (stream (SelfBot.tickets_of s v0)).*1) v0
              ticket_range (stream (SelfBot.tickets_of s v0))) as [H1 H2].
  { intros k Hk. left. by apply elem_of_list_to_set. }
  { apply NoDup_seqZ. }
  { done. }
  unfold self_ids_match. rewrite self_tickets_of_set_tickets.
  rewrite lookup_total_insert_eq.
  change (SelfBot.registrations_of (SelfBot.set_tickets ?f s) v0)
    with (SelfBot.registrations_of s v0).
  split_and!; [done| |done|].
  - intros k t Hin. apply (doc_get_NoDup _ _ _ H1) in Hin. rewrite H2 in Hin.
    destruct (doc_get k (stream (SelfBot.tickets_of s v0))) as [t'|] eqn:Hk.
    + injection Hin as ->. apply Hids. by apply doc_get_In.
    + case_decide; [|done]. by injection Hin as <-.
  - intros n u. rewrite Hiff. split; intros (t & Ht & Hsold & Hb); exists t.
    + rewrite H2. unfold stream. by rewrite Ht.
    + rewrite H2 in Ht.
      destruct (doc_get n (stream (SelfBot.tickets_of s v0))) as [t'|] eqn:Hk.
      * injection Ht as ->. done.
      * case_decide; [|done]. injection Ht as <-. done.
Qed.

Lemma self_initialize_consistent s :
  self_consistent s → self_consistent (SelfBot.initialize_tickets_firestore s).
Proof.
  unfold SelfBot.initialize_tickets_firestore. generalize TICKET_VALUES. intros l.
  revert s. induction l as [|v l IH]; intros s Hs; simpl; [done|].
  apply IH. by apply self_initialize_value_consistent.
Qed.

Lemma self_registrations_of_app s v r :
  SelfBot.registrations_of (SelfBot.set_registrations (λ l, l ++ [r]) s) v =
  SelfBot.registrations_of s v ++
    (if decide (SelfBot.reg_ticketValue r = v) then [r] else []).
Proof.
  unfold SelfBot.registrations_of. cbn [SelfBot.registrations SelfBot.set_registrations].
  rewrite filter_app. reflexivity.
Qed.

Lemma self_sale_consistent v n f r s c t :
  self_consistent s → doc_get n (SelfBot.tickets_of s v) = Some t →
  SelfBot.isSold t = false →
  doc_update n f (SelfBot.tickets_of s v) = Some c → self_sale_shape f r v n →
  self_consistent
    (SelfBot.set_registrations (λ l, l ++ [r]) (SelfBot.set_tickets (insert v c) s)).
Proof.
  intros Hs Ht Hunsold Hc (Hf & Hrv & Hrn) v'.
  destruct (Hs v') as (Hnd & Hids & Hregs & Hiff).
  rewrite self_registrations_of_app.
  change (SelfBot.registrations_of (SelfBot.set_tickets ?g s) v')
    with (SelfBot.registrations_of s v').
  unfold self_ids_match.
  change (SelfBot.tickets_of (SelfBot.set_registrations ?g ?s') v')
    with (SelfBot.tickets_of s' v').
  rewrite self_tickets_of_set_tickets.
  destruct (decide (v' = v)) as [->|Hv].
  2:{ rewrite lookup_total_insert_ne by done.
      rewrite decide_False by congruence. rewrite app_nil_r. done. }
  rewrite lookup_total_insert_eq, decide_True by done.
  assert (Hfresh : n ∉ SelfBot.reg_ticketId <$> SelfBot.registrations_of s v).
  { intros [r' [Hn Hr']]%list_elem_of_fmap.
    destruct (proj1 (Hiff n (SelfBot.reg_buyerId r'))) as (t' & Ht' & Hsold & _).
    { by exists r'. }
    congruence. }
  split_and!.
  - by rewrite (doc_update_keys _ _ _ _ Hc).
  - intros k t' Hin.
    assert (NoDup c.*1) as Hndc by by rewrite (doc_update_keys _ _ _ _ Hc).
    apply (doc_get_NoDup _ _ _ Hndc) in Hin.
    rewrite (doc_get_update _ _ _ _ _ Hc) in Hin. case_decide as Hk.
    + subst k. rewrite Ht in Hin. injection Hin as <-.
      destruct (Hf t) as (_ & _ & ->). apply Hids. by apply doc_get_In.
    + apply Hids. by apply doc_get_In.
  - rewrite fmap_app. apply NoDup_app. split_and!; [done| |apply NoDup_singleton].
    intros k Hk ->%list_elem_of_singleton. simpl in Hfresh. by rewrite Hrn in Hk.
  - intros n' u. rewrite (doc_get_update _ _ _ _ _ Hc). split.
    + intros (r' & [Hr'| ->%list_elem_of_singleton]%elem_of_app & Hn' & Hu').
      * destruct (proj1 (Hiff n' u)) as (t' & Ht' & Hsold & Hb); [by exists r'|].
        exists t'. rewrite decide_False; [done|]. intros ->. congruence.
      * exists (f t). rewrite Hrn in Hn'. subst n'. rewrite decide_True by done.
        rewrite Ht. destruct (Hf t) as (? & ? & _). split_and!; [done..|congruence].
    + intros (t' & Ht' & Hsold & Hb). case_decide as Hk.
      * subst n'. rewrite Ht in Ht'. injection Ht' as <-.
        destruct (Hf t) as (_ & Hb' & _). exists r. split_and!; [|done|congruence].
        apply elem_of_app. right. by apply list_elem_of_singleton.
      * destruct (proj2 (Hiff n' u)) as (r' & Hr' & ? & ?); [by exists t'|].
        exists r'. split_and!; [|done..]. apply elem_of_app. by left.
Qed.

Lemma self_registrations_after_reset (l : list SelfBot.Registration) v v' :
  filter (λ r, SelfBot.reg_ticketValue r = v')
    (filter (λ r, SelfBot.reg_ticketValue r ≠ v) l) =
  if decide (v' = v) then [] else filter (λ r, SelfBot.reg_ticketValue r = v') l.
Proof.
  induction l as [|r l IH]; simpl; [by case_decide|].
  rewrite !filter_cons. destruct (decide (SelfBot.reg_ticketValue r = v')) as [E|E];
    destruct (decide (SelfBot.reg_ticketValue r ≠ v)) as [E'|E']; simpl.
  - rewrite filter_cons, decide_True by done. rewrite IH.
    case_decide; [congruence|done].
  - rewrite IH. case_decide; [done|]. destruct E'. congruence.
  - rewrite filter_cons, decide_False by done. done.
  - done.
Qed.

Lemma self_emptied_consistent v s :
  self_consistent s →
  self_consistent
    (SelfBot.set_round (SelfBot.bump v)
       (SelfBot.set_registrations (filter (λ r, SelfBot.reg_ticketValue r ≠ v))
          (SelfBot.set_tickets (insert v []) s))).
Proof.
  intros Hs v'. destruct (Hs v') as (Hnd & Hids & Hregs & Hiff).
  unfold self_ids_match, SelfBot.registrations_of, SelfBot.tickets_of.
  cbn [SelfBot.tickets SelfBot.registrations SelfBot.set_round
       SelfBot.set_registrations SelfBot.set_tickets].
  rewrite self_registrations_after_reset.
  destruct (decide (v' = v)) as [->|Hv].
  - rewrite lookup_total_insert_eq. split_and!.
    + apply NoDup_nil_2.
    + by intros k t ?%elem_of_nil.
    + apply NoDup_nil_2.
    + intros n u. split.
      * by intros (r & ?%elem_of_nil & _).
      * by intros (t & ? & _).
  - rewrite lookup_total_insert_ne by done. done.
Qed.

Lemma self_reset_consistent v :
  keeps self_consistent (SelfBot.reset_tickets_for_value v).
Proof.
  intros s Hs. unfold SelfBot.reset_tickets_for_value, bind, modify.
  by apply self_initialize_consistent, self_emptied_consistent.
Qed.

Lemma self_check_consistent o date v :
  keeps self_consistent (SelfBot.check_for_lottery_draw o date v).
Proof.
  unfold SelfBot.check_for_lottery_draw.
  apply keeps_bind; [apply keeps_gets|]. intros sold.
  case_decide; [|apply keeps_ret].
  apply keeps_bind; [apply keeps_gets|]. intros [|]; [apply keeps_ret|].
  apply keeps_bind; [|intros ?; apply self_reset_consistent].
  by apply self_conduct_keeps.
Qed.

Lemma self_award_free_ticket_consistent o t1 t2 u v reason :
  ValidOracle o →
  keeps self_consistent (SelfBot.award_free_ticket o t1 t2 u v reason).
Proof.
  intros [_ Hchoice] s Hs.
  unfold SelfBot.award_free_ticket, SelfBot.ticket_update, SelfBot.add_registration,
    modify, gets, ret, bind.
  destruct (SelfBot.unsold_numbers s v) as [|a l] eqn:Ea; [done|].
  assert (Hn : choice o (a :: l) ∈ SelfBot.unsold_numbers s v).
  { rewrite Ea. by apply Hchoice. }
  destruct (Hs v) as (Hnd & Hids & _).
  apply self_unsold_is_unsold_ticket in Hn as (k & t & Hin & Hid & Hunsold).
  rewrite (Hids _ _ Hin) in Hid. subst k.
  apply (doc_get_NoDup _ _ _ Hnd) in Hin.
  destruct (doc_update _ _ _) as [c|] eqn:Hc; [|done].
  eapply self_sale_consistent; [done..|].
  split; [|done]. intros t'. by split_and!.
Qed.

(** X19. In every state that [main.py] reaches from the empty store, sold
    tickets and registrations correspond one to one: per value, ticket
    documents have distinct ids and carry their number, no ticket number is
    registered twice, and a registration of a number to a buyer exists
    exactly when the ticket of that number is sold to that buyer. *)
Lemma self_reachable_consistent s : SelfBot.reachable s → self_consistent s.
Proof.
  apply self_rule_reachable; try done.
  - apply self_initialize_consistent.
  - intros v n f r s' c t. apply self_sale_consistent.
  - apply self_award_free_ticket_consistent.
  - apply self_check_consistent.
  - intros v. unfold self_ids_match, SelfBot.tickets_of, SelfBot.registrations_of.
    cbn. rewrite lookup_total_empty. split_and!.
    + apply NoDup_nil_2.
    + by intros k t ?%elem_of_nil.
    + apply NoDup_nil_2.
    + intros n u. split.
      * by intros (r & ?%elem_of_nil & _).
      * by intros (t & ? & _).
Qed.

Lemma self_reachable_consistent_witness :
  SelfBot.reachable self_round_sold_out ∧ self_consistent self_round_sold_out.
Proof.
  exact (conj self_round_sold_out_reachable
           (self_reachable_consistent _ self_round_sold_out_reachable)).
Defined.

(** ** Initialization in [main.py] *)

(** X13. Initialization in [main.py] keeps every existing ticket as it is;
    where fewer than [TOTAL_TICKETS_PER_VALUE] tickets exist, the missing
    numbers of the range appear as unsold tickets, and nothing else appears. *)
Lemma self_initialize_value_spec v s k :
  NoDup (SelfBot.tickets_of s v).*1 →
  doc_get k (SelfBot.tickets_of (SelfBot.initialize_value v s) v) =
    match doc_get k (SelfBot.tickets_of s v) with
    | Some t => Some t
    | None =>
        if decide (k ∈ ticket_range ∧
                   (length (SelfBot.tickets_of s v) < Z.to_nat TOTAL_TICKETS_PER_VALUE)%nat)
        then Some (SelfBot.new_ticket k v) else None
    end.
Proof.
  intros Hnd. unfold SelfBot.initialize_value, stream.
  rewrite size_list_to_set, length_fmap by done.
  case_decide as Hsize.
  - rewrite self_tickets_of_set_tickets, lookup_total_insert_eq.
    destruct (self_init_fold (list_to_set (SelfBot.tickets_of s v).*1) v
                ticket_range (SelfBot.tickets_of s v)) as [_ H2].
    { intros k' Hk'. left. by apply elem_of_list_to_set. }
    { apply NoDup_seqZ. }
    { done. }
    rewrite H2. destruct (doc_get k (SelfBot.tickets_of s v)) eqn:Hk; [done|].
    apply doc_get_None in Hk.
    destruct (decide (k ∈ ticket_range)) as [Hr|Hr].
    + rewrite !decide_True; [done|done|]. split; [done|]. by rewrite elem_of_list_to_set.
    + rewrite !decide_False; [done|tauto|tauto].
  - destruct (doc_get k (SelfBot.tickets_of s v)); [done|].
    rewrite decide_False; [done|tauto].
Qed.

Lemma self_initialize_value_spec_witness :
  NoDup (SelfBot.tickets_of self_two_sales 100).*1 ∧
  NoDup (SelfBot.tickets_of SelfBot.empty_store 100).*1 ∧
  doc_get 1 (SelfBot.tickets_of (SelfBot.initialize_value 100 self_two_sales) 100) =
    match doc_get 1 (SelfBot.tickets_of self_two_sales 100) with
    | Some t => Some t
    | None =>
        if decide (1 ∈ ticket_range ∧
                   (length (SelfBot.tickets_of self_two_sales 100)
                    < Z.to_nat TOTAL_TICKETS_PER_VALUE)%nat)
        then Some (SelfBot.new_ticket 1 100) else None
    end ∧
  doc_get 5 (SelfBot.tickets_of (SelfBot.initialize_value 100 SelfBot.empty_store) 100) =
    match doc_get 5 (SelfBot.tickets_of SelfBot.empty_store 100) with
    | Some t => Some t
    | None =>
        if decide (5 ∈ ticket_range ∧
                   (length (SelfBot.tickets_of SelfBot.empty_store 100)
                    < Z.to_nat TOTAL_TICKETS_PER_VALUE)%nat)
        then Some (SelfBot.new_ticket 5 100) else None
    end.
Proof.
  assert (H1 : NoDup (SelfBot.tickets_of self_two_sales 100).*1)
    by (refine (bool_decide_unpack _ _); vm_compute; exact I).
  assert (H2 : NoDup (SelfBot.tickets_of SelfBot.empty_store 100).*1)
    by (refine (bool_decide_unpack _ _); vm_compute; exact I).
  exact (conj H1 (conj H2 (conj (self_initialize_value_spec 100 self_two_sales 1 H1)
                             (self_initialize_value_spec 100 SelfBot.empty_store 5 H2)))).
Defined.

Lemma self_sold_after_update n f (c c' : list (Z * SelfBot.Ticket)) :
  doc_update n f c = Some c' →
  (length (filter (λ d, SelfBot.isSold d.2 = true) c')
   ≤ S (length (filter (λ d, SelfBot.isSold d.2 = true) c)))%nat.
Proof.
  revert c'. induction c as [|[k t] c IH]; intros c'; cbn [doc_update]; [done|].
  case_decide as Hk.
  - intros [= <-]. rewrite !filter_cons.
    repeat case_decide; cbn [length]; lia.
  - destruct (doc_update n f c) as [c''|]; [|done]. intros [= <-].
    rewrite !filter_cons. specialize (IH _ eq_refl).
    case_decide; cbn [length]; lia.
Qed.

(** X16. The plain path of a purchase in [main.py]: the selected ticket
    exists and is unsold, no loyalty bonus is due and the round does not sell
    out. The answer is [Purchased]; the ticket is sold to the buyer with one
    registration, the buyer's count for the value grows by one and the
    selection is cleared. *)
Lemma self_purchase_plain o u p s v n t :
  SelfBot.selected_ticket_value (SelfBot.user_data_of s u) = Some v →
  SelfBot.selected_ticket_number (SelfBot.user_data_of s u) = Some n →
  v ≠ 0 → n ≠ 0 →
  doc_get n (SelfBot.tickets_of s v) = Some t →
  SelfBot.isSold t = false →
  (SelfBot.bought_count (SelfBot.get_user_data u s) v + 1) `mod` 10 ≠ 0 →
  Z.of_nat (SelfBot.sold_count s v) + 1 < TOTAL_TICKETS_PER_VALUE →
  ∃ s', SelfBot.process_payment_proof o u p s = (Some SelfBot.Purchased, s') ∧
        self_sale v n (SelfBot.sell u p (now o 0))
          {| SelfBot.reg_ticketId := n; SelfBot.reg_ticketValue := v;
             SelfBot.reg_buyerId := u; SelfBot.reg_purchaseDate := now o 1;
             SelfBot.reg_isFree := false; SelfBot.reg_freeReason := None |} t s s' ∧
        SelfBot.bought_count (SelfBot.get_user_data u s') v
          = SelfBot.bought_count (SelfBot.get_user_data u s) v + 1 ∧
        SelfBot.user_data s' !! u = Some SelfBot.no_user_data.
Proof.
  intros Hv Hn Hv0 Hn0 Ht Hunsold Hmod Hsold.
  destruct (doc_update n (SelfBot.sell u p (now o 0)) (SelfBot.tickets_of s v))
    as [c|] eqn:Hc.
  2:{ apply doc_update_get in Hc. congruence. }
  eexists. split.
  - unfold SelfBot.process_payment_proof. unfold bind at 1, gets at 1.
    rewrite Hv, Hn. unfold truthy.
    destruct (Z.eqb_spec v 0) as [|_]; [done|].
    destruct (Z.eqb_spec n 0) as [|_]; [done|]. cbn [negb andb].
    unfold bind at 1, try_except. unfold bind at 1, gets at 1. rewrite Ht, Hunsold.
    unfold bind at 1. rewrite (self_ticket_update_found _ _ _ _ _ Hc).
    unfold bind at 1, SelfBot.add_registration, modify at 1.
    unfold bind at 1, gets at 1. unfold bind at 1, SelfBot.update_user_data, modify at 1.
    unfold bind at 1.
    change (SelfBot.get_user_data u (SelfBot.set_registrations ?g
              (SelfBot.set_tickets ?h s))) with (SelfBot.get_user_data u s).
    rewrite decide_False by exact Hmod.
    unfold ret at 1. unfold bind at 1.
    unfold SelfBot.check_for_lottery_draw. unfold bind at 1, gets at 1.
    rewrite decide_False.
    2:{ unfold SelfBot.sold_count, SelfBot.tickets_of, stream in *.
        cbn [SelfBot.tickets SelfBot.set_tickets SelfBot.set_registrations
             SelfBot.set_users].
        rewrite lookup_total_insert_eq.
        pose proof (self_sold_after_update _ _ _ _ Hc). lia. }
    unfold ret at 1. unfold ret at 1. unfold bind, modify, ret. reflexivity.
  - split_and!.
    + unfold self_sale, SelfBot.tickets_of.
      cbn [SelfBot.tickets SelfBot.registrations SelfBot.draws SelfBot.round
           SelfBot.set_tickets SelfBot.set_registrations SelfBot.set_users
           SelfBot.set_user_data].
      rewrite lookup_total_insert_eq. split_and!; try done.
      * rewrite (doc_get_update _ _ _ _ _ Hc), decide_True by done. by rewrite Ht.
      * intros n' Hn'. by rewrite (doc_get_update _ _ _ _ _ Hc), decide_False.
      * intros v' Hv'. by rewrite lookup_total_insert_ne.
    + unfold SelfBot.get_user_data at 1.
      cbn [SelfBot.users SelfBot.set_tickets SelfBot.set_registrations
           SelfBot.set_users SelfBot.set_user_data].
      rewrite lookup_insert_eq. unfold SelfBot.bought_count at 1. simpl.
      rewrite lookup_union_l'; [by rewrite lookup_insert_eq|].
      by rewrite lookup_insert_eq.
    + cbn [SelfBot.user_data SelfBot.set_user_data]. by rewrite lookup_insert_eq.
Qed.

Lemma self_purchase_plain_witness :
  ∃ t s',
    SelfBot.selected_ticket_value
      (SelfBot.user_data_of self_number_selected "alice"%string) = Some 100 ∧
    SelfBot.selected_ticket_number
      (SelfBot.user_data_of self_number_selected "alice"%string) = Some 7 ∧
    doc_get 7 (SelfBot.tickets_of self_number_selected 100) = Some t ∧
    SelfBot.isSold t = false ∧
    (SelfBot.bought_count (SelfBot.get_user_data "alice"%string self_number_selected)
       100 + 1) `mod` 10 ≠ 0 ∧
    Z.of_nat (SelfBot.sold_count self_number_selected 100) + 1
      < TOTAL_TICKETS_PER_VALUE ∧
    SelfBot.process_payment_proof first_oracle "alice"%string "receipt"%string
      self_number_selected = (Some SelfBot.Purchased, s') ∧
    self_sale 100 7 (SelfBot.sell "alice"%string "receipt"%string 0)
      {| SelfBot.reg_ticketId := 7; SelfBot.reg_ticketValue := 100;
         SelfBot.reg_buyerId := "alice"%string; SelfBot.reg_purchaseDate := 1;
         SelfBot.reg_isFree := false; SelfBot.reg_freeReason := None |}
      t self_number_selected s' ∧
    SelfBot.bought_count (SelfBot.get_user_data "alice"%string s') 100
      = SelfBot.bought_count
          (SelfBot.get_user_data "alice"%string self_number_selected) 100 + 1 ∧
    SelfBot.user_data s' !! "alice"%string = Some SelfBot.no_user_data.
Proof.
  assert (H1 : SelfBot.selected_ticket_value
                 (SelfBot.user_data_of self_number_selected "alice"%string)
               = Some 100) by (vm_compute; reflexivity).
  assert (H2 : SelfBot.selected_ticket_number
                 (SelfBot.user_data_of self_number_selected "alice"%string)
               = Some 7) by (vm_compute; reflexivity).
  eassert (H3 : doc_get 7 (SelfBot.tickets_of self_number_selected 100) = Some _)
    by (vm_compute; reflexivity).
  assert (H5 : (SelfBot.bought_count
                  (SelfBot.get_user_data "alice"%string self_number_selected) 100 + 1)
                 `mod` 10 ≠ 0) by (vm_compute; discriminate).
  assert (H6 : Z.of_nat (SelfBot.sold_count self_number_selected 100) + 1
               < TOTAL_TICKETS_PER_VALUE) by (vm_compute; reflexivity).
  match type of H3 with
  | _ = Some ?t =>
      assert (H4 : SelfBot.isSold t = false) by reflexivity;
      destruct (self_purchase_plain first_oracle "alice"%string "receipt"%string
                  self_number_selected 100 7 t H1 H2
                  ltac:(discriminate) ltac:(discriminate) H3 H4 H5 H6) as (s' & Hp);
      exists t, s';
      exact (conj H1 (conj H2 (conj H3 (conj H4 (conj H5 (conj H6 Hp))))))
  end.
Defined.

(** ** Verifying twice in [Main.py] *)

Lemma admin_verify_payment_transactions admins o caller u n v s txs :
  caller ∈ admins →
  AdminBot.verify_first (AdminBot.is_pending u n v) caller (AdminBot.transactions s)
    = Some txs →
  AdminBot.transactions (AdminBot.verify_payment admins o caller u n v s).2 = txs.
Proof.
  intros Hadmin Htx. set (I := λ s', AdminBot.transactions s' = txs).
  assert (I_users : ∀ f s', I s' → I (AdminBot.set_users f s')) by done.
  assert (I_sale : ∀ v n u free reason,
            keeps I (AdminBot.mark_as_sold v n u free reason)).
  { intros. unfold AdminBot.mark_as_sold. keeps_go; done. }
  assert (I_reset : ∀ v, keeps I (AdminBot.reset_tickets v)).
  { intros. unfold AdminBot.reset_tickets. keeps_go; done. }
  unfold AdminBot.verify_payment. rewrite decide_False by (intros ?; done).
  enough (hoare (λ s0, s0 = s)
    (try_except
       (let! found := gets (λ s0, AdminBot.verify_first (AdminBot.is_pending u n v)
                                    caller (AdminBot.transactions s0)) in
        match found with
        | None => ret AdminBot.NoPendingTransaction
        | Some transaction_docs =>
            do! modify (AdminBot.set_transactions (λ _, transaction_docs)) in
            do! AdminBot.mark_as_sold v n u false None in
            do! AdminBot.update_tickets_purchased_count u v in
            let! user_data := AdminBot.get_or_create u in
            let purchased_count_for_value := AdminBot.purchased_count user_data v in
            do! (if decide (purchased_count_for_value `mod`
                              LOYALTY_BONUS_PURCHASE_COUNT = 0)
                 then do! AdminBot.award_loyalty_bonus o u v in ret ()
                 else ret ()) in
            let! actual_sold_count := gets (λ s0, AdminBot.sold_count s0 v) in
            do! (if decide (TOTAL_TICKETS_PER_VALUE ≤ Z.of_nat actual_sold_count)
                 then do! AdminBot.conduct_draw o v in ret ()
                 else ret ()) in
            ret AdminBot.PaymentVerified
        end)
       (ret AdminBot.VerificationError)) (λ _, I) I) as H.
  { specialize (H s eq_refl). by destruct (try_except _ _ s) as [[?|] ?]. }
  apply hoare_try with (E' := I); [|by apply hoare_ret].
  eapply hoare_bind with (R := λ found s0, s0 = s ∧ found = Some txs).
  { apply hoare_gets. by intros ? ->. }
  intros found. eapply hoare_conseq with
    (P' := λ s0, s0 = s ∧ found = Some txs) (Q' := λ _, I) (E' := I); [|done..].
  intros s0 [-> ->]. revert s I_users I_sale I_reset Htx.
  intros s I_users I_sale I_reset Htx.
  assert (keeps I
    (do! AdminBot.mark_as_sold v n u false None in
     do! AdminBot.update_tickets_purchased_count u v in
     let! user_data := AdminBot.get_or_create u in
     let purchased_count_for_value := AdminBot.purchased_count user_data v in
     do! (if decide (purchased_count_for_value `mod`
                       LOYALTY_BONUS_PURCHASE_COUNT = 0)
          then do! AdminBot.award_loyalty_bonus o u v in ret ()
          else ret ()) in
     let! actual_sold_count := gets (λ s0, AdminBot.sold_count s0 v) in
     do! (if decide (TOTAL_TICKETS_PER_VALUE ≤ Z.of_nat actual_sold_count)
          then do! AdminBot.conduct_draw o v in ret ()
          else ret ()) in
     ret AdminBot.PaymentVerified)) as Hrest.
  { apply keeps_bind; [apply I_sale|]. intros ?.
    apply keeps_bind; [by apply admin_update_count_keeps|]. intros ?.
    apply keeps_bind; [by apply admin_get_or_create_keeps|]. intros usr.
    apply keeps_bind.
    { case_decide; [|apply keeps_ret].
      apply keeps_bind; [|intros ?; apply keeps_ret].
      by apply admin_award_loyalty_bonus_keeps. }
    intros ?. apply keeps_bind; [apply keeps_gets|]. intros sold.
    apply keeps_bind; [|intros ?; apply keeps_ret].
    case_decide; [|apply keeps_ret].
    apply keeps_bind; [|intros ?; apply keeps_ret].
    by apply admin_conduct_draw_keeps. }
  unfold bind at 1, modify at 1.
  apply (Hrest (AdminBot.set_transactions (λ _, txs) s)). reflexivity.
Qed.

Lemma admin_no_pending_left p admin (l : list AdminBot.Transaction) l' :
  (∀ t, p (AdminBot.verify_transaction admin t) = false) →
  length (filter (λ t, p t = true) l) = 1%nat →
  AdminBot.verify_first p admin l = Some l' →
  Forall (λ t, p t = false) l'.
Proof.
  intros Hp Hone Hl'.
  pose proof (admin_verify_first_spec p admin l) as Hspec. rewrite Hl' in Hspec.
  destruct Hspec as (l1 & t & l2 & -> & H1 & Ht & ->).
  rewrite filter_app, filter_cons, decide_True, length_app in Hone by done.
  cbn [length] in Hone.
  assert (filter (λ t, p t = true) l2 = []) as H2.
  { apply length_zero_iff_nil. lia. }
  apply Forall_app. split; [done|]. constructor; [apply Hp|].
  apply Forall_forall. intros t' Ht'. destruct (p t') eqn:E; [|done].
  assert (t' ∈ filter (λ t, p t = true) l2) as Hin by by apply list_elem_of_filter.
  rewrite H2 in Hin. by apply elem_of_nil in Hin.
Qed.

Lemma admin_verify_first_none p admin (l : list AdminBot.Transaction) :
  Forall (λ t, p t = false) l → AdminBot.verify_first p admin l = None.
Proof.
  induction 1 as [|t l Ht _ IH]; simpl; [done|]. by rewrite Ht, IH.
Qed.

(** X10. When exactly one pending transaction matches, a second [/verify]
    of the same payment, by any administrator, finds no pending transaction
    and changes nothing, whatever the first one did. *)
Lemma admin_verify_twice admins o1 o2 a1 a2 u n v s :
  a1 ∈ admins → a2 ∈ admins →
  length (filter (λ t, AdminBot.is_pending u n v t = true)
            (AdminBot.transactions s)) = 1%nat →
  AdminBot.verify_payment admins o2 a2 u n v
    (AdminBot.verify_payment admins o1 a1 u n v s).2
  = (Some AdminBot.NoPendingTransaction,
     (AdminBot.verify_payment admins o1 a1 u n v s).2).
Proof.
  intros H1 H2 Hone.
  destruct (AdminBot.verify_first (AdminBot.is_pending u n v) a1
              (AdminBot.transactions s)) as [txs|] eqn:Htx.
  2:{ pose proof (admin_verify_first_spec (AdminBot.is_pending u n v) a1
                    (AdminBot.transactions s)) as Hspec. rewrite Htx in Hspec.
      assert (∀ l : list AdminBot.Transaction,
                Forall (λ t, AdminBot.is_pending u n v t = false) l →
                filter (λ t, AdminBot.is_pending u n v t = true) l = []) as Hnil.
      { induction 1 as [|t l Ht _ IH]; [done|].
        rewrite filter_cons, decide_False by congruence. done. }
      rewrite (Hnil _ Hspec) in Hone. discriminate Hone. }
  apply admin_verify_rejected; [done|].
  rewrite (admin_verify_payment_transactions _ _ _ _ _ _ _ _ H1 Htx).
  apply admin_verify_first_none.
  eapply admin_no_pending_left; [|done..].
  apply admin_verified_is_not_pending.
Qed.

Lemma admin_verify_twice_witness :
  "900"%string ∈ example_admins ∧ "901"%string ∈ example_admins ∧
  length (filter (λ t, AdminBot.is_pending "alice"%string 7 100 t = true)
            (AdminBot.transactions admin_pending_order)) = 1%nat ∧
  AdminBot.verify_payment example_admins first_oracle "901"%string "alice"%string 7 100
    (AdminBot.verify_payment example_admins first_oracle "900"%string "alice"%string
       7 100 admin_pending_order).2
  = (Some AdminBot.NoPendingTransaction,
     (AdminBot.verify_payment example_admins first_oracle "900"%string "alice"%string
        7 100 admin_pending_order).2).
Proof.
  assert (H0 : "900"%string ∈ example_admins)
    by (refine (bool_decide_unpack _ _); vm_compute; exact I).
  assert (H1 : "901"%string ∈ example_admins)
    by (refine (bool_decide_unpack _ _); vm_compute; exact I).
  assert (H2 : length (filter (λ t, AdminBot.is_pending "alice"%string 7 100 t = true)
                         (AdminBot.transactions admin_pending_order)) = 1%nat)
    by (vm_compute; reflexivity).
  exact (conj H0 (conj H1 (conj H2
           (admin_verify_twice example_admins first_oracle first_oracle _ _ _ _ _ _
              H0 H1 H2)))).
Defined.

(** ** Counting of loyalty bonus tickets *)

Lemma admin_loyalty_bonus_counts o u v n s s' :
  AdminBot.award_loyalty_bonus o u v s = (Some (AdminBot.BonusAwarded n), s') →
  ∃ usr, AdminBot.users s !! u = Some usr ∧
         AdminBot.users s' = <[u := AdminBot.increment_count v usr]> (AdminBot.users s) ∧
         AdminBot.purchased_count (AdminBot.increment_count v usr) v
         = AdminBot.purchased_count usr v + 1.
Proof.
  unfold AdminBot.award_loyalty_bonus. unfold bind at 1, gets at 1.
  destruct (AdminBot.get_available v s) as [|a l]; [intros [= ]|].
  unfold bind at 1, AdminBot.mark_as_sold, bind at 1.
  destruct (doc_update _ _ _) as [c|]; [|intros [= ]].
  unfold bind at 1, modify at 1, modify at 1.
  unfold bind, AdminBot.update_tickets_purchased_count, AdminBot.user_update.
  cbn [AdminBot.users AdminBot.set_registrations AdminBot.set_tickets].
  destruct (AdminBot.users s !! u) as [usr|]; [|intros [= ]].
  unfold ret. intros [= _ <-]. exists usr. split_and!; [done..|].
  unfold AdminBot.purchased_count at 1, AdminBot.increment_count.
  cbn [AdminBot.tickets_purchased_count]. by rewrite lookup_insert_eq.
Qed.

Lemma self_loyalty_bonus_keeps_users o t1 t2 u v s :
  SelfBot.users (SelfBot.award_loyalty_bonus o t1 t2 u v s).2 = SelfBot.users s.
Proof.
  apply (keeps_state (λ s', SelfBot.users s' = SelfBot.users s)); [|done].
  by apply self_award_loyalty_bonus_keeps.
Qed.

(** C8 (as amended). In [Main.py], every loyalty bonus ticket awarded counts:
    the user document is rewritten by the same [update_tickets_purchased_count]
    as for a verified purchase, and the count of the value is one more than
    before.  In [main.py], a loyalty bonus ticket does not count:
    [award_loyalty_bonus] writes no user document, so [ticketsBoughtCount] of
    every user and value is what it was. *)
Theorem loyalty_bonus_counts_in_admin_bot_only :
  (∀ (o : Oracle AdminBot.Registration) (u : string) (v n : Z) (s s' : AdminBot.State),
     AdminBot.award_loyalty_bonus o u v s = (Some (AdminBot.BonusAwarded n), s') →
     ∃ usr, AdminBot.users s !! u = Some usr ∧
            AdminBot.users s'
            = <[u := AdminBot.increment_count v usr]> (AdminBot.users s) ∧
            AdminBot.purchased_count (AdminBot.increment_count v usr) v
            = AdminBot.purchased_count usr v + 1)
  ∧ (∀ (o : Oracle SelfBot.Registration) (t1 t2 : Z) (u : string) (v : Z)
       (s : SelfBot.State) (u' : string) (v' : Z),
       SelfBot.bought_count
         (SelfBot.get_user_data u' (SelfBot.award_loyalty_bonus o t1 t2 u v s).2) v'
       = SelfBot.bought_count (SelfBot.get_user_data u' s) v').
Proof.
  split.
  - intros o u v n s s'. apply admin_loyalty_bonus_counts.
  - intros o t1 t2 u v s u' v'. unfold SelfBot.get_user_data.
    by rewrite self_loyalty_bonus_keeps_users.
Qed.

Lemma loyalty_bonus_counts_in_admin_bot_only_witness :
  ∃ n s' usr,
    AdminBot.award_loyalty_bonus first_oracle "alice"%string 100 admin_two_sales
      = (Some (AdminBot.BonusAwarded n), s') ∧
    AdminBot.users admin_two_sales !! "alice"%string = Some usr ∧
    AdminBot.users s'
      = <["alice"%string := AdminBot.increment_count 100 usr]>
          (AdminBot.users admin_two_sales) ∧
    AdminBot.purchased_count (AdminBot.increment_count 100 usr) 100
      = AdminBot.purchased_count usr 100 + 1.
Proof.
  eassert (H : AdminBot.award_loyalty_bonus first_oracle "alice"%string 100
                 admin_two_sales = (Some (AdminBot.BonusAwarded _), _))
    by (vm_compute; reflexivity).
  match type of H with
  | _ = (Some (AdminBot.BonusAwarded ?n), ?s') =>
      destruct (proj1 loyalty_bonus_counts_in_admin_bot_only first_oracle
                  "alice"%string 100 n admin_two_sales s' H) as (usr & Hu);
      exists n, s', usr; exact (conj H Hu)
  end.
Defined.

(** C8 (as stated) fails in [main.py]: on the initialized store, the award
    of a loyalty bonus ticket of value 100 to alice gives her ticket 1, and
    her count of value 100 is 0 before and after. *)
Lemma loyalty_bonus_is_not_counted_in_self_bot : ¬ loyalty_bonus_counted_as_stated.
Proof.
  intros [_ H].
  assert (∃ s', SelfBot.award_loyalty_bonus first_oracle 0 1 "alice"%string 100
                  (SelfBot.initialize_tickets_firestore SelfBot.empty_store)
                = (Some (SelfBot.BonusAwarded 1), s')) as [s' E]
    by (eexists; vm_compute; reflexivity).
  pose proof (self_loyalty_bonus_keeps_users first_oracle 0 1 "alice"%string 100
                (SelfBot.initialize_tickets_firestore SelfBot.empty_store)) as Hu.
  rewrite E in Hu. cbn [snd] in Hu.
  specialize (H _ _ _ _ _ _ _ _ E).
  unfold SelfBot.get_user_data in H. rewrite Hu in H. lia.
Qed.

(** ** Two referral claims in sequence *)

Lemma admin_referral_claim o1 o2 s u :
  ValidOracle o1 → admin_eligible s u →
  AdminBot.get_available REFERRAL_BONUS_TICKET_VALUE s ≠ [] →
  admin_two_claims_award_one o1 o2 s u.
Proof.
  intros [_ Hchoice] (usr & Hu & Hcount & Hclaimed) Havail.
  pose proof (Hchoice _ Havail) as Hn.
  destruct (AdminBot.get_available REFERRAL_BONUS_TICKET_VALUE s) as [|a l] eqn:Ea;
    [done|].
  rewrite <- Ea in Hn at 2.
  destruct (admin_available_can_be_updated _ _ _
              (AdminBot.sell u true (Some "Referral Bonus"%string)) Hn) as [c Hc].
  destruct (doc_get (choice o1 (a :: l))
              (AdminBot.tickets_of s REFERRAL_BONUS_TICKET_VALUE)) as [t|] eqn:Ht.
  2:{ pose proof (proj2 (doc_update_get _
        (AdminBot.sell u true (Some "Referral Bonus"%string)) _) Ht). congruence. }
  eexists _, _. split_and!.
  - unfold AdminBot.claim_referral_bonus. unfold bind at 1.
    rewrite (admin_get_or_create_found _ _ _ Hu).
    rewrite decide_True by done.
    unfold try_except, AdminBot.award_referral_bonus, bind at 1, bind at 1, gets.
    rewrite Ea. unfold bind at 1.
    rewrite (admin_mark_as_sold_found _ _ _ _ _ _ _ Hc).
    unfold bind at 1, AdminBot.update_tickets_purchased_count.
    erewrite admin_user_update_found by exact Hu.
    unfold bind at 1.
    erewrite admin_user_update_found by apply lookup_insert_eq.
    unfold ret at 1. unfold bind.
    erewrite admin_get_or_create_found by apply lookup_insert_eq.
    unfold ret. reflexivity.
  - done.
  - exists (AdminBot.sell u true (Some "Referral Bonus"%string) t).
    unfold AdminBot.tickets_of.
    cbn [AdminBot.tickets AdminBot.set_users AdminBot.set_registrations
         AdminBot.set_tickets].
    rewrite lookup_total_insert_eq.
    rewrite (doc_get_update _ _ _ _ _ Hc), decide_True by done.
    by rewrite Ht.
  - intros n' Hn'. unfold AdminBot.tickets_of at 1.
    cbn [AdminBot.tickets AdminBot.set_users AdminBot.set_registrations
         AdminBot.set_tickets].
    rewrite lookup_total_insert_eq.
    by rewrite (doc_get_update _ _ _ _ _ Hc), decide_False.
  - intros v' Hv'. unfold AdminBot.tickets_of.
    cbn [AdminBot.tickets AdminBot.set_users AdminBot.set_registrations
         AdminBot.set_tickets].
    by rewrite lookup_total_insert_ne.
  - reflexivity.
  - eexists. split; [apply lookup_insert_eq|done].
  - unfold AdminBot.claim_referral_bonus. unfold bind at 1.
    erewrite admin_get_or_create_found by apply lookup_insert_eq.
    rewrite decide_False; [done|]. intros [_ ?]. done.
Qed.

Lemma admin_referral_claim_sold_out o s u :
  admin_eligible s u →
  AdminBot.get_available REFERRAL_BONUS_TICKET_VALUE s = [] →
  AdminBot.claim_referral_bonus o u s = (Some AdminBot.ClaimNoNumbers, s).
Proof.
  intros (usr & Hu & Hcount & Hclaimed) Ha.
  unfold AdminBot.claim_referral_bonus. unfold bind at 1.
  rewrite (admin_get_or_create_found _ _ _ Hu).
  rewrite decide_True by done.
  unfold try_except, AdminBot.award_referral_bonus, bind at 1, bind at 1, gets.
  rewrite Ha. unfold ret at 1. unfold bind.
  by rewrite (admin_get_or_create_found _ _ _ Hu).
Qed.

(** In every state that [main.py] reaches, the ticket documents are stored
    under their own number. *)
Lemma self_reachable_ids_match s v : SelfBot.reachable s → self_ids_match s v.
Proof.
  intros Hs. cut (self_consistent s); [intros H; apply H|].
  revert Hs. apply self_rule_reachable; try done.
  - apply self_initialize_consistent.
  - intros v0 n f r s' c t. apply self_sale_consistent.
  - apply self_award_free_ticket_consistent.
  - apply self_check_consistent.
  - intros v0. unfold self_ids_match, SelfBot.tickets_of, SelfBot.registrations_of.
    cbn. rewrite lookup_total_empty. split_and!.
    + apply NoDup_nil_2.
    + by intros k t ?%elem_of_nil.
    + apply NoDup_nil_2.
    + intros n u. split.
      * by intros (r & ?%elem_of_nil & _).
      * by intros (t & ? & _).
Qed.

Lemma self_referral_claim o1 o2 s u :
  ValidOracle o1 → self_eligible s u → SelfBot.reachable s →
  SelfBot.unsold_numbers s 200 ≠ [] →
  self_two_claims_award_one o1 o2 s u.
Proof.
  intros [_ Hchoice] [Hcount Hclaimed] Hids%(self_reachable_ids_match _ 200) Havail.
  pose proof (Hchoice _ Havail) as Hn.
  destruct (SelfBot.unsold_numbers s 200) as [|a l] eqn:Ea; [done|].
  rewrite <- Ea in Hn at 2.
  destruct (self_unsold_can_be_updated _ _ _
    (SelfBot.sell_free u "Referral Bonus"%string (now o1 0)) Hids Hn) as [c Hc].
  destruct (doc_get (choice o1 (a :: l)) (SelfBot.tickets_of s 200)) as [t|] eqn:Ht.
  2:{ pose proof (proj2 (doc_update_get _
        (SelfBot.sell_free u "Referral Bonus"%string (now o1 0)) _) Ht). congruence. }
  eexists _, _. split_and!.
  - unfold SelfBot.claim_referral_bonus. unfold bind at 1, gets at 1.
    rewrite decide_True by done.
    unfold try_except, SelfBot.award_free_ticket, bind at 1, bind at 1, gets.
    rewrite Ea. unfold bind at 1.
    rewrite (self_ticket_update_found _ _ _ _ _ Hc).
    unfold bind, SelfBot.add_registration, SelfBot.update_user_data, modify, ret.
    reflexivity.
  - done.
  - exists (SelfBot.sell_free u "Referral Bonus"%string (now o1 0) t).
    unfold SelfBot.tickets_of.
    cbn [SelfBot.tickets SelfBot.set_users SelfBot.set_registrations
         SelfBot.set_tickets].
    rewrite lookup_total_insert_eq.
    rewrite (doc_get_update _ _ _ _ _ Hc), decide_True by done.
    by rewrite Ht.
  - intros n' Hn'. unfold SelfBot.tickets_of at 1.
    cbn [SelfBot.tickets SelfBot.set_users SelfBot.set_registrations
         SelfBot.set_tickets].
    rewrite lookup_total_insert_eq.
    by rewrite (doc_get_update _ _ _ _ _ Hc), decide_False.
  - intros v' Hv'. unfold SelfBot.tickets_of.
    cbn [SelfBot.tickets SelfBot.set_users SelfBot.set_registrations
         SelfBot.set_tickets].
    by rewrite lookup_total_insert_ne.
  - reflexivity.
  - unfold SelfBot.get_user_data. cbn [SelfBot.users SelfBot.set_users
      SelfBot.set_registrations SelfBot.set_tickets].
    by rewrite lookup_insert_eq.
  - unfold SelfBot.claim_referral_bonus. unfold bind at 1, gets at 1.
    rewrite decide_False; [done|]. intros [_ H]. revert H.
    unfold SelfBot.get_user_data at 1. cbn [SelfBot.users SelfBot.set_users
      SelfBot.set_registrations SelfBot.set_tickets].
    by rewrite lookup_insert_eq.
Qed.

Lemma self_referral_claim_sold_out o s u :
  self_eligible s u → SelfBot.unsold_numbers s 200 = [] →
  SelfBot.claim_referral_bonus o u s = (Some SelfBot.ClaimNoNumbers, s).
Proof.
  intros [Hcount Hclaimed] Ha.
  unfold SelfBot.claim_referral_bonus. unfold bind at 1, gets at 1.
  rewrite decide_True by done.
  unfold try_except, SelfBot.award_free_ticket, bind at 1, bind at 1, gets.
  by rewrite Ha.
Qed.

(** C7 (as amended). For every eligible user, when a ticket of the referral
    value is available, two claims in sequence award exactly one free ticket:
    the first call sells one available ticket of value 200 to the user as a
    free "Referral Bonus" ticket (sold, owned by the user, no other ticket
    changed), appends its registration and sets the claimed flag; the second
    call is refused and changes nothing.  When no ticket of the referral
    value is available, the first call answers that no number is available
    and changes nothing: no ticket, and the flag stays unset.  This holds in
    [Main.py] in every state, and in [main.py] in every state the bot
    reaches. *)
Theorem referral_claim_awards_one_ticket_or_none :
  (∀ (o1 o2 : Oracle AdminBot.Registration) (s : AdminBot.State) (u : string),
     ValidOracle o1 → admin_eligible s u →
     AdminBot.get_available REFERRAL_BONUS_TICKET_VALUE s ≠ [] →
     admin_two_claims_award_one o1 o2 s u)
  ∧ (∀ (o : Oracle AdminBot.Registration) (s : AdminBot.State) (u : string),
       admin_eligible s u →
       AdminBot.get_available REFERRAL_BONUS_TICKET_VALUE s = [] →
       AdminBot.claim_referral_bonus o u s = (Some AdminBot.ClaimNoNumbers, s))
  ∧ (∀ (o1 o2 : Oracle SelfBot.Registration) (s : SelfBot.State) (u : string),
       ValidOracle o1 → self_eligible s u → SelfBot.reachable s →
       SelfBot.unsold_numbers s 200 ≠ [] →
       self_two_claims_award_one o1 o2 s u)
  ∧ (∀ (o : Oracle SelfBot.Registration) (s : SelfBot.State) (u : string),
       self_eligible s u → SelfBot.unsold_numbers s 200 = [] →
       SelfBot.claim_referral_bonus o u s = (Some SelfBot.ClaimNoNumbers, s)).
Proof.
  split_and!.
  - apply admin_referral_claim.
  - apply admin_referral_claim_sold_out.
  - apply self_referral_claim.
  - apply self_referral_claim_sold_out.
Qed.

Lemma self_ten_invites_reachable : SelfBot.reachable self_ten_invites.
Proof.
  apply self_run_reachable; [constructor|].
  repeat (constructor; [intros o Ho; discriminate Ho|]). constructor.
Qed.

Lemma referral_claim_awards_one_ticket_or_none_witness :
  admin_two_claims_award_one first_oracle first_oracle admin_ten_invites "900"%string
  ∧ AdminBot.claim_referral_bonus first_oracle "901"%string admin_round_200_sold_out
    = (Some AdminBot.ClaimNoNumbers, admin_round_200_sold_out)
  ∧ self_two_claims_award_one first_oracle first_oracle self_ten_invites "alice"%string
  ∧ SelfBot.claim_referral_bonus first_oracle "alice"%string self_ten_invites_unopened
    = (Some SelfBot.ClaimNoNumbers, self_ten_invites_unopened).
Proof.
  split_and!.
  - apply (proj1 referral_claim_awards_one_ticket_or_none).
    + apply first_oracle_valid.
    + eexists. split_and!; [vm_compute; reflexivity|vm_compute; discriminate|].
      vm_compute. reflexivity.
    + vm_compute. discriminate.
  - apply (proj1 (proj2 referral_claim_awards_one_ticket_or_none)).
    + eexists. split_and!; [vm_compute; reflexivity|vm_compute; discriminate|].
      vm_compute. reflexivity.
    + vm_compute. reflexivity.
  - apply (proj1 (proj2 (proj2 referral_claim_awards_one_ticket_or_none))).
    + apply first_oracle_valid.
    + split; [vm_compute; discriminate|vm_compute; reflexivity].
    + apply self_ten_invites_reachable.
    + vm_compute. discriminate.
  - apply (proj2 (proj2 (proj2 referral_claim_awards_one_ticket_or_none))).
    + split; [vm_compute; discriminate|vm_compute; reflexivity].
    + vm_compute. reflexivity.
Defined.

(** C7 (as stated) fails: in a run of [Main.py] the round of value 200 is
    sold out; the eligible user 901 claims and gets the answer that no
    numbers are available, and no ticket. *)
Lemma referral_claim_fails_when_sold_out : ¬ referral_claim_as_stated.
Proof.
  intros H.
  destruct (H first_oracle first_oracle admin_round_200_sold_out "901"%string)
    as (n & s1 & Hclaim & _).
  - apply first_oracle_valid.
  - eexists. split_and!; [vm_compute; reflexivity|vm_compute; discriminate|].
    vm_compute. reflexivity.
  - apply (f_equal fst) in Hclaim. revert Hclaim.
    assert ((AdminBot.claim_referral_bonus first_oracle "901"%string
               admin_round_200_sold_out).1 = Some AdminBot.ClaimNoNumbers) as ->
      by (vm_compute; reflexivity).
    discriminate.
Qed.

(** ** The draw trigger of [main.py] needs a hundred registrations *)

Lemma self_sold_after_set k t (c : list (Z * SelfBot.Ticket)) :
  SelfBot.isSold t = false →
  (length (filter (λ d, SelfBot.isSold d.2 = true)
             (doc_set k t c : list (Z * SelfBot.Ticket)))
   ≤ length (filter (λ d, SelfBot.isSold d.2 = true) c))%nat.
Proof.
  intros Ht. induction c as [|[k' t'] c IH]; cbn [doc_set].
  - rewrite filter_cons, decide_False by (simpl; congruence). done.
  - case_decide as Hk.
    + rewrite !filter_cons. repeat case_decide; simpl in *; try congruence; lia.
    + destruct (doc_id k <? doc_id k')%string.
      * rewrite filter_cons, decide_False by (simpl; congruence). done.
      * rewrite !filter_cons. case_decide; cbn [length]; lia.
Qed.

Lemma self_sold_after_init_fold (existing : gset Z) v (l : list Z)
    (c : list (Z * SelfBot.Ticket)) :
  (length (filter (λ d, SelfBot.isSold d.2 = true)
             (foldl (λ c i, if decide (i ∈ existing) then c
                            else doc_set i (SelfBot.new_ticket i v) c) c l))
   ≤ length (filter (λ d, SelfBot.isSold d.2 = true) c))%nat.
Proof.
  revert c. induction l as [|i l IH]; intros c; simpl; [done|].
  etrans; [apply IH|]. case_decide; [done|]. by apply self_sold_after_set.
Qed.

Lemma self_initialize_value_sold_registered v0 s :
  self_sold_registered s → self_sold_registered (SelfBot.initialize_value v0 s).
Proof.
  intros Hs v. unfold SelfBot.initialize_value. case_decide; [|apply Hs].
  specialize (Hs v). unfold SelfBot.sold_count, SelfBot.registrations_of, stream in *.
  rewrite self_tickets_of_set_tickets.
  cbn [SelfBot.registrations SelfBot.set_tickets].
  destruct (decide (v = v0)) as [->|Hv].
  - rewrite lookup_total_insert_eq. etrans; [apply self_sold_after_init_fold|done].
  - by rewrite lookup_total_insert_ne.
Qed.

Lemma self_initialize_sold_registered s :
  self_sold_registered s → self_sold_registered (SelfBot.initialize_tickets_firestore s).
Proof.
  unfold SelfBot.initialize_tickets_firestore. generalize TICKET_VALUES. intros l.
  revert s. induction l as [|v l IH]; intros s Hs; simpl; [done|].
  apply IH. by apply self_initialize_value_sold_registered.
Qed.

Lemma self_sale_sold_registered v n f r s c :
  self_sold_registered s →
  doc_update n f (SelfBot.tickets_of s v) = Some c →
  SelfBot.reg_ticketValue r = v →
  self_sold_registered
    (SelfBot.set_registrations (λ l, l ++ [r]) (SelfBot.set_tickets (insert v c) s)).
Proof.
  intros Hs Hc Hr v'. specialize (Hs v').
  rewrite self_registrations_of_app.
  unfold SelfBot.sold_count, SelfBot.registrations_of, SelfBot.tickets_of, stream in *.
  cbn [SelfBot.tickets SelfBot.registrations SelfBot.set_registrations
       SelfBot.set_tickets].
  rewrite length_app. destruct (decide (v' = v)) as [->|Hv].
  - rewrite lookup_total_insert_eq, decide_True by done.
    pose proof (self_sold_after_update _ _ _ _ Hc). cbn [length]. lia.
  - rewrite lookup_total_insert_ne by done. lia.
Qed.

Lemma self_award_free_ticket_sold_registered o t1 t2 u v reason :
  keeps self_sold_registered (SelfBot.award_free_ticket o t1 t2 u v reason).
Proof.
  intros s Hs.
  unfold SelfBot.award_free_ticket, SelfBot.ticket_update, SelfBot.add_registration,
    modify, gets, ret, bind.
  destruct (SelfBot.unsold_numbers s v) as [|a l]; [done|].
  destruct (doc_update _ _ _) as [c|] eqn:Hc; [|done].
  by eapply self_sale_sold_registered.
Qed.

Lemma self_reset_sold_registered v :
  keeps self_sold_registered (SelfBot.reset_tickets_for_value v).
Proof.
  intros s Hs. unfold SelfBot.reset_tickets_for_value, bind, modify.
  apply self_initialize_sold_registered. intros v'. specialize (Hs v').
  unfold SelfBot.sold_count, SelfBot.registrations_of, SelfBot.tickets_of, stream in *.
  cbn [SelfBot.tickets SelfBot.registrations SelfBot.set_round
       SelfBot.set_registrations SelfBot.set_tickets].
  rewrite self_registrations_after_reset.
  destruct (decide (v' = v)) as [->|Hv].
  - by rewrite lookup_total_insert_eq.
  - by rewrite lookup_total_insert_ne.
Qed.

Lemma self_check_sold_registered o date v :
  keeps self_sold_registered (SelfBot.check_for_lottery_draw o date v).
Proof.
  unfold SelfBot.check_for_lottery_draw.
  apply keeps_bind; [apply keeps_gets|]. intros sold.
  case_decide; [|apply keeps_ret].
  apply keeps_bind; [apply keeps_gets|]. intros [|]; [apply keeps_ret|].
  apply keeps_bind; [|intros ?; apply self_reset_sold_registered].
  by apply self_conduct_keeps.
Qed.

(** In every state that [main.py] reaches, every sold ticket was registered. *)
Lemma self_reachable_sold_registered s :
  SelfBot.reachable s → self_sold_registered s.
Proof.
  apply self_rule_reachable; try done.
  - apply self_initialize_sold_registered.
  - intros v n f r s' c t Hs _ _ Hc [_ [Hr _]]. by eapply self_sale_sold_registered.
  - intros o t1 t2 u v reason _. apply self_award_free_ticket_sold_registered.
  - apply self_check_sold_registered.
  - intros v. unfold SelfBot.sold_count, SelfBot.registrations_of, SelfBot.tickets_of.
    cbn. by rewrite lookup_total_empty.
Qed.


Lemma self_two_sales_reachable : SelfBot.reachable self_two_sales.
Proof.
  apply self_run_reachable; [constructor|].
  repeat (constructor;
          [intros o Ho; try discriminate Ho; injection Ho as <-;
           apply first_oracle_valid|]).
  constructor.
Qed.


(** ** A draw with fewer than three winners *)

Lemma admin_draw_never_completes o v s :
  (3 ≤ length (AdminBot.registrations_of s v))%nat →
  (AdminBot.conduct_draw o v s).1 = Some AdminBot.DrawFailed.
Proof.
  intros Hlen.
  unfold AdminBot.conduct_draw, try_except. unfold bind at 1, gets at 1.
  rewrite decide_False by lia. unfold bind at 1.
  destruct (AdminBot.select_winners v _) as [ws|]; [|done]. simpl lift_option.
  unfold ret at 1. unfold bind at 1, gets at 1. unfold bind at 1, modify at 1.
  unfold bind at 1.
  destruct (AdminBot.credit_winners ws _) as [[[]|] s1]; [|done].
  unfold AdminBot.reset_tickets, bind, modify, raise, ret. reflexivity.
Qed.

Lemma admin_draw_record_is_written o v s ws :
  (3 ≤ length (AdminBot.registrations_of s v))%nat →
  AdminBot.select_winners v (shuffle o (AdminBot.registrations_of s v)) = Some ws →
  AdminBot.draws (AdminBot.conduct_draw o v s).2 = AdminBot.draws s ++
    [{| AdminBot.draw_ticket_value := v; AdminBot.winners := ws;
        AdminBot.draw_round := AdminBot.round_of s v |}].
Proof.
  intros Hlen Hws.
  unfold AdminBot.conduct_draw, try_except. unfold bind at 1, gets at 1.
  rewrite decide_False by lia. unfold bind at 1. rewrite Hws. simpl lift_option.
  unfold ret at 1. unfold bind at 1, gets at 1. unfold bind at 1, modify at 1.
  match goal with
  | |- AdminBot.draws (match ?m ?s1 with _ => _ end).2 = ?D =>
      assert (keeps (λ s', AdminBot.draws s' = D) m) as Hk;
      [|specialize (Hk s1 eq_refl); by destruct (m s1) as [[?|] ?]]
  end.
  apply keeps_bind; [by apply admin_credit_winners_keeps|]. intros _.
  apply keeps_bind; [|intros ?; apply keeps_ret].
  intros s' Hs'. unfold AdminBot.reset_tickets, bind, modify, raise. done.
Qed.

Lemma self_draw_completes o date v s :
  (3 ≤ length (SelfBot.registrations_of s v))%nat →
  SelfBot.conduct_lottery_draw o date v s =
    (Some SelfBot.DrawCompleted,
     SelfBot.set_draws (λ l, l ++
       [{| SelfBot.ticketValue := v; SelfBot.drawDate := date;
           SelfBot.winners :=
             SelfBot.select_winners v (shuffle o (SelfBot.registrations_of s v));
           SelfBot.draw_round := SelfBot.round_of s v |}]) s).
Proof.
  intros Hlen. unfold SelfBot.conduct_lottery_draw, bind, gets, modify, ret.
  by rewrite decide_False by lia.
Qed.


